(** * 100cims: altitude-band contour drawings and their merge into composites

    A shallow embedding of the Python sources

      - [mergeDXF.py]              (module [MergeDXF])
      - [src/data_maps.py]         (module [DataMaps])
      - [src/data_processing.py]   (module [DataProcessing])

    Python floats are modelled by exact rationals ([Q]); Python ints by [Z];
    exceptions by an outcome type; the file system by an explicit store that
    is threaded through the code in a small state-and-exception monad.  The
    third-party libraries (ezdxf, alphashape, scipy) are modelled by the part
    of their behaviour the sources rely on; where that behaviour is numeric
    (alpha shapes, spline fitting) it is taken as a parameter: a class of the
    library's operations, with instances to run the code on. *)

From Stdlib Require Import List ZArith QArith Qround Qabs String Ascii Bool Lia Lqa.
From Stdlib Require Import Permutation Sorted DecimalString DecimalZ.
Import ListNotations.

Local Open Scope Z_scope.

(* ===================================================================== *)
(** * Python values: exceptions, list indexing, slices, ranges, strings  *)
(* ===================================================================== *)

Module Py.

(** The exceptions the sources can raise. *)
Inductive exn : Type :=
| IndexError
| ValueError
| IOError
| SplineError.

Inductive outcome (A : Type) : Type :=
| Ok (a : A)
| Raise (e : exn).
Arguments Ok {A} a.
Arguments Raise {A} e.

Definition obind {A B} (o : outcome A) (f : A -> outcome B) : outcome B :=
  match o with Ok a => f a | Raise e => Raise e end.

Definition len {A} (l : list A) : Z := Z.of_nat (List.length l).

(** [l[i]] for a Python int [i]: negative indices count from the end, and an
    index outside [-len, len) raises [IndexError]. *)
Definition getitem {A} (l : list A) (i : Z) : outcome A :=
  let j := if i <? 0 then len l + i else i in
  if j <? 0 then Raise IndexError
  else match nth_error l (Z.to_nat j) with
       | Some a => Ok a
       | None => Raise IndexError
       end.

(** A slice bound is clamped to [0, len] after a negative one is shifted. *)
Definition slice_bound (n i : Z) : Z :=
  if i <? 0 then Z.max 0 (n + i) else Z.min i n.

(** [l[start:stop]] *)
Definition slice {A} (l : list A) (start stop : Z) : list A :=
  let a := slice_bound (len l) start in
  let b := slice_bound (len l) stop in
  firstn (Z.to_nat (b - a)) (skipn (Z.to_nat a) l).

(** [l[start:]] *)
Definition slice_from {A} (l : list A) (start : Z) : list A :=
  skipn (Z.to_nat (slice_bound (len l) start)) l.

(** [enumerate(l, start=start)] *)
Fixpoint enumerate {A} (l : list A) (start : Z) : list (Z * A) :=
  match l with
  | [] => []
  | a :: l' => (start, a) :: enumerate l' (start + 1)
  end.

(** The values [i, i + step, ...] below [stop], for a positive [step]; the
    fuel bounds the number of values. *)
Fixpoint range_up (fuel : nat) (i stop step : Z) : list Z :=
  match fuel with
  | O => []
  | S fuel' =>
      if i <? stop then i :: range_up fuel' (i + step) stop step else []
  end.

(** [range(0, stop, step)] for [stop >= 0]: a zero step raises [ValueError],
    a negative step gives the empty range.  With [step >= 1] there are at
    most [stop] values, so [stop] is enough fuel. *)
Definition range0 (stop step : Z) : outcome (list Z) :=
  if step =? 0 then Raise ValueError
  else if step <? 0 then Ok []
  else Ok (range_up (Z.to_nat stop) 0 stop step).

(** [l.index(x)]: the position of the first element equal to [x]. *)
Fixpoint index {A} (eqb : A -> A -> bool) (l : list A) (x : A) : outcome Z :=
  match l with
  | [] => Raise ValueError
  | a :: l' =>
      if eqb a x then Ok 0
      else match index eqb l' x with
           | Ok i => Ok (i + 1)
           | Raise e => Raise e
           end
  end.

(** ** Strings *)

Local Open Scope string_scope.

(** ASCII white space, as [str.split()] with no argument sees it. *)
Definition is_space (c : ascii) : bool :=
  let n := nat_of_ascii c in
  ((9 <=? n) && (n <=? 13))%nat || (n =? 32)%nat || ((28 <=? n) && (n <=? 31))%nat.

Definition snoc (s : string) (c : ascii) : string := s ++ String c "".

(** [s.split()]: the maximal runs of non-space characters. *)
Fixpoint split_from (cur : option string) (s : string) : list string :=
  match s with
  | "" => match cur with Some w => [w] | None => [] end
  | String c s' =>
      if is_space c then
        match cur with
        | Some w => w :: split_from None s'
        | None => split_from None s'
        end
      else
        split_from (Some (snoc (match cur with Some w => w | None => "" end) c)) s'
  end.

Definition split (s : string) : list string := split_from None s.

(** [s.rstrip(c)] for a one-character argument. *)
Fixpoint rstrip (c : ascii) (s : string) : string :=
  match s with
  | "" => ""
  | String a s' =>
      match rstrip c s' with
      | "" => if Ascii.eqb a c then "" else String a ""
      | r => String a r
      end
  end.

(** [str(z)] for an int. *)
Definition str (z : Z) : string := NilEmpty.string_of_int (Z.to_int z).

(** [int(s)] on an optional sign followed by decimal digits; anything else
    raises [ValueError].  (Python also accepts surrounding white space and
    underscores between digits; the sources only parse what [str] wrote.) *)
Definition int (s : string) : outcome Z :=
  match s with
  | "" => Raise ValueError
  | String c s' =>
      let neg := Ascii.eqb c "-" in
      let digits := if neg || Ascii.eqb c "+" then s' else s in
      match digits, NilEmpty.uint_of_string digits with
      | "", _ => Raise ValueError
      | _, Some u => Ok (if neg then - Z.of_uint u else Z.of_uint u)
      | _, None => Raise ValueError
      end
  end.

End Py.

(* ===================================================================== *)
(** * Layered drawings (the part of ezdxf the sources use)               *)
(* ===================================================================== *)

Module Dxf.

Local Open Scope string_scope.

Definition Point2D : Type := (Q * Q)%type.

(** The geometry of an entity fixes its DXF type. *)
Inductive Geometry : Type :=
| LWPOLYLINE (points : list Point2D)
| CIRCLE (center : Point2D) (radius : Q)
| OTHER (dxftype : string).

Record Entity : Type := mkEntity {
  layer : string;
  geom : Geometry
}.

Record Layer : Type := mkLayer {
  name : string;
  color : Z
}.

(** A document: its layer table and the entities of its model space, both
    in insertion order. *)
Record Drawing : Type := mkDrawing {
  layers : list Layer;
  modelspace : list Entity
}.

(** [ezdxf.new()]: the layer table holds the entries made through
    [layers.add]; the model space is empty. *)
Definition new : Drawing := mkDrawing [] [].

(** [doc.layers.add(name=..., color=...)] *)
Definition layers_add (n : string) (c : Z) (doc : Drawing) : Drawing :=
  mkDrawing (layers doc ++ [mkLayer n c]) (modelspace doc).

Definition is_lwpolyline (e : Entity) : bool :=
  match geom e with LWPOLYLINE _ => true | _ => false end.

Definition is_circle (e : Entity) : bool :=
  match geom e with CIRCLE _ _ => true | _ => false end.

(** [msp.query('LWPOLYLINE[layer=="l"]')] *)
Definition query_lwpolyline (l : string) (doc : Drawing) : list Entity :=
  filter (fun e => is_lwpolyline e && String.eqb (layer e) l) (modelspace doc).

(** [msp.query('CIRCLE[layer=="l"]')] *)
Definition query_circle (l : string) (doc : Drawing) : list Entity :=
  filter (fun e => is_circle e && String.eqb (layer e) l) (modelspace doc).

(** [msp.add_entity(e)] *)
Definition add_entity (e : Entity) (msp : list Entity) : list Entity :=
  msp ++ [e].

(** [msp.add_lwpolyline(points, dxfattribs={"layer": l})] *)
Definition add_lwpolyline (points : list Point2D) (l : string)
    (msp : list Entity) : list Entity :=
  add_entity (mkEntity l (LWPOLYLINE points)) msp.

(** [msp.add_circle(center=c, radius=r, dxfattribs={"layer": l})] *)
Definition add_circle (c : Point2D) (r : Q) (l : string)
    (msp : list Entity) : list Entity :=
  add_entity (mkEntity l (CIRCLE c r)) msp.

(** The entities of a model space that lie on layer [l]. *)
Definition on_layer (l : string) (msp : list Entity) : list Entity :=
  filter (fun e => String.eqb (layer e) l) msp.

End Dxf.

(* ===================================================================== *)
(** * Paths and the file store                                           *)
(* ===================================================================== *)

Module Fs.

Import Py.
Local Open Scope string_scope.

(** A [pathlib.Path], split the way the sources use it: the directory, the
    stem of the final component and its suffix. *)
Record Path : Type := mkPath {
  parent : string;
  stem : string;
  suffix : string
}.

Definition path_eqb (p q : Path) : bool :=
  String.eqb (parent p) (parent q) && String.eqb (stem p) (stem q)
  && String.eqb (suffix p) (suffix q).

(** The store: the drawings that can be read, most recent write first, and
    the directories made. *)
Record Store : Type := mkStore {
  files : list (Path * Dxf.Drawing);
  dirs : list string
}.

Fixpoint lookup (fs : list (Path * Dxf.Drawing)) (p : Path) : option Dxf.Drawing :=
  match fs with
  | [] => None
  | (q, d) :: fs' => if path_eqb q p then Some d else lookup fs' p
  end.

(** Code that reads and writes the store and may raise.  The store reached
    when an exception is raised is kept: what was written stays written. *)
Definition io (A : Type) : Type := Store -> outcome A * Store.

Definition ret {A} (a : A) : io A := fun s => (Ok a, s).

Definition bind {A B} (m : io A) (f : A -> io B) : io B :=
  fun s => match m s with
           | (Ok a, s') => f a s'
           | (Raise e, s') => (Raise e, s')
           end.

(** [try: m  except: h] with a bare [except]. *)
Definition try_except {A} (m : io A) (h : io A) : io A :=
  fun s => match m s with
           | (Ok a, s') => (Ok a, s')
           | (Raise _, s') => h s'
           end.

Definition lift {A} (o : outcome A) : io A := fun s => (o, s).

(** [for x in l: body x] *)
Fixpoint for_each {A} (l : list A) (body : A -> io unit) : io unit :=
  match l with
  | [] => ret tt
  | x :: l' => bind (body x) (fun _ => for_each l' body)
  end.

(** [ezdxf.readfile(p)]: a missing or unreadable file raises. *)
Definition readfile (p : Path) : io Dxf.Drawing :=
  fun s => match lookup (files s) p with
           | Some d => (Ok d, s)
           | None => (Raise IOError, s)
           end.

(** [doc.saveas(p)] *)
Definition saveas (doc : Dxf.Drawing) (p : Path) : io unit :=
  fun s => (Ok tt, mkStore ((p, doc) :: files s) (dirs s)).

(** [d.mkdir(exist_ok=True)] *)
Definition mkdir (d : string) : io unit :=
  fun s => (Ok tt,
            if existsb (String.eqb d) (dirs s) then s
            else mkStore (files s) (d :: dirs s)).

End Fs.

Declare Scope io_scope.
Delimit Scope io_scope with io.
Notation "x <- m ;; k" := (Fs.bind m (fun x => k))
  (at level 61, m at next level, right associativity) : io_scope.
Notation "m ;;; k" := (Fs.bind m (fun _ => k))
  (at level 61, right associativity) : io_scope.

(* ===================================================================== *)
(** * mergeDXF.py                                                        *)
(* ===================================================================== *)

Module MergeDXF.

Import Py Fs.
Local Open Scope string_scope.
Local Open Scope io_scope.

(** [process_layer(entities, layer, msp)]: every entity is put on [layer]
    and a copy is added to [msp].  (The assignment updates the entity of
    the source document in memory; that document was read for this call
    and is queried afterwards only for another layer name.) *)
Definition process_layer (entities : list Dxf.Entity) (layer : string)
    (msp : list Dxf.Entity) : list Dxf.Entity :=
  fold_left
    (fun msp entity => Dxf.add_entity (Dxf.mkEntity layer (Dxf.geom entity)) msp)
    entities msp.

Definition with_msp (doc : Dxf.Drawing) (msp : list Dxf.Entity) : Dxf.Drawing :=
  Dxf.mkDrawing (Dxf.layers doc) msp.

(** The loop that retains the crosses of the files from the start on. *)
Fixpoint copy_crosses (dxf_files : list Path) (msp : list Dxf.Entity)
    : io (list Dxf.Entity) :=
  match dxf_files with
  | [] => ret msp
  | dxf_file :: rest =>
      doc <- readfile dxf_file ;;
      let cross_entities := Dxf.query_circle "Crosses" doc in
      copy_crosses rest (process_layer cross_entities "Crosses" msp)
  end.

Definition combine_dxf_files (selected_files : list Path) (output_file : Path)
    (all_dxf_files : list Path) : io unit :=
  let combined_doc := Dxf.new in
  let combined_msp := Dxf.modelspace combined_doc in
  let combined_doc := Dxf.layers_add "Boundaries_start" 7 combined_doc in
  let combined_doc := Dxf.layers_add "Boundaries_end" 5 combined_doc in
  let combined_doc := Dxf.layers_add "Crosses" 1 combined_doc in
  let combined_doc := Dxf.layers_add "Margin" 3 combined_doc in
  (* the start layer *)
  start_file <- lift (getitem selected_files 0) ;;
  start_doc <- readfile start_file ;;
  let boundaries_entities := Dxf.query_lwpolyline "Boundaries" start_doc in
  let combined_msp := process_layer boundaries_entities "Boundaries_start" combined_msp in
  let margin_entities := Dxf.query_lwpolyline "Margin" start_doc in
  let combined_msp := process_layer margin_entities "Margin" combined_msp in
  (* the end layer *)
  end_file <- lift (getitem selected_files (-1)) ;;
  end_doc <- readfile end_file ;;
  let boundaries_entities := Dxf.query_lwpolyline "Boundaries" end_doc in
  let combined_msp := process_layer boundaries_entities "Boundaries_end" combined_msp in
  (* the crosses of every file from the start file on *)
  start_file <- lift (getitem selected_files 0) ;;
  start_index <- lift (index path_eqb all_dxf_files start_file) ;;
  combined_msp <- copy_crosses (slice_from all_dxf_files start_index) combined_msp ;;
  saveas (with_msp combined_doc combined_msp) output_file.

(** [p.stem.split()[0]] *)
Definition first_token (p : Path) : outcome string :=
  getitem (split (stem p)) 0.

(** [output_directory / f"{start_meter} to {end_meter}.dxf"] *)
Definition output_path (output_directory start_meter end_meter : string) : Path :=
  mkPath output_directory (start_meter ++ " to " ++ end_meter) ".dxf".

(** The [try]/[except] that picks the two files of the group at [i]. *)
Definition select_files (dxf_files : list Path) (num_files_per_gap i : Z)
    : io (list Path) :=
  try_except
    (a <- lift (getitem dxf_files i) ;;
     b <- lift (getitem dxf_files (i + num_files_per_gap)) ;;
     ret [a; b])
    (a <- lift (getitem dxf_files i) ;;
     b <- lift (getitem dxf_files (len dxf_files - 1)) ;;
     ret [a; b]).

(** The body of the loop of [merge_dxf_files_by_gap]. *)
Definition merge_group (dxf_files : list Path) (num_files_per_gap : Z)
    (output_directory : string) (i : Z) : io unit :=
  selected_files <- select_files dxf_files num_files_per_gap i ;;
  first_file <- lift (getitem selected_files 0) ;;
  start_meter <- lift (first_token first_file) ;;
  last_file <- lift (getitem selected_files (-1)) ;;
  end_meter <- lift (first_token last_file) ;;
  let output_file := output_path output_directory start_meter end_meter in
  combine_dxf_files selected_files output_file dxf_files.

Definition merge_dxf_files_by_gap (dxf_files : list Path) (gap : Z)
    (output_directory : string) : io unit :=
  let num_files_per_gap := gap / 50 in
  mkdir output_directory ;;;
  starts <- lift (range0 (len dxf_files) num_files_per_gap) ;;
  for_each starts (merge_group dxf_files num_files_per_gap output_directory).

(** The sort key of the script: [int(p.stem.split()[0].rstrip('m'))]. *)
Definition sort_key (p : Path) : outcome Z :=
  obind (first_token p) (fun t => int (rstrip "m" t)).

End MergeDXF.

(* ===================================================================== *)
(** * Data frames                                                        *)
(* ===================================================================== *)

Module Frame.

(** A row of the survey data.  [nom] is the name cell: [None] is a missing
    value (NaN), as [read_csv] gives for an empty field. *)
Record Row : Type := mkRow {
  longitude : Q;
  latitude : Q;
  altitude : Q;
  category : string;
  nom : option string
}.

(** The frame: its rows, and whether it has a ['nom'] column at all. *)
Record DataFrame : Type := mkDataFrame {
  rows : list Row;
  has_nom : bool
}.

(** [Series.notna()] on the name cell. *)
Definition notna (r : Row) : bool :=
  match nom r with Some _ => true | None => false end.

End Frame.

(* ===================================================================== *)
(** * src/data_maps.py                                                   *)
(* ===================================================================== *)

Module DataMaps.

Import Py Fs Frame.
Local Open Scope string_scope.
Local Open Scope Q_scope.

(** What [alphashape.alphashape] returns: one polygon, several, or a
    degenerate geometry that is neither. *)
Inductive Hull (P : Type) : Type :=
| SinglePolygon (p : P)
| MultiPolygon (geoms : list P)
| Degenerate.
Arguments SinglePolygon {P} p.
Arguments MultiPolygon {P} geoms.
Arguments Degenerate {P}.

(** shapely polygons and the alpha shape of a point set. *)
Class Shapes : Type := {
  Polygon : Type;
  area : Polygon -> Q;
  exterior_xy : Polygon -> list Q * list Q;
  alphashape : list Dxf.Point2D -> Q -> Hull Polygon
}.

(** scipy's parametric spline fit [splprep] (which may raise) and its
    evaluation [splev] at a list of parameter values. *)
Class Splines : Type := {
  TCK : Type;
  splprep : list Q -> list Q -> Q -> outcome (TCK * list Q);
  splev : list Q -> TCK -> list Q * list Q
}.

(** [np.linspace(start, stop, num)] *)
Definition linspace (start stop : Q) (num : nat) : list Q :=
  let step := (stop - start) / inject_Z (Z.of_nat num - 1) in
  map (fun i => start + inject_Z (Z.of_nat i) * step) (seq 0 num).

Definition smooth_boundary `{Splines} (x y : list Q) (smoothing_factor : Q)
    : outcome (list Q * list Q) :=
  obind (splprep x y smoothing_factor) (fun '(tck, u) =>
  let u_fine := linspace 0 1 500 in
  let '(smoothed_x, smoothed_y) := splev u_fine tck in
  (* close the polygon with its first point *)
  obind (getitem smoothed_x 0) (fun x0 =>
  let smoothed_x := (smoothed_x ++ [x0])%list in
  obind (getitem smoothed_y 0) (fun y0 =>
  let smoothed_y := (smoothed_y ++ [y0])%list in
  Ok (smoothed_x, smoothed_y)))).

(** The loop over [hull.geoms] of the multi-polygon branch. *)
Fixpoint smooth_geoms `{Shapes} `{Splines} (geoms : list Polygon)
    (area_threshold smoothing_factor : Q)
    (all_smoothed_boundaries : list (list Q * list Q))
    : outcome (list (list Q * list Q)) :=
  match geoms with
  | [] => Ok all_smoothed_boundaries
  | polygon :: rest =>
      if negb (Qle_bool (area polygon) area_threshold) then
        let '(x, y) := exterior_xy polygon in
        obind (smooth_boundary x y smoothing_factor) (fun smoothed =>
        smooth_geoms rest area_threshold smoothing_factor
          (all_smoothed_boundaries ++ [smoothed])%list)
      else
        smooth_geoms rest area_threshold smoothing_factor all_smoothed_boundaries
  end.

(** The [isinstance] dispatch on the hull. *)
Definition smooth_hull `{Shapes} `{Splines} (hull : Hull Polygon)
    (area_threshold smoothing_factor : Q) : outcome (list (list Q * list Q)) :=
  match hull with
  | MultiPolygon geoms =>
      smooth_geoms geoms area_threshold smoothing_factor []
  | SinglePolygon p =>
      let '(x, y) := exterior_xy p in
      obind (smooth_boundary x y smoothing_factor) (fun smoothed =>
      Ok ([] ++ [smoothed])%list)
  | Degenerate => Ok []
  end.

(** [data[data['category'].isin(categories)]] *)
Definition isin (categories : list string) (r : Row) : bool :=
  existsb (String.eqb (category r)) categories.

(** The named points of the current category, as coordinates. *)
Definition red_crosses (has_nom : bool) (category_data : list Row)
    (category : string) : list Dxf.Point2D :=
  let category_peak_data :=
    filter (fun r => String.eqb (Frame.category r) category) category_data in
  if has_nom then
    let points_with_nom := filter notna category_peak_data in
    map (fun row => (longitude row, latitude row)) points_with_nom
  else [].

(** [output_folder] of [main.py]. *)
Definition output_folder : string := "data/output".

Definition save_combined_to_dxf (all_smoothed_boundaries : list (list Q * list Q))
    (crosses : list Dxf.Point2D) (filename : Path) : io unit :=
  let doc := Dxf.new in
  let msp := Dxf.modelspace doc in
  let doc := Dxf.layers_add "Boundaries" 7 doc in
  let doc := Dxf.layers_add "Crosses" 1 doc in
  let doc := Dxf.layers_add "Margin" 3 doc in
  let msp :=
    fold_left (fun msp '(smoothed_x, smoothed_y) =>
                 Dxf.add_lwpolyline (combine smoothed_x smoothed_y) "Boundaries" msp)
              all_smoothed_boundaries msp in
  let msp :=
    fold_left (fun msp '(x, y) => Dxf.add_circle (x, y) 0.5 "Crosses" msp)
              crosses msp in
  let margin_square := [(0, 0); (333, 0); (333, 333); (0, 333); (0, 0)] in
  let msp := Dxf.add_lwpolyline margin_square "Margin" msp in
  saveas (Dxf.mkDrawing (Dxf.layers doc) msp) filename.

(** What one iteration of the loop of [plot_concave_hull] computed: the
    values of its local variables.  (The Python function returns nothing;
    it shows them in a figure and, with [save_dxf], writes them to a file.
    [band_threshold] is [area_threshold] as the hull filter compared with
    it, before the decrement.) *)
Record Band : Type := mkBand {
  band_idx : Z;
  band_category : string;
  band_threshold : Q;
  band_boundaries : list (list Q * list Q);
  band_crosses : list Dxf.Point2D
}.

(** The loop of [plot_concave_hull] over the enumerated categories, with
    the running [area_threshold]. *)
Fixpoint plot_bands `{Shapes} `{Splines} (data : DataFrame)
    (sorted_categories : list string) (alpha smoothing_factor : Q)
    (save_dxf : bool) (items : list (Z * string)) (area_threshold : Q)
    : io (list Band) :=
  match items with
  | [] => ret []
  | (idx, category) :: rest =>
      (let subsequent_categories := slice_from sorted_categories idx in
       let category_data := filter (isin subsequent_categories) (rows data) in
       let points := map (fun r => (longitude r, latitude r)) category_data in
       let hull := alphashape points alpha in
       all_smoothed_boundaries <-
         lift (smooth_hull hull area_threshold smoothing_factor) ;;
       let used_threshold := area_threshold in
       let area_threshold := area_threshold - 0.02 in
       let all_red_crosses := red_crosses (has_nom data) category_data category in
       (if save_dxf then
          category_name <- lift (getitem sorted_categories idx) ;;
          let dxf_filename := mkPath output_folder category_name ".dxf50" in
          save_combined_to_dxf all_smoothed_boundaries all_red_crosses dxf_filename
        else ret tt) ;;;
       bands <- plot_bands data sorted_categories alpha smoothing_factor
                  save_dxf rest area_threshold ;;
       ret (mkBand idx category used_threshold all_smoothed_boundaries
              all_red_crosses :: bands))%io
  end.

Definition plot_concave_hull `{Shapes} `{Splines} (data : DataFrame)
    (sorted_categories : list string) (alpha : Q) (start end_ : Z)
    (smoothing_factor : Q) (save_dxf : bool) : io (list Band) :=
  let area_threshold := 4.0 in
  plot_bands data sorted_categories alpha smoothing_factor save_dxf
    (enumerate (slice sorted_categories start end_) start) area_threshold.

End DataMaps.

(* ===================================================================== *)
(** * src/data_processing.py                                             *)
(* ===================================================================== *)

Module DataProcessing.

Import Py Frame.
Local Open Scope string_scope.

(** [(altitude // bin_size).astype(int) * bin_size] *)
Definition bin_start (altitude : Q) (bin_size : Z) : Z :=
  Qfloor (altitude / inject_Z bin_size) * bin_size.

(** [str(c) + "m to " + str(c + bin_size) + "m"] *)
Definition label (c bin_size : Z) : string :=
  str c ++ "m to " ++ str (c + bin_size) ++ "m".

Definition categorize (bin_size : Z) (r : Row) : Row :=
  mkRow (longitude r) (latitude r) (altitude r)
        (label (bin_start (altitude r) bin_size) bin_size) (nom r).

(** Insertion into a list kept ascending by [leb], after the elements that
    are not greater (a stable sort). *)
Fixpoint insert_by {A} (leb : A -> A -> bool) (x : A) (l : list A) : list A :=
  match l with
  | [] => [x]
  | y :: l' => if leb y x then y :: insert_by leb x l' else x :: l
  end.

Definition sort_by {A} (leb : A -> A -> bool) (l : list A) : list A :=
  fold_left (fun acc x => insert_by leb x acc) l [].

(** The group keys of [groupby('category')]: the distinct labels, in
    ascending string order. *)
Definition group_keys (data : list Row) : list string :=
  sort_by String.leb (nodup string_dec (map category data)).

(** [Series.mean()] of a non-empty group. *)
Definition mean (values : list Q) : Q :=
  fold_left Qplus values 0%Q / inject_Z (len values).

(** [data.groupby('category')['altitude'].mean().reset_index()] *)
Definition category_means (data : list Row) : list (string * Q) :=
  map (fun c =>
         (c, mean (map altitude (filter (fun r => String.eqb (category r) c) data))))
      (group_keys data).

(** [sort_values(by='altitude', ascending=True)] *)
Definition sort_values (means : list (string * Q)) : list (string * Q) :=
  sort_by (fun a b => Qle_bool (snd a) (snd b)) means.

Definition categorize_and_sort (data : list Row) (bin_size : Z)
    : list Row * list string :=
  let data := map (categorize bin_size) data in
  let category_means := category_means data in
  let category_means := sort_values category_means in
  let sorted_categories := map fst category_means in
  (data, sorted_categories).

(** [sorted(l, key=key)]: the keys are computed first (one that raises
    aborts the sort), then the elements are sorted stably by key. *)
Fixpoint with_keys {A} (key : A -> outcome Z) (l : list A) : outcome (list (Z * A)) :=
  match l with
  | [] => Ok []
  | x :: l' =>
      obind (key x) (fun k =>
      obind (with_keys key l') (fun r => Ok ((k, x) :: r)))
  end.

Definition sorted {A} (l : list A) (key : A -> outcome Z) : outcome (list A) :=
  obind (with_keys key l) (fun kl =>
  Ok (map snd (sort_by (fun a b => (fst a <=? fst b)%Z) kl))).

End DataProcessing.

(* ===================================================================== *)
(** * Vocabulary of the statements                                       *)
(* ===================================================================== *)

Module Spec.

Import Py Fs.
Local Open Scope string_scope.

(** Every character of [s] passes [ok]. *)
Fixpoint all_chars (ok : ascii -> bool) (s : string) : bool :=
  match s with
  | "" => true
  | String c s' => ok c && all_chars ok s'
  end.

(** A decimal digit. *)
Definition is_digit (c : ascii) : bool :=
  let n := nat_of_ascii c in ((48 <=? n) && (n <=? 57))%nat.

(** A character of [str z]: a digit or the minus sign. *)
Definition is_numeral_char (c : ascii) : bool :=
  is_digit c || Ascii.eqb c "-".

(** The numeric lower bound read off a band label, as the sort key of
    [mergeDXF.py] reads it off a file stem. *)
Definition label_key (s : string) : outcome Z :=
  obind (getitem (split s) 0) (fun t => int (rstrip "m" t)).

(** A token of [split]: not empty, and without white space. *)
Definition is_token (t : string) : Prop :=
  t <> "" /\ all_chars (fun c => negb (is_space c)) t = true.




(** [ceil(n / d)] for a positive [d]. *)
Definition ceil_div (n d : Z) : Z := (n + d - 1) / d.

(** The index of the end file of the group that starts at [i]: [i + w] when
    the sequence has that index, else the last index. *)
Definition group_end (L w i : Z) : Z := if (i + w <? L)%Z then i + w else L - 1.

(** The file at [p] can be read. *)
Definition readable (s : Store) (p : Path) : Prop := lookup (files s) p <> None.

(** The store after [composites] were saved one after the other. *)
Definition saved (composites : list (Path * Dxf.Drawing)) (s : Store) : Store :=
  mkStore (rev composites ++ files s) (dirs s).

(** The circles on the "Crosses" layer of the file at [p]. *)
Definition file_crosses (s : Store) (p : Path) : list Dxf.Entity :=
  match lookup (files s) p with
  | Some doc => Dxf.query_circle "Crosses" doc
  | None => []
  end.

(** The four layers of a composite. *)
Definition composite_layers : list Dxf.Layer :=
  [Dxf.mkLayer "Boundaries_start" 7; Dxf.mkLayer "Boundaries_end" 5;
   Dxf.mkLayer "Crosses" 1; Dxf.mkLayer "Margin" 3].

(** The entities of [es], put on layer [l]. *)
Definition relabel (l : string) (es : list Dxf.Entity) : list Dxf.Entity :=
  map (fun e => Dxf.mkEntity l (Dxf.geom e)) es.

(** The composite of a start document, an end document and the crosses of
    a list of files. *)
Definition composite (start_doc end_doc : Dxf.Drawing)
    (crosses : list Dxf.Entity) : Dxf.Drawing :=
  Dxf.mkDrawing composite_layers
    (relabel "Boundaries_start" (Dxf.query_lwpolyline "Boundaries" start_doc)
     ++ relabel "Margin" (Dxf.query_lwpolyline "Margin" start_doc)
     ++ relabel "Boundaries_end" (Dxf.query_lwpolyline "Boundaries" end_doc)
     ++ crosses).

(** The circle that marks a named point. *)
Definition marker (c : Dxf.Point2D) : Dxf.Entity :=
  Dxf.mkEntity "Crosses" (Dxf.CIRCLE c 0.5%Q).

(** The outline of a smoothed boundary. *)
Definition outline (b : list Q * list Q) : Dxf.Entity :=
  Dxf.mkEntity "Boundaries" (Dxf.LWPOLYLINE (combine (fst b) (snd b))).

Definition margin : Dxf.Entity :=
  Dxf.mkEntity "Margin"
    (Dxf.LWPOLYLINE [(0, 0); (333, 0); (333, 333); (0, 333); (0, 0)]%Q).

(** The drawing of one band: its outlines, its markers, the margin. *)
Definition band_drawing (boundaries : list (list Q * list Q))
    (crosses : list Dxf.Point2D) : Dxf.Drawing :=
  Dxf.mkDrawing
    [Dxf.mkLayer "Boundaries" 7; Dxf.mkLayer "Crosses" 1; Dxf.mkLayer "Margin" 3]
    (map outline boundaries ++ map marker crosses ++ [margin]).


(** ** The parts of one iteration of [plot_concave_hull] *)

Section Bands.

Import Frame DataMaps.
Context `{Shapes} `{Splines}.
Variables (data : DataFrame) (sorted_categories : list string).
Variables (alpha smoothing_factor : Q) (save_dxf : bool).

(** The cumulative rows of the band at [idx]. *)
Definition category_data (idx : Z) : list Row :=
  filter (isin (slice_from sorted_categories idx)) (rows data).

(** The boundaries of the band at [idx] under a threshold. *)
Definition boundaries_at (idx : Z) (area_threshold : Q)
    : outcome (list (list Q * list Q)) :=
  smooth_hull
    (alphashape (map (fun r => (longitude r, latitude r)) (category_data idx)) alpha)
    area_threshold smoothing_factor.

(** The save of the band at [idx], when asked for. *)
Definition save_band (idx : Z) (boundaries : list (list Q * list Q))
    (crosses : list Dxf.Point2D) : io unit :=
  if save_dxf then
    bind (lift (getitem sorted_categories idx)) (fun category_name =>
      save_combined_to_dxf boundaries crosses
        (mkPath output_folder category_name ".dxf50"))
  else ret tt.

End Bands.

(** The polygons that pass the area filter, smoothed one after the other. *)
Fixpoint smooth_all `{DataMaps.Shapes} `{DataMaps.Splines}
    (polygons : list DataMaps.Polygon) (smoothing_factor : Q)
    : outcome (list (list Q * list Q)) :=
  match polygons with
  | [] => Ok []
  | p :: rest =>
      obind (DataMaps.smooth_boundary (fst (DataMaps.exterior_xy p))
               (snd (DataMaps.exterior_xy p)) smoothing_factor) (fun b =>
      obind (smooth_all rest smoothing_factor) (fun bs => Ok (b :: bs)))
  end.

End Spec.

(* ===================================================================== *)
(** * Concrete inputs                                                    *)
(* ===================================================================== *)

Module Examples.

Import Py Fs.
Local Open Scope string_scope.

(** The per-band file of the band that starts at [n]. *)
Definition band_file (n : Z) : Path :=
  mkPath "data/output" (DataProcessing.label n 50) ".dxf".

(** A per-band drawing: an outline, one marker at [(n, n)], the margin. *)
Definition sample_drawing (n : Z) : Dxf.Drawing :=
  Dxf.mkDrawing
    [Dxf.mkLayer "Boundaries" 7; Dxf.mkLayer "Crosses" 1; Dxf.mkLayer "Margin" 3]
    [Dxf.mkEntity "Boundaries"
       (Dxf.LWPOLYLINE [(inject_Z n, 0%Q); (inject_Z n, 1%Q); (0%Q, 1%Q); (inject_Z n, 0%Q)]);
     Dxf.mkEntity "Crosses" (Dxf.CIRCLE (inject_Z n, inject_Z n) 0.5%Q);
     Dxf.mkEntity "Margin"
       (Dxf.LWPOLYLINE [(0, 0); (333, 0); (333, 333); (0, 333); (0, 0)]%Q)].

(** Seven per-band files numbered 0, 50, ..., 300. *)
Definition seven_bands : list Z := [0; 50; 100; 150; 200; 250; 300].

Definition seven_files : list Path := map band_file seven_bands.

Definition seven_store : Store :=
  mkStore (map (fun n => (band_file n, sample_drawing n)) seven_bands) [].

(** Two files of which the first cannot be read. *)
Definition two_files : list Path := [band_file 0; band_file 50].

Definition second_only_store : Store :=
  mkStore [(band_file 50, sample_drawing 50)] [].

(** A sequence that lists the file of band 0 again after that of band 50. *)
Definition repeated_files : list Path := [band_file 0; band_file 50; band_file 0].

(** ** Instances of the geometry libraries *)

Import Frame DataMaps.

(** Polygons without holes, given by their closed exterior ring; the area
    is the shoelace sum. *)
Fixpoint shoelace (ring : list Dxf.Point2D) : Q :=
  match ring with
  | (x1, y1) :: (((x2, y2) :: _) as rest) => (x1 * y2 - x2 * y1) + shoelace rest
  | _ => 0
  end.

Definition ring_area (ring : list Dxf.Point2D) : Q := Qabs (shoelace ring) / 2.

(** An alpha shape that is given outright: [hull_of] is the hull of every
    point set. *)
Definition fixed_shapes (hull_of : list Dxf.Point2D -> Hull (list Dxf.Point2D))
    : Shapes :=
  {| Polygon := list Dxf.Point2D;
     area := ring_area;
     exterior_xy := fun ring => (map fst ring, map snd ring);
     alphashape := fun points _ => hull_of points |}.

(** The hull of fewer than four points is their convex hull: for three
    points that are not on a line, the triangle. *)
Definition small_hull (points : list Dxf.Point2D) : Hull (list Dxf.Point2D) :=
  match points with
  | [p1; p2; p3] =>
      if Qeq_bool (ring_area [p1; p2; p3; p1]) 0 then Degenerate
      else SinglePolygon [p1; p2; p3; p1]
  | _ => Degenerate
  end.

Definition small_shapes : Shapes := fixed_shapes small_hull.

(** A hull of two parts: a square of area 9 and a square of area 1. *)
Definition two_squares : Hull (list Dxf.Point2D) :=
  MultiPolygon
    [[(0, 0); (3, 0); (3, 3); (0, 3); (0, 0)];
     [(10, 10); (11, 10); (11, 11); (10, 11); (10, 10)]]%Q.

Definition two_squares_shapes : Shapes := fixed_shapes (fun _ => two_squares).

(** A stand-in for the spline fit: it refuses fewer than four points and
    otherwise resamples the boundary at its vertices. *)
Definition vertex_at (values : list Q) (t : Q) : Q :=
  nth (Z.to_nat (Qfloor (t * inject_Z (len values - 1)))) values 0%Q.

Definition vertex_splines : Splines :=
  {| TCK := (list Q * list Q)%type;
     splprep := fun x y _ =>
       if (len x <? 4)%Z || negb (len x =? len y)%Z then Raise SplineError
       else Ok ((x, y), []);
     splev := fun u tck =>
       (map (vertex_at (fst tck)) u, map (vertex_at (snd tck)) u) |}.

(** Three survey points of one band, two of them named. *)
Definition triangle_rows : list Row :=
  [mkRow 0 0 10 "0m to 50m" (Some "Puig A");
   mkRow 1 0 20 "0m to 50m" None;
   mkRow 0 1 30 "0m to 50m" (Some "Puig B")]%Q.

Definition triangle_data : DataFrame := mkDataFrame triangle_rows true.

(** Points of three bands. *)
Definition three_band_rows : list Row :=
  [mkRow 1 1 10 "0m to 50m" (Some "Turo");
   mkRow 2 1 60 "50m to 100m" None;
   mkRow 2 2 70 "50m to 100m" (Some "Coll");
   mkRow 3 3 120 "100m to 150m" (Some "Cim")]%Q.

Definition three_band_data : DataFrame := mkDataFrame three_band_rows true.

Definition three_bands : list string :=
  ["0m to 50m"; "50m to 100m"; "100m to 150m"].

(** A run over the three bands that saves the drawings. *)
Definition run_from_0 : outcome (list Band) * Store :=
  @plot_concave_hull two_squares_shapes vertex_splines three_band_data
    three_bands 0.6 0 3 0.01 true (mkStore [] []).

Definition bands_from_0 : list Band :=
  match fst run_from_0 with Ok bands => bands | Raise _ => [] end.

(** A run over the three bands that starts at the second one. *)
Definition run_from_1 : outcome (list Band) * Store :=
  @plot_concave_hull two_squares_shapes vertex_splines three_band_data
    three_bands 0.6 1 3 0.01 false (mkStore [] []).

Definition bands_from_1 : list Band :=
  match fst run_from_1 with Ok bands => bands | Raise _ => [] end.


(** Survey rows not yet categorized, in no particular order. *)
Definition survey_rows : list Row :=
  map (fun a => mkRow 0 0 a "" None)
      [120.5; 30; 1010; 99.9; 100; 75; 5; 1049.9; 62.5]%Q.

End Examples.

(* ===================================================================== *)
(** * mergeDXF.py: the script                                            *)
(* ===================================================================== *)

Module MergeScript.

Import Py Fs MergeDXF.
Local Open Scope string_scope.

(** [s.endswith(t)] *)
Fixpoint ends_with (s t : string) : bool :=
  if String.eqb s t then true
  else match s with
       | "" => false
       | String _ s' => ends_with s' t
       end.

(** The name of the final component of a path. *)
Definition file_name (p : Path) : string := stem p ++ suffix p.

(** A name matches the pattern ["*.dxf"]. *)
Definition fnmatch_dxf (p : Path) : bool := ends_with (file_name p) ".dxf".

(** The paths of a list, each once. *)
Fixpoint distinct_paths (l : list Path) : list Path :=
  match l with
  | [] => []
  | p :: l' =>
      if existsb (path_eqb p) l' then distinct_paths l'
      else p :: distinct_paths l'
  end.

(** [list(Path(dir).glob("*.dxf"))]: the files of the directory whose name
    matches, in the order the store lists them (the order of a directory
    listing is not fixed). *)
Definition glob_dxf (dir : string) (s : Store) : list Path :=
  distinct_paths
    (filter (fun p => String.eqb (parent p) dir && fnmatch_dxf p)
            (map fst (files s))).

(** The script from the sort on, for the files the glob listed. *)
Definition merge_script (dxf_files : list Path) : io unit :=
  bind (lift (DataProcessing.sorted dxf_files sort_key)) (fun dxf_files =>
  let output_directory := "data/dxf100" in
  merge_dxf_files_by_gap dxf_files 100 output_directory).

Definition script : io unit :=
  fun s => merge_script (glob_dxf "data/output" s) s.

End MergeScript.

(* ===================================================================== *)
(** * src/data_maps.py: circles and crosses                              *)
(* ===================================================================== *)

Module Markers.

Import Py.
Local Open Scope Q_scope.

(** [math.pi], [math.cos] and [math.sin]. *)
Class Trig : Type := {
  pi : Q;
  cos : Q -> Q;
  sin : Q -> Q
}.

(** [range(n)] *)
Definition range_n (n : Z) : list Z := range_up (Z.to_nat n) 0 n 1.

Definition create_circle `{Trig} (x y radius : Q) (num_segments : Z)
    : outcome (list Dxf.Point2D) :=
  let circle_points :=
    fold_left
      (fun circle_points i =>
         let angle := 2 * pi * inject_Z i / inject_Z num_segments in
         let px := x + radius * cos angle in
         let py := y + radius * sin angle in
         (circle_points ++ [(px, py)])%list)
      (range_n num_segments) [] in
  (* close the circle with its first point *)
  obind (getitem circle_points 0) (fun first =>
  Ok (circle_points ++ [first])%list).


End Markers.

(* ===================================================================== *)
(** * src/data_processing.py: rescaling                                  *)
(* ===================================================================== *)

Module Rescale.

Import Py Frame.
Local Open Scope Q_scope.

(** [Series.min()] and [Series.max()] of a column that has a value (of an
    empty column they are NaN, which no row then uses). *)
Definition series_min (values : list Q) : Q :=
  match values with
  | [] => 0
  | v :: rest => fold_left (fun m x => if Qle_bool x m then x else m) rest v
  end.

Definition series_max (values : list Q) : Q :=
  match values with
  | [] => 0
  | v :: rest => fold_left (fun m x => if Qle_bool m x then x else m) rest v
  end.

(** What [rescale_data] returns: the rescaled frame, or a frame in which a
    coordinate column is NaN in every row (the column had one value only,
    and [0 / 0] is NaN). *)
Inductive rescaled : Type :=
| Frame (data : DataFrame)
| NaNColumn.

Definition rescale_data (data : DataFrame) (xy_range : list Q) : outcome rescaled :=
  let lat_min := series_min (map latitude (rows data)) in
  let lat_max := series_max (map latitude (rows data)) in
  let alt_min := series_min (map longitude (rows data)) in
  let alt_max := series_max (map longitude (rows data)) in
  obind (getitem xy_range 1) (fun hi =>
  obind (getitem xy_range 0) (fun lo =>
  match rows data with
  | [] => Ok (Frame data)
  | _ :: _ =>
      if Qeq_bool lat_max lat_min || Qeq_bool alt_max alt_min then Ok NaNColumn
      else
        Ok (Frame
              (mkDataFrame
                 (map (fun r =>
                         mkRow
                           ((longitude r - alt_min) / (alt_max - alt_min) * (hi - lo) + lo)
                           ((latitude r - lat_min) / (lat_max - lat_min) * (hi - lo) + lo)
                           (altitude r) (category r) (nom r))
                      (rows data))
                 (has_nom data)))
  end)).

End Rescale.

(* ===================================================================== *)
(** * main.py                                                            *)
(* ===================================================================== *)

Module Main.

Import Py Fs Frame DataMaps.
Local Open Scope Q_scope.

Definition xy_range : list Q := [0; 333].

(** The script from [categorize_and_sort] on, for the data that was loaded.
    [None]: the coordinates are NaN, and what the geometry libraries make
    of them is outside the model. *)
Definition main_from `{Shapes} `{Splines} (data : DataFrame)
    : option (io (list Band)) :=
  let '(rows, sorted_categories) :=
    DataProcessing.categorize_and_sort (rows data) 50 in
  let data := mkDataFrame rows (has_nom data) in
  match Rescale.rescale_data data xy_range with
  | Ok (Rescale.Frame data) =>
      let start := 0%Z in
      let end_ := (-1)%Z in
      let save_dxf := true in
      let alpha := 0.6 in
      let smoothing_factor := 10 in
      Some (plot_concave_hull data sorted_categories alpha start end_
              smoothing_factor save_dxf)
  | _ => None
  end.

End Main.

(* ===================================================================== *)
(** * Vocabulary of the further statements                               *)
(* ===================================================================== *)

Module PipelineSpec.

Import Py Fs MergeDXF Spec.

(** Two stores hold the same drawing at every file of the sequence. *)
Definition agrees (dxf_files : list Path) (s s' : Store) : Prop :=
  forall p, In p dxf_files -> lookup (files s') p = lookup (files s) p.

Definition no_path : Path := mkPath "" "" "".

Definition path_at (dxf_files : list Path) (i : Z) : Path :=
  match getitem dxf_files i with Ok p => p | Raise _ => no_path end.

Definition token_of (p : Path) : string :=
  match first_token p with Ok t => t | Raise _ => ""%string end.

Definition drawing_at (s : Store) (p : Path) : Dxf.Drawing :=
  match lookup (files s) p with Some d => d | None => Dxf.new end.

(** The composite of the group that starts at [i], read off the store [s]:
    its name, and the composite of the start file, the end file and the
    crosses of the files from [i] on. *)
Definition group_composite (s : Store) (out : string) (dxf_files : list Path)
    (w i : Z) : Path * Dxf.Drawing :=
  let start := path_at dxf_files i in
  let end_ := path_at dxf_files (group_end (len dxf_files) w i) in
  (output_path out (token_of start) (token_of end_),
   composite (drawing_at s start) (drawing_at s end_)
     (flat_map (file_crosses s) (slice_from dxf_files i))).

(** The composites of all the groups, in the order of the groups. *)
Definition expected_composites (s : Store) (out : string)
    (dxf_files : list Path) (w : Z) : list (Path * Dxf.Drawing) :=
  map (fun k => group_composite s out dxf_files w (Z.of_nat k * w))
      (seq 0 (Z.to_nat (ceil_div (len dxf_files) w))).

(** The threshold after [k] bands. *)
Definition threshold_after (k : nat) (area_threshold : Q) : Q :=
  Nat.iter k (fun t => (t - 0.02)%Q) area_threshold.

(** A point of the square of side 333 at the origin. *)
Definition in_margin (c : Dxf.Point2D) : Prop :=
  (0 <= fst c <= 333 /\ 0 <= snd c <= 333)%Q.

End PipelineSpec.

(* ===================================================================== *)
(** * Further concrete inputs                                            *)
(* ===================================================================== *)

Module MoreExamples.

Import Py Fs Frame DataMaps Examples.
Local Open Scope string_scope.

(** An alpha shape that is the two squares while there are several points
    and a ring of three coordinates, which the spline fit refuses, for a
    single point. *)
Definition thin_hull (points : list Dxf.Point2D) : Hull (list Dxf.Point2D) :=
  match points with
  | [_] => SinglePolygon [(0, 0); (1, 0); (0, 0)]%Q
  | _ => two_squares
  end.

Definition thin_shapes : Shapes := fixed_shapes thin_hull.

(** The first two of the three bands, as the loop enumerates them. *)
Definition first_two_items : list (Z * string) :=
  [(0%Z, "0m to 50m"); (1%Z, "50m to 100m")].

Definition run_first_two : outcome (list Band) * Store :=
  @plot_bands thin_shapes vertex_splines three_band_data three_bands
    0.6%Q 0.01%Q true first_two_items 4.0%Q (mkStore [] []).

Definition bands_first_two : list Band :=
  match fst run_first_two with Ok bands => bands | Raise _ => [] end.

(** The script on the points of three bands, from an empty disk. *)
Definition main_io : io (list Band) :=
  match @Main.main_from two_squares_shapes vertex_splines three_band_data with
  | Some run => run
  | None => ret []
  end.

Definition main_bands : list Band :=
  match fst (main_io (mkStore [] [])) with Ok bands => bands | Raise _ => [] end.

(** Rational stand-ins for the circular functions. *)
Definition series_trig : Markers.Trig :=
  {| Markers.pi := 3.1416%Q;
     Markers.cos := fun a => (1 - a * a / 2)%Q;
     Markers.sin := fun a => (a - a * a * a / 6)%Q |}.

(** Survey rows with altitudes below sea level and on bin edges. *)
Definition edge_rows : list Row :=
  [mkRow 4 5 (-0.5) "" (Some "Fossa"); mkRow 1 2 100 "" None;
   mkRow 7 8 99.99 "" None; mkRow 3 3 (-20) "" None; mkRow 0 9 20 "" (Some "Pla")]%Q.

End MoreExamples.

(* ===================================================================== *)
(** * Facts about the Python helpers                                     *)
(* ===================================================================== *)

Module PyFacts.

Import Py Spec.

Lemma len_nonneg {A} (l : list A) : 0 <= len l.
Proof. unfold len. lia. Qed.

Lemma len_app {A} (l1 l2 : list A) : len (l1 ++ l2) = len l1 + len l2.
Proof. unfold len. rewrite length_app. lia. Qed.

Lemma getitem_nonneg {A} (l : list A) (i : Z) :
  0 <= i -> getitem l i =
            match nth_error l (Z.to_nat i) with
            | Some a => Ok a
            | None => Raise IndexError
            end.
Proof.
  intros Hi. unfold getitem.
  destruct (Z.ltb_spec i 0); [lia|].
  destruct (Z.ltb_spec i 0); [lia|]. reflexivity.
Qed.

Lemma getitem_in_range {A} (l : list A) (i : Z) :
  0 <= i < len l -> exists a, getitem l i = Ok a /\ nth_error l (Z.to_nat i) = Some a.
Proof.
  intros Hi. rewrite getitem_nonneg by lia.
  destruct (nth_error l (Z.to_nat i)) as [a|] eqn:E.
  - exists a. split; reflexivity.
  - apply nth_error_None in E. unfold len in Hi. lia.
Qed.

Lemma getitem_out_of_range {A} (l : list A) (i : Z) :
  len l <= i -> getitem l i = Raise IndexError.
Proof.
  intros Hi. pose proof (len_nonneg l).
  rewrite getitem_nonneg by lia.
  destruct (nth_error l (Z.to_nat i)) as [a|] eqn:E; [|reflexivity].
  assert (Hn : nth_error l (Z.to_nat i) <> None) by congruence.
  apply nth_error_Some in Hn. unfold len in Hi. lia.
Qed.

Lemma getitem_Ok_In {A} (l : list A) (i : Z) (a : A) :
  getitem l i = Ok a -> In a l.
Proof.
  unfold getitem. intros H.
  destruct (_ <? 0); [discriminate|].
  destruct (nth_error l _) as [b|] eqn:E; [|discriminate].
  injection H as <-. eapply nth_error_In; eauto.
Qed.

(** The last element through the index [-1]. *)
Lemma getitem_last {A} (l : list A) (a : A) : getitem (l ++ [a]) (-1) = Ok a.
Proof.
  unfold getitem. change (-1 <? 0) with true. cbv iota.
  rewrite len_app. pose proof (len_nonneg l).
  replace (len [a]) with 1 by reflexivity.
  destruct (Z.ltb_spec (len l + 1 + -1) 0); [lia|].
  replace (Z.to_nat (len l + 1 + -1)) with (List.length l) by (unfold len; lia).
  rewrite nth_error_app2 by lia. rewrite Nat.sub_diag. reflexivity.
Qed.

Lemma ceil_div_step (n w : Z) :
  1 <= w -> ceil_div n w = 1 + ceil_div (n - w) w.
Proof.
  intros Hw. unfold ceil_div.
  replace (n + w - 1) with ((n - w + w - 1) + 1 * w) by lia.
  rewrite Z.div_add by lia. lia.
Qed.

Lemma ceil_div_nonpos (n w : Z) : 1 <= w -> n <= 0 -> ceil_div n w <= 0.
Proof.
  intros Hw Hn. unfold ceil_div.
  assert ((n + w - 1) / w < 1); [|lia].
  apply Z.div_lt_upper_bound; lia.
Qed.

(** [ceil_div n w] is the least [c] with [n <= c * w]. *)
Lemma ceil_div_ceiling (n w : Z) :
  1 <= w -> (ceil_div n w - 1) * w < n <= ceil_div n w * w.
Proof.
  intros Hw. unfold ceil_div.
  pose proof (Z.mul_div_le (n + w - 1) w ltac:(lia)).
  pose proof (Z.mul_succ_div_gt (n + w - 1) w ltac:(lia)). nia.
Qed.

Lemma ceil_div_pos (n w : Z) : 1 <= w -> 1 <= n -> 1 <= ceil_div n w.
Proof.
  intros Hw Hn. unfold ceil_div.
  apply Z.div_le_lower_bound; lia.
Qed.

(** The values of a range with a positive step, in closed form. *)
Lemma range_up_closed (fuel : nat) (i stop step : Z) :
  1 <= step -> stop - i <= Z.of_nat fuel ->
  range_up fuel i stop step =
  map (fun k => i + Z.of_nat k * step)
      (seq 0 (Z.to_nat (ceil_div (stop - i) step))).
Proof.
  intros Hstep. revert i.
  induction fuel as [|fuel IH]; intros i Hfuel.
  - pose proof (ceil_div_nonpos (stop - i) step Hstep ltac:(lia)).
    replace (Z.to_nat _) with O by lia. reflexivity.
  - simpl. destruct (Z.ltb_spec i stop) as [Hlt|Hge].
    + rewrite (ceil_div_step (stop - i) step Hstep).
      pose proof (ceil_div_nonpos (stop - i - step) step Hstep) as Hnp.
      destruct (Z_le_gt_dec (stop - i - step) 0) as [Hle|Hgt].
      * specialize (Hnp Hle).
        rewrite IH by lia.
        pose proof (ceil_div_nonpos (stop - (i + step)) step Hstep ltac:(lia)).
        replace (Z.to_nat (ceil_div (stop - (i + step)) step)) with O by lia.
        replace (Z.to_nat (1 + ceil_div (stop - i - step) step)) with 1%nat.
        -- simpl. f_equal. lia.
        -- assert (0 <= ceil_div (stop - i - step) step); [|lia].
           unfold ceil_div. apply Z.div_pos; lia.
      * pose proof (ceil_div_pos (stop - i - step) step Hstep ltac:(lia)).
        replace (Z.to_nat (1 + ceil_div (stop - i - step) step))
          with (S (Z.to_nat (ceil_div (stop - i - step) step))) by lia.
        rewrite IH by lia.
        replace (stop - (i + step)) with (stop - i - step) by lia.
        simpl. f_equal; [lia|].
        rewrite <- seq_shift, map_map.
        apply map_ext. intros k. lia.
    + pose proof (ceil_div_nonpos (stop - i) step Hstep ltac:(lia)).
      replace (Z.to_nat _) with O by lia. reflexivity.
Qed.

Lemma range0_closed (stop step : Z) :
  0 <= stop -> 1 <= step ->
  range0 stop step =
  Ok (map (fun k => Z.of_nat k * step) (seq 0 (Z.to_nat (ceil_div stop step)))).
Proof.
  intros Hstop Hstep. unfold range0.
  destruct (Z.eqb_spec step 0); [lia|].
  destruct (Z.ltb_spec step 0); [lia|].
  rewrite range_up_closed by lia.
  rewrite Z.sub_0_r. reflexivity.
Qed.

End PyFacts.

(* ===================================================================== *)
(** * Strings: tokens                                                    *)
(* ===================================================================== *)

Module TokenFacts.

Import Py Spec PyFacts.
Local Open Scope string_scope.

Lemma append_assoc (a b c : string) : (a ++ b) ++ c = a ++ (b ++ c).
Proof. induction a as [|x a IH]; simpl; [reflexivity|]. rewrite IH. reflexivity. Qed.

Lemma append_nil_r (a : string) : a ++ "" = a.
Proof. induction a as [|x a IH]; simpl; [reflexivity|]. rewrite IH. reflexivity. Qed.

Lemma all_chars_app (ok : ascii -> bool) (a b : string) :
  all_chars ok (a ++ b) = all_chars ok a && all_chars ok b.
Proof.
  induction a as [|x a IH]; simpl; [reflexivity|].
  rewrite IH. apply andb_assoc.
Qed.

Lemma all_chars_impl (ok ok' : ascii -> bool) (s : string) :
  (forall c, ok c = true -> ok' c = true) ->
  all_chars ok s = true -> all_chars ok' s = true.
Proof.
  intros Himp. induction s as [|x s IH]; simpl; [reflexivity|].
  rewrite !andb_true_iff. intros [Hx Hs]. split; [apply Himp; exact Hx|apply IH; exact Hs].
Qed.

Lemma split_from_word (w : string) :
  all_chars (fun c => negb (is_space c)) w = true ->
  forall (cur : string) (sp : ascii) (rest : string),
    is_space sp = true ->
    split_from (Some cur) (w ++ String sp rest) = (cur ++ w) :: split_from None rest.
Proof.
  induction w as [|a w IH]; simpl; intros Hw cur sp rest Hsp.
  - rewrite Hsp, append_nil_r. reflexivity.
  - apply andb_true_iff in Hw. destruct Hw as [Ha Hw].
    apply negb_true_iff in Ha. rewrite Ha.
    rewrite (IH Hw _ sp rest Hsp). unfold snoc. rewrite append_assoc. reflexivity.
Qed.

(** The first token of a string that starts with a word and a space. *)
Lemma split_first_word (w : string) (sp : ascii) (rest : string) :
  is_token w ->
  is_space sp = true ->
  getitem (split (w ++ String sp rest)) 0 = Ok w.
Proof.
  intros [Hne Hw] Hsp. destruct w as [|a w]; [congruence|].
  simpl in Hw. apply andb_true_iff in Hw. destruct Hw as [Ha Hw].
  apply negb_true_iff in Ha.
  unfold split. simpl. rewrite Ha.
  rewrite (split_from_word w Hw _ sp rest Hsp). reflexivity.
Qed.

(** Every string that [split] returns is a token. *)
Lemma split_from_tokens (s : string) :
  forall cur,
    match cur with Some w => is_token w | None => True end ->
    Forall is_token (split_from cur s).
Proof.
  induction s as [|c s IH]; intros cur Hcur; simpl.
  - destruct cur; constructor; [exact Hcur|constructor].
  - destruct (is_space c) eqn:Hc.
    + destruct cur; [constructor; [exact Hcur|]|]; apply IH; exact I.
    + apply IH. unfold is_token, snoc. split.
      * destruct cur as [[|a w]|]; discriminate.
      * rewrite all_chars_app. simpl. rewrite Hc. simpl.
        destruct cur as [w|]; [|reflexivity].
        destruct Hcur as [_ Hw]. rewrite Hw. reflexivity.
Qed.

Lemma getitem_split_token (s t : string) :
  getitem (split s) 0 = Ok t -> is_token t.
Proof.
  intros H. apply getitem_Ok_In in H.
  pose proof (split_from_tokens s None I) as Hall.
  rewrite Forall_forall in Hall. apply Hall. exact H.
Qed.

End TokenFacts.

(* ===================================================================== *)
(** * mergeDXF.py: the composite merger                                  *)
(* ===================================================================== *)

Module MergeFacts.

Import Py Fs MergeDXF Spec PyFacts.

Lemma path_eqb_eq (p q : Path) : path_eqb p q = true <-> p = q.
Proof.
  unfold path_eqb. rewrite !andb_true_iff, !String.eqb_eq.
  destruct p, q; simpl. split.
  - intros [[-> ->] ->]. reflexivity.
  - intros [= -> -> ->]. auto.
Qed.

Lemma path_eqb_refl (p : Path) : path_eqb p p = true.
Proof. apply path_eqb_eq. reflexivity. Qed.

(** A saved file leaves every readable file readable. *)
Lemma readable_cons (s : Store) (q : Path) (d : Dxf.Drawing) (p : Path) :
  readable s p -> readable (mkStore ((q, d) :: files s) (dirs s)) p.
Proof.
  unfold readable. simpl. destruct (path_eqb q p); congruence.
Qed.

Lemma readable_lookup (s : Store) (p : Path) :
  readable s p -> exists d, lookup (files s) p = Some d.
Proof.
  unfold readable. destruct (lookup (files s) p) as [d|]; [eauto|congruence].
Qed.

Lemma process_layer_relabel (entities : list Dxf.Entity) (l : string)
    (msp : list Dxf.Entity) :
  process_layer entities l msp = msp ++ relabel l entities.
Proof.
  unfold process_layer, relabel. revert msp.
  induction entities as [|e es IH]; intros msp; simpl.
  - rewrite app_nil_r. reflexivity.
  - rewrite IH. unfold Dxf.add_entity. rewrite <- app_assoc. reflexivity.
Qed.

(** Entities found on a layer are unchanged by being put on that layer. *)
Lemma relabel_query_circle (l : string) (doc : Dxf.Drawing) :
  relabel l (Dxf.query_circle l doc) = Dxf.query_circle l doc.
Proof.
  unfold relabel, Dxf.query_circle.
  induction (Dxf.modelspace doc) as [|e es IH]; simpl; [reflexivity|].
  destruct (Dxf.is_circle e && String.eqb (Dxf.layer e) l) eqn:E; [|exact IH].
  simpl. rewrite IH. f_equal.
  apply andb_true_iff in E. destruct E as [_ E]. apply String.eqb_eq in E.
  destruct e; simpl in *. subst. reflexivity.
Qed.

Lemma copy_crosses_spec (ps : list Path) (msp : list Dxf.Entity) (s : Store) :
  (forall p, In p ps -> readable s p) ->
  copy_crosses ps msp s = (Ok (msp ++ flat_map (file_crosses s) ps), s).
Proof.
  revert msp. induction ps as [|p ps IH]; intros msp Hr; simpl.
  - rewrite app_nil_r. reflexivity.
  - destruct (readable_lookup s p (Hr p (or_introl eq_refl))) as [d Hd].
    unfold bind, readfile. rewrite Hd.
    rewrite IH by (intros q Hq; apply Hr; right; exact Hq).
    rewrite process_layer_relabel, relabel_query_circle, <- app_assoc.
    unfold file_crosses at 2. rewrite Hd. reflexivity.
Qed.

(** A file that cannot be read stops the loop with the store unchanged. *)
Lemma copy_crosses_unreadable (ps : list Path) (msp : list Dxf.Entity) (s : Store) :
  (exists p, In p ps /\ ~ readable s p) ->
  copy_crosses ps msp s = (Raise IOError, s).
Proof.
  revert msp. induction ps as [|p ps IH]; intros msp [q [Hq Hn]]; simpl.
  - destruct Hq.
  - unfold bind, readfile.
    destruct (lookup (files s) p) as [d|] eqn:Hd; [|reflexivity].
    apply IH. destruct Hq as [->|Hq].
    + exfalso. apply Hn. unfold readable. congruence.
    + exists q. split; assumption.
Qed.

Lemma combine_dxf_files_spec (selected_files : list Path) (output_file : Path)
    (all_dxf_files : list Path) (s : Store) (a b : Path)
    (da db : Dxf.Drawing) (i : Z) :
  getitem selected_files 0 = Ok a ->
  getitem selected_files (-1) = Ok b ->
  lookup (files s) a = Some da ->
  lookup (files s) b = Some db ->
  index path_eqb all_dxf_files a = Ok i ->
  (forall p, In p (slice_from all_dxf_files i) -> readable s p) ->
  combine_dxf_files selected_files output_file all_dxf_files s =
  (Ok tt,
   mkStore ((output_file,
             composite da db (flat_map (file_crosses s) (slice_from all_dxf_files i)))
            :: files s) (dirs s)).
Proof.
  intros Ha Hb Hda Hdb Hi Hr.
  unfold combine_dxf_files, bind, lift, readfile.
  rewrite Ha, Hda, Hb, Hdb, Hi.
  rewrite (copy_crosses_spec _ _ s Hr).
  unfold saveas, with_msp, composite, composite_layers. simpl.
  rewrite !process_layer_relabel. simpl.
  rewrite <- !app_assoc. reflexivity.
Qed.

(** ** Positions in a sequence *)

Lemma index_Ok (l : list Path) (x : Path) (i : Z) :
  index path_eqb l x = Ok i ->
  0 <= i < len l /\ nth_error l (Z.to_nat i) = Some x.
Proof.
  revert i. induction l as [|a l IH]; intros i; simpl; [discriminate|].
  destruct (path_eqb a x) eqn:E.
  - intros [= <-]. apply path_eqb_eq in E. subst. unfold len. simpl. split; [lia|reflexivity].
  - destruct (index path_eqb l x) as [j|] eqn:Ej; [|discriminate].
    intros [= <-]. destruct (IH j eq_refl) as [Hj Hn].
    unfold len in *. simpl. split; [lia|].
    replace (Z.to_nat (j + 1)) with (S (Z.to_nat j)) by lia. exact Hn.
Qed.

Lemma index_In (l : list Path) (x : Path) :
  In x l -> exists i, index path_eqb l x = Ok i.
Proof.
  induction l as [|a l IH]; simpl; [tauto|].
  intros Hin. destruct (path_eqb a x) eqn:E; [eauto|].
  destruct Hin as [->|Hin]; [rewrite path_eqb_refl in E; discriminate|].
  destruct (IH Hin) as [j ->]. eauto.
Qed.

(** In a sequence without repetition, [index] finds a file where it is. *)
Lemma index_NoDup (l : list Path) (n : nat) (x : Path) :
  NoDup l -> nth_error l n = Some x -> index path_eqb l x = Ok (Z.of_nat n).
Proof.
  intros Hnd. revert n. induction Hnd as [|a l Hnotin Hnd IH]; intros n.
  - destruct n; discriminate.
  - destruct n as [|n]; simpl.
    + intros [= ->]. rewrite path_eqb_refl. reflexivity.
    + intros Hn. destruct (path_eqb a x) eqn:E.
      * apply path_eqb_eq in E. subst. exfalso. apply Hnotin.
        eapply nth_error_In; eauto.
      * rewrite (IH n Hn). f_equal. lia.
Qed.

Lemma slice_from_nonneg {A} (l : list A) (i : Z) :
  0 <= i <= len l -> slice_from l i = skipn (Z.to_nat i) l.
Proof.
  intros Hi. unfold slice_from, slice_bound.
  destruct (Z.ltb_spec i 0); [lia|]. rewrite Z.min_l by lia. reflexivity.
Qed.

Lemma slice_from_split {A} (l : list A) (i j : Z) :
  0 <= i <= j -> j <= len l ->
  slice_from l i = firstn (Z.to_nat (j - i)) (slice_from l i) ++ slice_from l j.
Proof.
  intros Hij Hj. rewrite !slice_from_nonneg by lia.
  rewrite <- (firstn_skipn (Z.to_nat (j - i)) (skipn (Z.to_nat i) l)) at 1.
  f_equal. rewrite skipn_skipn. f_equal. lia.
Qed.

(** ** What a successful merge of one group read *)

Lemma copy_crosses_inv (ps : list Path) (msp msp' : list Dxf.Entity) (s s' : Store) :
  copy_crosses ps msp s = (Ok msp', s') ->
  forall p, In p ps -> readable s p.
Proof.
  intros H p Hp.
  destruct (lookup (files s) p) as [d|] eqn:Hd; [unfold readable; congruence|].
  rewrite (copy_crosses_unreadable ps msp s) in H; [discriminate|].
  exists p. split; [exact Hp|]. unfold readable. congruence.
Qed.

Lemma combine_dxf_files_inv (selected_files : list Path) (output_file : Path)
    (all_dxf_files : list Path) (s s' : Store) :
  combine_dxf_files selected_files output_file all_dxf_files s = (Ok tt, s') ->
  exists a b da db i,
    getitem selected_files 0 = Ok a /\
    getitem selected_files (-1) = Ok b /\
    lookup (files s) a = Some da /\
    lookup (files s) b = Some db /\
    index path_eqb all_dxf_files a = Ok i /\
    (forall p, In p (slice_from all_dxf_files i) -> readable s p).
Proof.
  unfold combine_dxf_files, bind, lift, readfile. intros H.
  destruct (getitem selected_files 0) as [a|] eqn:Ha; [|discriminate].
  destruct (lookup (files s) a) as [da|] eqn:Hda; [|discriminate].
  destruct (getitem selected_files (-1)) as [b|] eqn:Hb; [|discriminate].
  destruct (lookup (files s) b) as [db|] eqn:Hdb; [|discriminate].
  destruct (index path_eqb all_dxf_files a) as [i|] eqn:Hi; [|discriminate].
  destruct (copy_crosses _ _ s) as [[msp'|e] s1] eqn:Hc; [|discriminate].
  exists a, b, da, db, i. repeat split; try assumption.
  eapply copy_crosses_inv; eauto.
Qed.

(** ** The layers of the entities of a composite *)

Lemma on_layer_app (l : string) (es1 es2 : list Dxf.Entity) :
  Dxf.on_layer l (es1 ++ es2) = Dxf.on_layer l es1 ++ Dxf.on_layer l es2.
Proof. unfold Dxf.on_layer. apply filter_app. Qed.

Lemma on_layer_relabel_other (l l' : string) (es : list Dxf.Entity) :
  l <> l' -> Dxf.on_layer l (relabel l' es) = [].
Proof.
  intros Hne. unfold Dxf.on_layer, relabel.
  induction es as [|e es IH]; simpl; [reflexivity|].
  destruct (String.eqb_spec l' l); [congruence|exact IH].
Qed.

Lemma on_layer_query_circle (l : string) (doc : Dxf.Drawing) :
  Dxf.on_layer l (Dxf.query_circle l doc) = Dxf.query_circle l doc.
Proof.
  unfold Dxf.on_layer, Dxf.query_circle.
  induction (Dxf.modelspace doc) as [|e es IH]; simpl; [reflexivity|].
  destruct (Dxf.is_circle e && String.eqb (Dxf.layer e) l) eqn:E; [|exact IH].
  simpl. apply andb_true_iff in E. destruct E as [_ ->]. rewrite IH. reflexivity.
Qed.

Lemma on_layer_file_crosses (s : Store) (ps : list Path) :
  Dxf.on_layer "Crosses" (flat_map (file_crosses s) ps) =
  flat_map (file_crosses s) ps.
Proof.
  induction ps as [|p ps IH]; simpl; [reflexivity|].
  rewrite on_layer_app, IH. f_equal.
  unfold file_crosses. destruct (lookup (files s) p); [|reflexivity].
  apply on_layer_query_circle.
Qed.

Lemma composite_crosses (da db : Dxf.Drawing) (s : Store) (ps : list Path) :
  Dxf.on_layer "Crosses"
    (Dxf.modelspace (composite da db (flat_map (file_crosses s) ps))) =
  flat_map (file_crosses s) ps.
Proof.
  unfold composite. simpl. rewrite !on_layer_app.
  rewrite !on_layer_relabel_other by discriminate.
  simpl. apply on_layer_file_crosses.
Qed.


Lemma file_crosses_layer (s : Store) (ps : list Path) :
  Forall (fun e => Dxf.layer e = "Crosses"%string) (flat_map (file_crosses s) ps).
Proof.
  apply Forall_flat_map. apply Forall_forall. intros p _.
  unfold file_crosses. destruct (lookup (files s) p); [|constructor].
  unfold Dxf.query_circle. apply Forall_forall. intros e He.
  apply filter_In in He. destruct He as [_ He].
  apply andb_true_iff in He. destruct He as [_ He].
  apply String.eqb_eq. exact He.
Qed.

End MergeFacts.

(* ===================================================================== *)
(** * mergeDXF.py: the gap merger                                        *)
(* ===================================================================== *)

Module GapFacts.

Import Py Fs MergeDXF Spec PyFacts TokenFacts MergeFacts.

(** The name of a composite starts with the first token of its start file. *)
Lemma output_path_first_token (out sm em : string) :
  is_token sm -> first_token (output_path out sm em) = Ok sm.
Proof.
  intros Hsm. unfold first_token, output_path. simpl stem.
  change (sm ++ " to " ++ em)%string with (sm ++ String " " ("to " ++ em))%string.
  apply split_first_word; [exact Hsm|reflexivity].
Qed.

Lemma first_token_is_token (p : Path) (t : string) :
  first_token p = Ok t -> is_token t.
Proof. apply getitem_split_token. Qed.

Lemma In_slice_from {A} (l : list A) (i : Z) (x : A) :
  In x (slice_from l i) -> In x l.
Proof.
  unfold slice_from. intros H.
  rewrite <- (firstn_skipn (Z.to_nat (slice_bound (len l) i)) l).
  apply in_or_app. right. exact H.
Qed.

Lemma select_files_spec (dxf_files : list Path) (w i : Z) (s : Store) :
  0 <= i < len dxf_files -> 1 <= w ->
  exists a b,
    getitem dxf_files i = Ok a /\
    getitem dxf_files (group_end (len dxf_files) w i) = Ok b /\
    select_files dxf_files w i s = (Ok [a; b], s).
Proof.
  intros Hi Hw.
  destruct (getitem_in_range dxf_files i Hi) as [a [Ha _]].
  unfold group_end, select_files, try_except, bind, lift, ret.
  destruct (Z.ltb_spec (i + w) (len dxf_files)) as [Hlt|Hge].
  - destruct (getitem_in_range dxf_files (i + w) ltac:(lia)) as [b [Hb _]].
    exists a, b. rewrite Ha, Hb. auto.
  - destruct (getitem_in_range dxf_files (len dxf_files - 1) ltac:(lia)) as [b [Hb _]].
    exists a, b. rewrite Ha, Hb.
    rewrite (getitem_out_of_range dxf_files (i + w)) by lia. auto.
Qed.

(** One iteration of the loop, when every file of the sequence can be read
    and every stem has a first token: the composite of the group is saved. *)
Lemma merge_group_spec (dxf_files : list Path) (w : Z) (out : string)
    (i : Z) (s : Store) :
  0 <= i < len dxf_files -> 1 <= w ->
  (forall p, In p dxf_files -> readable s p) ->
  (forall p, In p dxf_files -> exists t, first_token p = Ok t) ->
  exists start end_ sm em doc,
    getitem dxf_files i = Ok start /\
    getitem dxf_files (group_end (len dxf_files) w i) = Ok end_ /\
    first_token start = Ok sm /\
    first_token end_ = Ok em /\
    combine_dxf_files [start; end_] (output_path out sm em) dxf_files s =
      (Ok tt, mkStore ((output_path out sm em, doc) :: files s) (dirs s)) /\
    merge_group dxf_files w out i s =
      (Ok tt, mkStore ((output_path out sm em, doc) :: files s) (dirs s)).
Proof.
  intros Hi Hw Hread Htok.
  destruct (select_files_spec dxf_files w i s Hi Hw) as [a [b [Ha [Hb Hsel]]]].
  pose proof (getitem_Ok_In _ _ _ Ha) as Hina.
  pose proof (getitem_Ok_In _ _ _ Hb) as Hinb.
  destruct (Htok a Hina) as [sm Hsm]. destruct (Htok b Hinb) as [em Hem].
  destruct (readable_lookup s a (Hread a Hina)) as [da Hda].
  destruct (readable_lookup s b (Hread b Hinb)) as [db Hdb].
  destruct (index_In dxf_files a Hina) as [j Hj].
  assert (Hcomb := combine_dxf_files_spec [a; b] (output_path out sm em)
                     dxf_files s a b da db j eq_refl eq_refl Hda Hdb Hj
                     (fun p Hp => Hread p (In_slice_from _ _ _ Hp))).
  exists a, b, sm, em,
    (composite da db (flat_map (file_crosses s) (slice_from dxf_files j))).
  repeat split; try assumption.
  unfold merge_group, bind. rewrite Hsel. unfold lift.
  change (getitem [a; b] 0) with (Ok a). change (getitem [a; b] (-1)) with (Ok b).
  cbv beta iota. rewrite Hsm, Hem. exact Hcomb.
Qed.

(** The loop over the group starts [ks]: one composite per start, each the
    result of [combine_dxf_files] on the store the earlier ones left. *)
Lemma for_each_merge_group (dxf_files : list Path) (w : Z) (out : string)
    (ks : list Z) :
  1 <= w ->
  (forall i, In i ks -> 0 <= i < len dxf_files) ->
  (forall p, In p dxf_files -> exists t, first_token p = Ok t) ->
  forall s,
  (forall p, In p dxf_files -> readable s p) ->
  exists composites,
    for_each ks (merge_group dxf_files w out) s = (Ok tt, saved composites s) /\
    List.length composites = List.length ks /\
    forall n i, nth_error ks n = Some i ->
      exists start end_ sm em doc,
        getitem dxf_files i = Ok start /\
        getitem dxf_files (group_end (len dxf_files) w i) = Ok end_ /\
        first_token start = Ok sm /\
        first_token end_ = Ok em /\
        nth_error composites n = Some (output_path out sm em, doc) /\
        combine_dxf_files [start; end_] (output_path out sm em) dxf_files
          (saved (firstn n composites) s) =
        (Ok tt, saved (firstn (S n) composites) s).
Proof.
  intros Hw Hks Htok.
  induction ks as [|k ks IH]; intros s Hread.
  - exists []. split; [destruct s; reflexivity|]. split; [reflexivity|].
    intros n i Hn. destruct n; discriminate.
  - destruct (merge_group_spec dxf_files w out k s
                (Hks k (or_introl eq_refl)) Hw Hread Htok)
      as [a [b [sm [em [doc [Ha [Hb [Hsm [Hem [Hcomb Hgrp]]]]]]]]]].
    set (s1 := mkStore ((output_path out sm em, doc) :: files s) (dirs s)) in *.
    destruct (IH (fun i Hi => Hks i (or_intror Hi)) s1) as [cs [Hrun [Hlen Hnth]]].
    { intros p Hp. apply readable_cons. apply Hread. exact Hp. }
    assert (Hsaved : forall l, saved l s1 = saved ((output_path out sm em, doc) :: l) s).
    { intros l. unfold saved, s1. simpl. rewrite <- app_assoc. reflexivity. }
    exists ((output_path out sm em, doc) :: cs). split; [|split].
    + simpl. unfold bind. rewrite Hgrp. fold s1. rewrite Hrun. rewrite Hsaved. reflexivity.
    + simpl. rewrite Hlen. reflexivity.
    + intros n i Hn. destruct n as [|n].
      * injection Hn as <-. exists a, b, sm, em, doc.
        repeat split; try assumption.
        change (saved (firstn 0 ((output_path out sm em, doc) :: cs)) s)
          with (saved [] s).
        replace (saved [] s) with s by (destruct s; reflexivity).
        rewrite Hcomb. reflexivity.
      * destruct (Hnth n i Hn) as [a' [b' [sm' [em' [doc' H']]]]].
        exists a', b', sm', em', doc'.
        destruct H' as [H1 [H2 [H3 [H4 [H5 H6]]]]].
        repeat split; try assumption.
        simpl firstn. rewrite <- !Hsaved. exact H6.
Qed.

End GapFacts.

(* ===================================================================== *)
(** * mergeDXF.py: the statements                                        *)
(* ===================================================================== *)

Module MergeTheorems.

Import Py Fs MergeDXF Spec PyFacts MergeFacts GapFacts.

Lemma ceil_div_last_start (L w k : Z) :
  1 <= w -> 0 <= k < ceil_div L w -> k * w < L.
Proof.
  intros Hw Hk. unfold ceil_div in Hk.
  pose proof (Z.mul_div_le (L + w - 1) w ltac:(lia)). nia.
Qed.

Lemma mkdir_spec (out : string) (s : Store) :
  mkdir out s = (Ok tt, snd (mkdir out s)) /\
  files (snd (mkdir out s)) = files s /\
  In out (dirs (snd (mkdir out s))).
Proof.
  unfold mkdir. simpl. repeat split.
  - destruct (existsb (String.eqb out) (dirs s)); reflexivity.
  - destruct (existsb (String.eqb out) (dirs s)) eqn:E; simpl; [|auto].
    apply existsb_exists in E. destruct E as [d [Hd E]].
    apply String.eqb_eq in E. subst. exact Hd.
Qed.

Lemma readable_mkdir (out : string) (s : Store) (p : Path) :
  readable s p -> readable (snd (mkdir out s)) p.
Proof.
  unfold readable. destruct (mkdir_spec out s) as [_ [-> _]]. auto.
Qed.

(** C1.  For a sequence of [L >= 1] files that can all be read (and whose
    stems have a first token) and a gap with [window = gap // 50 >= 1], the
    gap merger returns normally and saves exactly [ceil(L / window)]
    composites, one per group start [k * window < L], in that order; the
    [k]-th is what [combine_dxf_files] makes of the start file
    [sequence[k * window]] and the end file [sequence[k * window + window]]
    when the sequence has that index, of the last file otherwise, and it is
    named after the first tokens of these two files.  When the first
    tokens of the files of the sequence are pairwise distinct, so are the
    names of the composites: they are [ceil(L / window)] different files. *)
Theorem merge_dxf_files_by_gap_groups :
  forall (dxf_files : list Path) (gap : Z) (out : string) (s : Store),
    1 <= len dxf_files ->
    1 <= gap / 50 ->
    (forall p, In p dxf_files -> readable s p) ->
    (forall p, In p dxf_files -> exists t, first_token p = Ok t) ->
    exists composites : list (Path * Dxf.Drawing),
      merge_dxf_files_by_gap dxf_files gap out s =
        (Ok tt, saved composites (snd (mkdir out s))) /\
      len composites = ceil_div (len dxf_files) (gap / 50) /\
      (forall k : Z, 0 <= k < ceil_div (len dxf_files) (gap / 50) ->
        exists start end_ sm em doc,
          getitem dxf_files (k * (gap / 50)) = Ok start /\
          getitem dxf_files
            (group_end (len dxf_files) (gap / 50) (k * (gap / 50))) = Ok end_ /\
          first_token start = Ok sm /\
          first_token end_ = Ok em /\
          getitem composites k = Ok (output_path out sm em, doc) /\
          combine_dxf_files [start; end_] (output_path out sm em) dxf_files
            (saved (firstn (Z.to_nat k) composites) (snd (mkdir out s))) =
          (Ok tt, saved (firstn (S (Z.to_nat k)) composites) (snd (mkdir out s)))) /\
      (NoDup (map first_token dxf_files) -> NoDup (map fst composites)).
Proof.
  intros dxf_files gap out s HL Hw Hread Htok.
  set (w := gap / 50) in *. set (L := len dxf_files) in *.
  set (n := Z.to_nat (ceil_div L w)).
  set (ks := map (fun k => Z.of_nat k * w) (seq 0 n)).
  assert (Hc : 1 <= ceil_div L w) by (apply ceil_div_pos; lia).
  assert (Hks : forall i, In i ks -> 0 <= i < L).
  { intros i Hi. apply in_map_iff in Hi. destruct Hi as [k [<- Hk]].
    apply in_seq in Hk.
    pose proof (ceil_div_last_start L w (Z.of_nat k) Hw ltac:(lia)). lia. }
  destruct (for_each_merge_group dxf_files w out ks Hw Hks Htok
              (snd (mkdir out s)) (fun p Hp => readable_mkdir out s p (Hread p Hp)))
    as [cs [Hrun [Hlen Hnth]]].
  assert (Hksn : forall m, (m < n)%nat -> nth_error ks m = Some (Z.of_nat m * w)).
  { intros m Hm. unfold ks. rewrite nth_error_map, nth_error_seq.
    destruct (Nat.ltb_spec m n) as [_|Hge]; [reflexivity|lia]. }
  assert (Hcs : List.length cs = n).
  { rewrite Hlen. unfold ks. rewrite length_map, length_seq. reflexivity. }
  exists cs. split; [|split; [|split]].
  - unfold merge_dxf_files_by_gap, bind. fold w.
    rewrite (proj1 (mkdir_spec out s)). unfold lift. fold L.
    rewrite range0_closed by lia. fold n. fold ks. exact Hrun.
  - unfold len. rewrite Hcs. unfold n. lia.
  - intros k Hk.
    assert (Hn : nth_error ks (Z.to_nat k) = Some (k * w)).
    { rewrite Hksn by (unfold n; lia). f_equal. lia. }
    destruct (Hnth _ _ Hn) as [a [b [sm [em [doc [H1 [H2 [H3 [H4 [H5 H6]]]]]]]]]].
    exists a, b, sm, em, doc. repeat split; try assumption.
    rewrite getitem_nonneg by lia. rewrite H5. reflexivity.
  - intros Hnd. apply NoDup_nth_error. intros i j Hi Hij.
    rewrite length_map, Hcs in Hi.
    assert (Hj : (j < n)%nat).
    { rewrite <- Hcs, <- (length_map fst). apply nth_error_Some.
      rewrite <- Hij. apply nth_error_Some. rewrite length_map, Hcs. exact Hi. }
    rewrite !nth_error_map in Hij.
    destruct (Hnth _ _ (Hksn i Hi)) as [a [b [sm [em [doc [Ha [_ [Hsm [_ [Hci _]]]]]]]]]].
    destruct (Hnth _ _ (Hksn j Hj)) as [a' [b' [sm' [em' [doc' [Ha' [_ [Hsm' [_ [Hcj _]]]]]]]]]].
    rewrite Hci, Hcj in Hij. cbn [option_map fst] in Hij.
    assert (Esm : sm = sm').
    { assert (E : first_token (output_path out sm em) =
                  first_token (output_path out sm' em')) by congruence.
      rewrite (output_path_first_token out sm em (first_token_is_token _ _ Hsm)) in E.
      rewrite (output_path_first_token out sm' em' (first_token_is_token _ _ Hsm')) in E.
      congruence. }
    subst sm'.
    assert (Hpos : forall m, (m < n)%nat -> 0 <= Z.of_nat m * w < L).
    { intros m Hm. apply Hks. eapply nth_error_In. apply Hksn. exact Hm. }
    pose proof (Hpos i Hi) as Hpi. pose proof (Hpos j Hj) as Hpj.
    rewrite getitem_nonneg in Ha, Ha' by lia.
    destruct (nth_error dxf_files (Z.to_nat (Z.of_nat i * w))) as [x|] eqn:Ex;
      [|discriminate].
    destruct (nth_error dxf_files (Z.to_nat (Z.of_nat j * w))) as [x'|] eqn:Ex';
      [|discriminate].
    injection Ha as ->. injection Ha' as ->.
    assert (Heq : Z.to_nat (Z.of_nat i * w) = Z.to_nat (Z.of_nat j * w)).
    { rewrite NoDup_nth_error in Hnd. apply Hnd.
      - rewrite length_map. apply nth_error_Some. congruence.
      - rewrite !nth_error_map, Ex, Ex'. simpl. congruence. }
    nia.
Qed.

(** The scenario of seven files 0, 50, ..., 300 with [gap = 100]. *)
Lemma merge_dxf_files_by_gap_groups_witness :
  exists composites : list (Path * Dxf.Drawing),
    merge_dxf_files_by_gap Examples.seven_files 100 "data/dxf100" Examples.seven_store =
      (Ok tt, saved composites
                (snd (mkdir "data/dxf100" Examples.seven_store))) /\
    len composites = 4 /\
    (forall k : Z, 0 <= k < 4 ->
      exists start end_ sm em doc,
        getitem Examples.seven_files (k * 2) = Ok start /\
        getitem Examples.seven_files (group_end 7 2 (k * 2)) = Ok end_ /\
        first_token start = Ok sm /\
        first_token end_ = Ok em /\
        getitem composites k = Ok (output_path "data/dxf100" sm em, doc) /\
        combine_dxf_files [start; end_] (output_path "data/dxf100" sm em)
          Examples.seven_files
          (saved (firstn (Z.to_nat k) composites)
             (snd (mkdir "data/dxf100" Examples.seven_store))) =
        (Ok tt, saved (firstn (S (Z.to_nat k)) composites)
                  (snd (mkdir "data/dxf100" Examples.seven_store)))) /\
    (NoDup (map first_token Examples.seven_files) -> NoDup (map fst composites)).
Proof.
  apply (merge_dxf_files_by_gap_groups Examples.seven_files 100 "data/dxf100"
           Examples.seven_store).
  - vm_compute. discriminate.
  - vm_compute. discriminate.
  - intros p Hp. simpl in Hp.
    repeat (destruct Hp as [<-|Hp]; [vm_compute; discriminate|]). destruct Hp.
  - intros p Hp. simpl in Hp.
    repeat (destruct Hp as [<-|Hp]; [eexists; vm_compute; reflexivity|]). destruct Hp.
Defined.

(** The names of the four composites of the scenario, in the order saved. *)
Example seven_files_composite_names :
  map (fun c => stem (fst c))
      (firstn 4 (files (snd (merge_dxf_files_by_gap Examples.seven_files 100
                               "data/dxf100" Examples.seven_store)))) =
  ["300m to 300m"; "200m to 300m"; "100m to 200m"; "0m to 100m"]%string.
Proof. vm_compute. reflexivity. Qed.

(** C2.  In a sequence that lists each file once, the composite of the
    group that starts at index [i] has on its "Crosses" layer exactly the
    circles of the "Crosses" layers of the files at the indices [i], [i+1],
    ... up to the last file of the whole sequence, in that order (whatever
    the end file of the group is); hence the crosses of a composite that
    starts later, at [j >= i], are a final part of those of the composite
    that starts at [i]. *)
Theorem combine_dxf_files_crosses :
  forall (selected_files : list Path) (output_file : Path)
         (all_dxf_files : list Path) (s : Store) (i : Z) (start end_ : Path),
    NoDup all_dxf_files ->
    0 <= i ->
    getitem all_dxf_files i = Ok start ->
    getitem selected_files 0 = Ok start ->
    getitem selected_files (-1) = Ok end_ ->
    readable s end_ ->
    (forall p, In p (slice_from all_dxf_files i) -> readable s p) ->
    exists doc,
      combine_dxf_files selected_files output_file all_dxf_files s =
        (Ok tt, mkStore ((output_file, doc) :: files s) (dirs s)) /\
      Dxf.on_layer "Crosses" (Dxf.modelspace doc) =
        flat_map (file_crosses s) (slice_from all_dxf_files i) /\
      forall j, i <= j <= len all_dxf_files ->
        exists earlier,
          Dxf.on_layer "Crosses" (Dxf.modelspace doc) =
          earlier ++ flat_map (file_crosses s) (slice_from all_dxf_files j).
Proof.
  intros sel out all s i start end_ Hnd Hi Hstart Hsel0 Hsel1 Hend Hread.
  rewrite getitem_nonneg in Hstart by lia.
  destruct (nth_error all (Z.to_nat i)) as [x|] eqn:Hn; [|discriminate].
  injection Hstart as ->.
  assert (Hlen : i < len all).
  { assert (Hs : nth_error all (Z.to_nat i) <> None) by congruence.
    apply nth_error_Some in Hs. unfold len. lia. }
  pose proof (index_NoDup all _ _ Hnd Hn) as Hidx.
  rewrite Z2Nat.id in Hidx by lia.
  assert (Hin : In start (slice_from all i)).
  { rewrite slice_from_nonneg by lia.
    apply (nth_error_In _ 0). rewrite nth_error_skipn, Nat.add_0_r. exact Hn. }
  destruct (readable_lookup s start (Hread start Hin)) as [da Hda].
  destruct (readable_lookup s end_ Hend) as [db Hdb].
  exists (composite da db (flat_map (file_crosses s) (slice_from all i))).
  split; [|split].
  - apply (combine_dxf_files_spec sel out all s start end_ da db i); assumption.
  - apply composite_crosses.
  - intros j Hj. rewrite composite_crosses.
    exists (flat_map (file_crosses s)
              (firstn (Z.to_nat (j - i)) (slice_from all i))).
    rewrite <- flat_map_app. f_equal. apply slice_from_split; lia.
Qed.

(** The scenario: the group that starts at index 2 of the seven files has
    the markers of the files at the indices 2 to 6. *)
Lemma combine_dxf_files_crosses_witness :
  exists doc,
    combine_dxf_files [Examples.band_file 100; Examples.band_file 200]
      (output_path "data/dxf100" "100m" "200m") Examples.seven_files
      Examples.seven_store =
      (Ok tt, mkStore ((output_path "data/dxf100" "100m" "200m", doc)
                         :: files Examples.seven_store)
                (dirs Examples.seven_store)) /\
    Dxf.on_layer "Crosses" (Dxf.modelspace doc) =
      flat_map (file_crosses Examples.seven_store)
        (slice_from Examples.seven_files 2) /\
    forall j, 2 <= j <= len Examples.seven_files ->
      exists earlier,
        Dxf.on_layer "Crosses" (Dxf.modelspace doc) =
        earlier ++ flat_map (file_crosses Examples.seven_store)
                     (slice_from Examples.seven_files j).
Proof.
  apply (combine_dxf_files_crosses
           [Examples.band_file 100; Examples.band_file 200]
           (output_path "data/dxf100" "100m" "200m") Examples.seven_files
           Examples.seven_store 2 (Examples.band_file 100) (Examples.band_file 200)).
  - unfold Examples.seven_files, Examples.seven_bands. simpl.
    repeat (constructor; [simpl; intros H;
      repeat (destruct H as [H|H]; [vm_compute in H; discriminate H|]); exact H|]).
    constructor.
  - lia.
  - reflexivity.
  - reflexivity.
  - reflexivity.
  - vm_compute. discriminate.
  - intros p Hp. vm_compute in Hp.
    repeat (destruct Hp as [<-|Hp]; [vm_compute; discriminate|]). destruct Hp.
Defined.

(** Without the hypothesis that the sequence lists each file once, the
    crosses start at the first place where the start file occurs: in the
    sequence [0m; 50m; 0m] the group that starts at index 2 also gets the
    marker of the file at index 1. *)
Example crosses_of_a_repeated_file :
  map Dxf.geom
    (Dxf.on_layer "Crosses"
       (match files (snd (combine_dxf_files
                            [Examples.band_file 0; Examples.band_file 0]
                            (output_path "data/dxf100" "0m" "0m")
                            Examples.repeated_files Examples.seven_store)) with
        | (_, doc) :: _ => Dxf.modelspace doc
        | [] => []
        end)) =
  [Dxf.CIRCLE (0, 0) 0.5; Dxf.CIRCLE (50, 50) 0.5; Dxf.CIRCLE (0, 0) 0.5]%Q.
Proof. vm_compute. reflexivity. Qed.



(** ** No validation, no recovery *)

(** An iteration that raises ends the loop. *)
Lemma for_each_raise {A} (body : A -> io unit) (x : A) (l : list A)
    (s s' : Store) (e : exn) :
  body x s = (Raise e, s') -> for_each (x :: l) body s = (Raise e, s').
Proof. intros H. simpl. unfold bind. rewrite H. reflexivity. Qed.

Lemma combine_dxf_files_unreadable (selected_files : list Path)
    (output_file : Path) (all_dxf_files : list Path) (s : Store)
    (a b : Path) (i : Z) :
  getitem selected_files 0 = Ok a ->
  getitem selected_files (-1) = Ok b ->
  index path_eqb all_dxf_files a = Ok i ->
  (exists p, In p (slice_from all_dxf_files i) /\ ~ readable s p) ->
  combine_dxf_files selected_files output_file all_dxf_files s = (Raise IOError, s).
Proof.
  intros Ha Hb Hi Hex. unfold combine_dxf_files, bind, lift, readfile.
  rewrite Ha. destruct (lookup (files s) a); [|reflexivity].
  rewrite Hb. destruct (lookup (files s) b); [|reflexivity].
  rewrite Hi. rewrite copy_crosses_unreadable by exact Hex. reflexivity.
Qed.

(** The first group reads every file of the sequence. *)
Lemma merge_group_0_unreadable (dxf_files : list Path) (w : Z) (out : string)
    (s : Store) (p : Path) :
  1 <= w -> In p dxf_files -> ~ readable s p ->
  exists e,
    merge_group dxf_files w out 0 s = (Raise e, s) /\
    ((forall q, In q dxf_files -> exists t, first_token q = Ok t) -> e = IOError).
Proof.
  intros Hw Hp Hn.
  assert (HL : 0 <= 0 < len dxf_files).
  { destruct dxf_files; [destruct Hp|]. unfold len. simpl. lia. }
  destruct (select_files_spec dxf_files w 0 s HL Hw) as [a [b [Ha [Hb Hsel]]]].
  assert (Hidx : index path_eqb dxf_files a = Ok 0).
  { destruct dxf_files as [|x l]; [destruct Hp|].
    cbv in Ha. injection Ha as ->. simpl. rewrite path_eqb_refl. reflexivity. }
  assert (Hcomb : forall o, combine_dxf_files [a; b] o dxf_files s = (Raise IOError, s)).
  { intros o. apply (combine_dxf_files_unreadable _ _ _ _ a b 0); try reflexivity.
    - exact Hidx.
    - exists p. split; [|exact Hn]. rewrite slice_from_nonneg by lia. exact Hp. }
  unfold merge_group, bind. rewrite Hsel. unfold lift.
  change (getitem [a; b] 0) with (Ok a). change (getitem [a; b] (-1)) with (Ok b).
  cbv beta iota.
  destruct (first_token a) as [sm|e1] eqn:Hsm.
  - destruct (first_token b) as [em|e2] eqn:Hem.
    + exists IOError. split; [apply Hcomb|reflexivity].
    + exists e2. split; [reflexivity|]. intros Htok.
      destruct (Htok b (getitem_Ok_In _ _ _ Hb)) as [t Ht]. congruence.
  - exists e1. split; [reflexivity|]. intros Htok.
    destruct (Htok a (getitem_Ok_In _ _ _ Ha)) as [t Ht]. congruence.
Qed.

(** C8, as the code has it.  [merge_dxf_files_by_gap] has no handler around
    [combine_dxf_files]: when a file of the sequence cannot be read (and the
    window is at least 1), the exception leaves the loop in its first
    group, no composite is saved for any window, and the only trace is the
    output directory; the exception is the read error when every stem has
    a first token. *)
Theorem merge_dxf_files_by_gap_read_failure :
  forall (dxf_files : list Path) (gap : Z) (out : string) (s : Store) (p : Path),
    1 <= gap / 50 ->
    In p dxf_files ->
    ~ readable s p ->
    exists e,
      merge_dxf_files_by_gap dxf_files gap out s = (Raise e, snd (mkdir out s)) /\
      ((forall q, In q dxf_files -> exists t, first_token q = Ok t) -> e = IOError).
Proof.
  intros dxf_files gap out s p Hw Hp Hn.
  assert (HL : 1 <= len dxf_files).
  { destruct dxf_files; [destruct Hp|]. unfold len. simpl. lia. }
  assert (Hn' : ~ readable (snd (mkdir out s)) p).
  { unfold readable in *. destruct (mkdir_spec out s) as [_ [-> _]]. exact Hn. }
  destruct (merge_group_0_unreadable dxf_files (gap / 50) out _ p Hw Hp Hn')
    as [e [Hgrp He]].
  exists e. split; [|exact He].
  unfold merge_dxf_files_by_gap, bind.
  rewrite (proj1 (mkdir_spec out s)). unfold lift.
  rewrite range0_closed by lia.
  pose proof (ceil_div_pos (len dxf_files) (gap / 50) Hw HL) as Hc.
  destruct (Z.to_nat (ceil_div (len dxf_files) (gap / 50))) as [|n] eqn:En; [lia|].
  simpl seq. simpl map. apply for_each_raise. exact Hgrp.
Qed.

Lemma merge_dxf_files_by_gap_read_failure_witness :
  exists e,
    merge_dxf_files_by_gap Examples.two_files 50 "data/dxf100"
      Examples.second_only_store =
      (Raise e, snd (mkdir "data/dxf100" Examples.second_only_store)) /\
    ((forall q, In q Examples.two_files -> exists t, first_token q = Ok t) ->
     e = IOError).
Proof.
  apply (merge_dxf_files_by_gap_read_failure Examples.two_files 50 "data/dxf100"
           Examples.second_only_store (Examples.band_file 0)).
  - vm_compute. discriminate.
  - simpl. left. reflexivity.
  - unfold readable. vm_compute. intros H. apply H. reflexivity.
Defined.

(** C8 fails as stated: the file of the first band is missing, the read
    error of the first group ends the whole merge with nothing saved, and
    the second window is never merged although, on its own, it merges. *)
Lemma read_failure_ends_the_merge :
  ~ readable Examples.second_only_store (Examples.band_file 0) /\
  merge_dxf_files_by_gap Examples.two_files 50 "data/dxf100"
    Examples.second_only_store =
    (Raise IOError, mkStore [(Examples.band_file 50, Examples.sample_drawing 50)]
                      ["data/dxf100"%string]) /\
  fst (merge_group Examples.two_files 1 "data/dxf100" 1
         (snd (mkdir "data/dxf100" Examples.second_only_store))) = Ok tt.
Proof.
  split; [|split].
  - unfold readable. vm_compute. intros H. apply H. reflexivity.
  - vm_compute. reflexivity.
  - vm_compute. reflexivity.
Qed.





End MergeTheorems.

(* ===================================================================== *)
(** * src/data_maps.py                                                   *)
(* ===================================================================== *)

Module MapsFacts.

Import Py Fs Frame DataMaps Spec PyFacts.
Local Open Scope Q_scope.

(** ** [np.linspace] *)

Lemma linspace_length (start stop : Q) (num : nat) :
  List.length (linspace start stop num) = num.
Proof. unfold linspace. rewrite length_map, length_seq. reflexivity. Qed.

Lemma linspace_nth (start stop : Q) (num i : nat) :
  (i < num)%nat ->
  nth_error (linspace start stop num) i =
  Some (start + inject_Z (Z.of_nat i) * ((stop - start) / inject_Z (Z.of_nat num - 1))).
Proof.
  intros Hi. unfold linspace. rewrite nth_error_map, nth_error_seq.
  destruct (Nat.ltb_spec i num); [reflexivity|lia].
Qed.

(** The 500 parameter values are [i / 499], from 0 to 1. *)
Lemma linspace_500 (i : nat) :
  (i < 500)%nat ->
  exists t, nth_error (linspace 0 1 500) i = Some t /\
            t == inject_Z (Z.of_nat i) / 499 /\ 0 <= t <= 1.
Proof.
  intros Hi. eexists. split; [apply linspace_nth; exact Hi|].
  assert (E : 0 + inject_Z (Z.of_nat i) * ((1 - 0) / inject_Z (Z.of_nat 500 - 1))
              == inject_Z (Z.of_nat i) / 499).
  { change (inject_Z (Z.of_nat 500 - 1)) with 499. field. }
  split; [exact E|]. rewrite E.
  assert (H0 : 0 <= inject_Z (Z.of_nat i)).
  { change 0 with (inject_Z 0). rewrite <- Zle_Qle. lia. }
  assert (H1 : inject_Z (Z.of_nat i) <= 499).
  { change 499 with (inject_Z 499). rewrite <- Zle_Qle. lia. }
  split.
  - apply Qle_shift_div_l; [reflexivity|]. rewrite Qmult_0_l. exact H0.
  - apply Qle_shift_div_r; [reflexivity|]. rewrite Qmult_1_l. exact H1.
Qed.

(** ** The smoother *)

Lemma getitem_0_cons {A} (a : A) (l : list A) : getitem (a :: l) 0 = Ok a.
Proof. reflexivity. Qed.

Lemma smooth_boundary_spec `{Splines} (x y : list Q) (smoothing_factor : Q)
    (tck : TCK) (u : list Q) (x0 y0 : Q) (xs ys : list Q) :
  splprep x y smoothing_factor = Ok (tck, u) ->
  splev (linspace 0 1 500) tck = (x0 :: xs, y0 :: ys) ->
  smooth_boundary x y smoothing_factor =
  Ok ((x0 :: xs) ++ [x0], (y0 :: ys) ++ [y0])%list.
Proof.
  intros Hprep Hev. unfold smooth_boundary. rewrite Hprep. simpl.
  rewrite Hev. rewrite !getitem_0_cons. reflexivity.
Qed.

(** ** The hull filter *)

(** The multi-polygon branch smooths the polygons whose area is greater
    than the threshold, and only those. *)
Lemma smooth_geoms_filter `{Shapes} `{Splines} (geoms : list Polygon)
    (area_threshold smoothing_factor : Q) (acc : list (list Q * list Q)) :
  smooth_geoms geoms area_threshold smoothing_factor acc =
  obind (smooth_all
           (filter (fun p => negb (Qle_bool (area p) area_threshold)) geoms)
           smoothing_factor)
        (fun bs => Ok (acc ++ bs)%list).
Proof.
  revert acc. induction geoms as [|p rest IH]; intros acc; simpl.
  - rewrite app_nil_r. reflexivity.
  - destruct (negb (Qle_bool (area p) area_threshold)); [|apply IH].
    simpl. destruct (exterior_xy p) as [x y]. simpl.
    destruct (smooth_boundary x y smoothing_factor) as [b|e]; [|reflexivity].
    simpl. rewrite IH.
    destruct (smooth_all _ smoothing_factor) as [bs|e]; [|reflexivity].
    simpl. rewrite <- app_assoc. reflexivity.
Qed.

(** The single-polygon branch smooths the polygon whatever its area. *)
Lemma smooth_hull_single `{Shapes} `{Splines} (p : Polygon)
    (area_threshold smoothing_factor : Q) :
  smooth_hull (SinglePolygon p) area_threshold smoothing_factor =
  smooth_all [p] smoothing_factor.
Proof.
  simpl. destruct (exterior_xy p) as [x y]. simpl.
  destruct (smooth_boundary x y smoothing_factor); reflexivity.
Qed.

(** ** Slices and enumeration *)





(** ** The marker file writer *)

Lemma save_combined_to_dxf_spec (boundaries : list (list Q * list Q))
    (crosses : list Dxf.Point2D) (filename : Path) (s : Store) :
  save_combined_to_dxf boundaries crosses filename s =
  (Ok tt, mkStore ((filename, band_drawing boundaries crosses) :: files s) (dirs s)).
Proof.
  unfold save_combined_to_dxf, saveas, band_drawing. simpl.
  assert (Hb : forall bs msp,
             fold_left (fun msp '(smoothed_x, smoothed_y) =>
                          Dxf.add_lwpolyline (combine smoothed_x smoothed_y)
                            "Boundaries" msp) bs msp =
             (msp ++ map outline bs)%list).
  { induction bs as [|[x y] bs IH]; intros msp; simpl.
    - rewrite app_nil_r. reflexivity.
    - rewrite IH. unfold Dxf.add_lwpolyline, Dxf.add_entity.
      rewrite <- app_assoc. reflexivity. }
  assert (Hc : forall cs msp,
             fold_left (fun msp '(x, y) => Dxf.add_circle (x, y) 0.5 "Crosses" msp)
               cs msp = (msp ++ map marker cs)%list).
  { induction cs as [|[x y] cs IH]; intros msp; simpl.
    - rewrite app_nil_r. reflexivity.
    - rewrite IH. unfold Dxf.add_circle, Dxf.add_entity.
      rewrite <- app_assoc. reflexivity. }
  rewrite Hb, Hc. unfold Dxf.add_lwpolyline, Dxf.add_entity. simpl.
  rewrite <- app_assoc. reflexivity.
Qed.


(** ** The loop over the bands *)

Section BandLoop.

Context `{Shapes} `{Splines}.
Variables (data : DataFrame) (sorted_categories : list string).
Variables (alpha smoothing_factor : Q) (save_dxf : bool).

Local Abbreviation category_data := (Spec.category_data data sorted_categories).
Local Abbreviation boundaries_at :=
  (Spec.boundaries_at data sorted_categories alpha smoothing_factor).
Local Abbreviation save_band := (Spec.save_band sorted_categories save_dxf).

Lemma plot_bands_cons (idx : Z) (category : string) (rest : list (Z * string))
    (area_threshold : Q) (s : Store) :
  plot_bands data sorted_categories alpha smoothing_factor save_dxf
    ((idx, category) :: rest) area_threshold s =
  match boundaries_at idx area_threshold with
  | Raise e => (Raise e, s)
  | Ok boundaries =>
      let crosses := red_crosses (has_nom data) (category_data idx) category in
      match save_band idx boundaries crosses s with
      | (Raise e, s1) => (Raise e, s1)
      | (Ok _, s1) =>
          match plot_bands data sorted_categories alpha smoothing_factor save_dxf
                  rest (area_threshold - 0.02) s1 with
          | (Ok bands, s2) =>
              (Ok (mkBand idx category area_threshold boundaries crosses :: bands), s2)
          | (Raise e, s2) => (Raise e, s2)
          end
      end
  end.
Proof.
  unfold Spec.boundaries_at, Spec.save_band, Spec.category_data. simpl. unfold bind at 1, lift at 1.
  destruct (smooth_hull _ area_threshold smoothing_factor) as [bs|e]; [|reflexivity].
  unfold bind at 1.
  match goal with |- context [(if save_dxf then ?a else ?b) s] =>
    destruct ((if save_dxf then a else b) s) as [[[]|e'] s1] end; [|reflexivity].
  unfold bind at 1.
  destruct (plot_bands _ _ _ _ _ rest _ s1) as [[bands|e'] s2]; reflexivity.
Qed.

(** Every band of the result comes from the item at its place, and was
    filtered with the start threshold lowered by 0.02 once per band
    processed before it. *)
Lemma plot_bands_bands (items : list (Z * string)) :
  forall (area_threshold : Q) (s : Store) (bands : list Band) (s' : Store),
    plot_bands data sorted_categories alpha smoothing_factor save_dxf
      items area_threshold s = (Ok bands, s') ->
    List.length bands = List.length items /\
    forall (k : nat) (b : Band), nth_error bands k = Some b ->
      nth_error items k = Some (band_idx b, band_category b) /\
      band_threshold b == area_threshold - 0.02 * inject_Z (Z.of_nat k) /\
      boundaries_at (band_idx b) (band_threshold b) = Ok (band_boundaries b) /\
      band_crosses b =
        red_crosses (has_nom data) (category_data (band_idx b)) (band_category b).
Proof.
  induction items as [|[idx c] rest IH]; intros t s bands s' Hrun.
  - simpl in Hrun. injection Hrun as <- <-. split; [reflexivity|].
    intros k b Hk. destruct k; discriminate.
  - rewrite plot_bands_cons in Hrun.
    destruct (boundaries_at idx t) as [bs|e] eqn:Hbs; [|discriminate].
    cbv zeta in Hrun.
    destruct (save_band idx bs _ s) as [[[]|e] s1]; [|discriminate].
    destruct (plot_bands _ _ _ _ _ rest (t - 0.02) s1) as [[bands'|e] s2] eqn:Hrest;
      [|discriminate].
    injection Hrun as <- <-.
    destruct (IH _ _ _ _ Hrest) as [Hlen Hnth].
    split; [simpl; rewrite Hlen; reflexivity|].
    intros k b Hk. destruct k as [|k].
    + injection Hk as <-. simpl. repeat split; try assumption.
      change (inject_Z (Z.of_nat 0)) with 0. ring.
    + simpl in Hk. destruct (Hnth k b Hk) as [H1 [H2 [H3 H4]]].
      repeat split; try assumption.
      rewrite H2. rewrite Nat2Z.inj_succ. unfold Z.succ. rewrite inject_Z_plus.
      change (inject_Z 1) with 1. ring.
Qed.

End BandLoop.


End MapsFacts.

Module MapsTheorems.

Import Py Fs Frame DataMaps Spec PyFacts MapsFacts.
Local Open Scope Q_scope.

(** C5.  On every boundary that the spline fit accepts (scipy refuses
    fewer than four points), with an evaluation that returns one point per
    parameter value, the smoother returns a closed curve of exactly 501
    points: the first 500 are the fitted spline at the 500 evenly spaced
    parameter values [i / 499] of [0, 1], and the 501st is the first point
    again. *)
Theorem smooth_boundary_closed :
  forall (S : Splines) (x y : list Q) (smoothing_factor : Q)
         (tck : TCK) (u : list Q),
    (forall us t, List.length (fst (splev us t)) = List.length us /\
                  List.length (snd (splev us t)) = List.length us) ->
    splprep x y smoothing_factor = Ok (tck, u) ->
    exists smoothed_x smoothed_y x0 y0,
      smooth_boundary x y smoothing_factor = Ok (smoothed_x, smoothed_y) /\
      List.length smoothed_x = 501%nat /\
      List.length smoothed_y = 501%nat /\
      nth_error smoothed_x 0 = Some x0 /\ nth_error smoothed_x 500 = Some x0 /\
      nth_error smoothed_y 0 = Some y0 /\ nth_error smoothed_y 500 = Some y0 /\
      firstn 500 smoothed_x = fst (splev (linspace 0 1 500) tck) /\
      firstn 500 smoothed_y = snd (splev (linspace 0 1 500) tck) /\
      List.length (linspace 0 1 500) = 500%nat /\
      forall i, (i < 500)%nat ->
        exists t, nth_error (linspace 0 1 500) i = Some t /\
                  t == inject_Z (Z.of_nat i) / 499 /\ 0 <= t <= 1.
Proof.
  intros S x y sf tck u Hlen Hprep.
  destruct (Hlen (linspace 0 1 500) tck) as [Hx Hy].
  rewrite linspace_length in Hx, Hy.
  destruct (splev (linspace 0 1 500) tck) as [sx sy] eqn:Hev. simpl in Hx, Hy.
  destruct sx as [|x0 xs]; [discriminate|]. destruct sy as [|y0 ys]; [discriminate|].
  exists ((x0 :: xs) ++ [x0])%list, ((y0 :: ys) ++ [y0])%list, x0, y0.
  split; [apply (smooth_boundary_spec x y sf tck u); assumption|].
  assert (Hnx : forall (a : Q) l, List.length (a :: l) = 500%nat ->
                  nth_error ((a :: l) ++ [a]) 500 = Some a).
  { intros a l Hl. rewrite nth_error_app2 by (rewrite Hl; lia).
    rewrite Hl. reflexivity. }
  assert (Hfx : forall (a : Q) l, List.length (a :: l) = 500%nat ->
                  firstn 500 ((a :: l) ++ [a]) = a :: l).
  { intros a l Hl. rewrite firstn_app, Hl, Nat.sub_diag. simpl firstn at 2.
    rewrite app_nil_r. rewrite <- Hl. apply firstn_all. }
  split; [rewrite length_app, Hx; reflexivity|].
  split; [rewrite length_app, Hy; reflexivity|].
  split; [reflexivity|]. split; [apply Hnx; exact Hx|].
  split; [reflexivity|]. split; [apply Hnx; exact Hy|].
  split; [apply Hfx; exact Hx|]. split; [apply Hfx; exact Hy|].
  split; [apply linspace_length|apply linspace_500].
Qed.

Lemma smooth_boundary_closed_witness :
  exists smoothed_x smoothed_y x0 y0,
    @smooth_boundary Examples.vertex_splines [0; 3; 3; 0; 0] [0; 0; 3; 3; 0] 0.01 =
      Ok (smoothed_x, smoothed_y) /\
    List.length smoothed_x = 501%nat /\
    List.length smoothed_y = 501%nat /\
    nth_error smoothed_x 0 = Some x0 /\ nth_error smoothed_x 500 = Some x0 /\
    nth_error smoothed_y 0 = Some y0 /\ nth_error smoothed_y 500 = Some y0 /\
    firstn 500 smoothed_x =
      fst (@splev Examples.vertex_splines (linspace 0 1 500)
             ([0; 3; 3; 0; 0], [0; 0; 3; 3; 0])) /\
    firstn 500 smoothed_y =
      snd (@splev Examples.vertex_splines (linspace 0 1 500)
             ([0; 3; 3; 0; 0], [0; 0; 3; 3; 0])) /\
    List.length (linspace 0 1 500) = 500%nat /\
    forall i, (i < 500)%nat ->
      exists t, nth_error (linspace 0 1 500) i = Some t /\
                t == inject_Z (Z.of_nat i) / 499 /\ 0 <= t <= 1.
Proof.
  apply (smooth_boundary_closed Examples.vertex_splines
           [0; 3; 3; 0; 0] [0; 0; 3; 3; 0] 0.01
           ([0; 3; 3; 0; 0], [0; 0; 3; 3; 0]) []).
  - intros us t. simpl. rewrite !length_map. split; reflexivity.
  - reflexivity.
Defined.




(** C3, where the code departs from it: the hull of the three points is a
    single triangle of area 1/2, below the threshold 4.0 of the band, and
    its smoothed outline is kept and written to the band's file. *)
Lemma small_single_polygon_is_kept :
  @alphashape Examples.small_shapes
    (map (fun r => (longitude r, latitude r)) Examples.triangle_rows) 0.6 =
    SinglePolygon [(0, 0); (1, 0); (0, 1); (0, 0)] /\
  @area Examples.small_shapes [(0, 0); (1, 0); (0, 1); (0, 0)] == 0.5 /\
  exists b s',
    @plot_concave_hull Examples.small_shapes Examples.vertex_splines
      Examples.triangle_data ["0m to 50m"%string] 0.6 0 1 0.01 true
      (mkStore [] []) = (Ok [b], s') /\
    band_threshold b = 4.0 /\
    List.length (band_boundaries b) = 1%nat /\
    List.length
      (Dxf.on_layer "Boundaries"
         (match files s' with
          | (_, doc) :: _ => Dxf.modelspace doc
          | [] => []
          end)) = 1%nat.
Proof.
  split; [vm_compute; reflexivity|]. split; [vm_compute; reflexivity|].
  eexists. eexists. split; [vm_compute; reflexivity|].
  simpl. repeat split.
Qed.

(** The multi-polygon branch does filter: of the two squares, of area 9
    and 1, only the first passes the threshold 4.0. *)
Example two_squares_are_filtered :
  exists b s',
    @plot_concave_hull Examples.two_squares_shapes Examples.vertex_splines
      Examples.three_band_data Examples.three_bands 0.6 0 1 0.01 false
      (mkStore [] []) = (Ok [b], s') /\
    band_threshold b = 4.0 /\
    List.length (band_boundaries b) = 1%nat.
Proof.
  eexists. eexists. split; [vm_compute; reflexivity|]. simpl. repeat split.
Qed.



(** The markers of the three bands of the example, band by band. *)
Example three_band_markers :
  map band_crosses Examples.bands_from_0 = [[(1, 1)]; [(2, 2)]; [(3, 3)]].
Proof. vm_compute. reflexivity. Qed.

End MapsTheorems.

(* ===================================================================== *)
(** * Band labels and their numeric key                                  *)
(* ===================================================================== *)

Module LabelFacts.

Import Py Spec PyFacts TokenFacts.
Local Open Scope string_scope.

(** ** [rstrip] *)

Lemma rstrip_snoc (c : ascii) (w : string) :
  all_chars (fun a => negb (Ascii.eqb a c)) w = true ->
  rstrip c (w ++ String c "") = w.
Proof.
  induction w as [|a w IH]; simpl; intros Hw.
  - rewrite Ascii.eqb_refl. reflexivity.
  - apply andb_true_iff in Hw. destruct Hw as [Ha Hw].
    apply negb_true_iff in Ha. rewrite (IH Hw).
    destruct w; [rewrite Ha|]; reflexivity.
Qed.

(** ** [str] and [int] *)

Lemma string_of_uint_digits (d : Decimal.uint) :
  all_chars is_digit (NilEmpty.string_of_uint d) = true.
Proof. induction d; simpl; [reflexivity|..]; exact IHd. Qed.

Lemma string_of_uint_nonempty (d : Decimal.uint) :
  d <> Decimal.Nil -> NilEmpty.string_of_uint d <> "".
Proof. destruct d; simpl; congruence. Qed.

Lemma str_chars (z : Z) : all_chars is_numeral_char (str z) = true.
Proof.
  assert (H : forall d, all_chars is_numeral_char (NilEmpty.string_of_uint d) = true).
  { intros d. apply (all_chars_impl is_digit); [|apply string_of_uint_digits].
    intros c Hc. unfold is_numeral_char. rewrite Hc. reflexivity. }
  unfold str. destruct z; simpl; try apply H. reflexivity.
Qed.

Lemma str_nonempty (z : Z) : str z <> "".
Proof.
  unfold str. destruct z; simpl; try discriminate.
  apply string_of_uint_nonempty. apply DecimalPos.Unsigned.to_uint_nonnil.
Qed.

(** Reading back what [str] wrote. *)
Lemma int_str (z : Z) : int (str z) = Ok z.
Proof.
  pose proof (DecimalZ.of_to z) as Hof.
  unfold str. destruct z as [|p|p]; simpl Z.to_int in *.
  - reflexivity.
  - simpl NilEmpty.string_of_int.
    pose proof (string_of_uint_digits (Pos.to_uint p)) as Hd.
    pose proof (string_of_uint_nonempty _ (DecimalPos.Unsigned.to_uint_nonnil p)) as Hne.
    pose proof (NilEmpty.usu (Pos.to_uint p)) as Hu.
    destruct (NilEmpty.string_of_uint (Pos.to_uint p)) as [|c s] eqn:E; [congruence|].
    simpl in Hd. apply andb_true_iff in Hd. destruct Hd as [Hc _].
    unfold int.
    assert (Hm : Ascii.eqb c "-" = false).
    { destruct (Ascii.eqb_spec c "-"); [subst; discriminate Hc|reflexivity]. }
    assert (Hp : Ascii.eqb c "+" = false).
    { destruct (Ascii.eqb_spec c "+"); [subst; discriminate Hc|reflexivity]. }
    rewrite Hm, Hp. simpl orb. cbv iota. rewrite Hu.
    simpl in Hof. rewrite Hof. reflexivity.
  - simpl NilEmpty.string_of_int.
    pose proof (string_of_uint_nonempty _ (DecimalPos.Unsigned.to_uint_nonnil p)) as Hne.
    pose proof (NilEmpty.usu (Pos.to_uint p)) as Hu.
    unfold int. rewrite Ascii.eqb_refl. simpl orb. cbv iota.
    destruct (NilEmpty.string_of_uint (Pos.to_uint p)) as [|c s] eqn:E; [congruence|].
    rewrite Hu. simpl in Hof. rewrite Hof. reflexivity.
Qed.

(** ** The key of a label *)

Lemma numeral_char_not_space (c : ascii) :
  is_numeral_char c = true -> negb (is_space c) = true.
Proof.
  unfold is_numeral_char, is_digit, is_space. intros H.
  apply orb_true_iff in H. destruct H as [H|H].
  - apply andb_true_iff in H. destruct H as [H1 H2].
    apply Nat.leb_le in H1. apply Nat.leb_le in H2.
    apply negb_true_iff. apply orb_false_iff. split; [apply orb_false_iff; split|].
    + apply andb_false_iff. right. apply Nat.leb_gt. lia.
    + apply Nat.eqb_neq. lia.
    + apply andb_false_iff. right. apply Nat.leb_gt. lia.
  - apply Ascii.eqb_eq in H. subst. reflexivity.
Qed.

Lemma numeral_char_not_m (c : ascii) :
  is_numeral_char c = true -> negb (Ascii.eqb c "m") = true.
Proof.
  unfold is_numeral_char, is_digit. intros H.
  destruct (Ascii.eqb_spec c "m"); [subst; discriminate H|reflexivity].
Qed.

Lemma label_key_label (c bin_size : Z) :
  label_key (DataProcessing.label c bin_size) = Ok c.
Proof.
  unfold label_key, DataProcessing.label.
  change (str c ++ "m to " ++ str (c + bin_size) ++ "m")
    with (str c ++ ("m" ++ String " " ("to " ++ str (c + bin_size) ++ "m"))).
  rewrite <- append_assoc.
  rewrite split_first_word.
  - simpl obind. rewrite rstrip_snoc; [apply int_str|].
    apply (all_chars_impl is_numeral_char); [apply numeral_char_not_m|apply str_chars].
  - split; [destruct (str c); discriminate|].
    rewrite all_chars_app. rewrite andb_true_iff. split; [|reflexivity].
    apply (all_chars_impl is_numeral_char); [apply numeral_char_not_space|apply str_chars].
  - reflexivity.
Qed.


End LabelFacts.

(* ===================================================================== *)
(** * Stable insertion sort                                              *)
(* ===================================================================== *)

Module SortFacts.

Import Py DataProcessing.

Section SortBy.

Variable A : Type.
Variable leb : A -> A -> bool.
Hypothesis leb_total : forall a b, leb a b = true \/ leb b a = true.
Hypothesis leb_trans : forall a b c, leb a b = true -> leb b c = true -> leb a c = true.

Lemma insert_by_perm (x : A) (l : list A) : Permutation (x :: l) (insert_by leb x l).
Proof.
  induction l as [|y l IH]; simpl; [apply Permutation_refl|].
  destruct (leb y x); [|apply Permutation_refl].
  eapply perm_trans; [apply perm_swap|]. apply perm_skip. exact IH.
Qed.

Lemma fold_insert_perm (l acc : list A) :
  Permutation (acc ++ l) (fold_left (fun acc x => insert_by leb x acc) l acc).
Proof.
  revert acc. induction l as [|x l IH]; intros acc; simpl.
  - rewrite app_nil_r. apply Permutation_refl.
  - eapply perm_trans; [|apply IH].
    eapply perm_trans; [apply Permutation_sym, Permutation_middle|].
    apply (Permutation_app_tail l (insert_by_perm x acc)).
Qed.

Lemma sort_by_perm (l : list A) : Permutation l (sort_by leb l).
Proof. apply (fold_insert_perm l []). Qed.

Lemma insert_by_sorted (x : A) (l : list A) :
  StronglySorted (fun a b => leb a b = true) l ->
  StronglySorted (fun a b => leb a b = true) (insert_by leb x l).
Proof.
  induction 1 as [|y l Hs IH Hy]; simpl.
  - constructor; constructor.
  - destruct (leb y x) eqn:E.
    + constructor; [exact IH|].
      eapply Permutation_Forall; [apply insert_by_perm|].
      constructor; assumption.
    + assert (Hxy : leb x y = true).
      { destruct (leb_total x y) as [H|H]; [exact H|congruence]. }
      constructor; [constructor; assumption|].
      constructor; [exact Hxy|].
      eapply Forall_impl; [|exact Hy]. intros z Hz. eapply leb_trans; eauto.
Qed.

Lemma fold_insert_sorted (l acc : list A) :
  StronglySorted (fun a b => leb a b = true) acc ->
  StronglySorted (fun a b => leb a b = true)
    (fold_left (fun acc x => insert_by leb x acc) l acc).
Proof.
  revert acc. induction l as [|x l IH]; intros acc Hacc; simpl; [exact Hacc|].
  apply IH. apply insert_by_sorted. exact Hacc.
Qed.

Lemma sort_by_sorted (l : list A) :
  StronglySorted (fun a b => leb a b = true) (sort_by leb l).
Proof. apply fold_insert_sorted. constructor. Qed.

End SortBy.

(** Two orderings of the same elements, one strictly ascending by a key and
    one ascending by it, are the same list. *)
Lemma sorted_unique {A} (key : A -> Z) (l1 l2 : list A) :
  StronglySorted (fun a b => key a < key b) l1 ->
  StronglySorted (fun a b => key a <= key b) l2 ->
  Permutation l1 l2 ->
  l1 = l2.
Proof.
  intros H1. revert l2. induction H1 as [|a l1 Hs1 IH Ha]; intros l2 H2 Hp.
  - apply Permutation_nil in Hp. congruence.
  - destruct H2 as [|b l2 Hs2 Hb].
    + apply Permutation_sym, Permutation_nil in Hp. discriminate.
    + assert (Hab : a = b).
      { assert (Hina : In a (b :: l2)) by (eapply Permutation_in; [exact Hp|left; reflexivity]).
        assert (Hinb : In b (a :: l1))
          by (eapply Permutation_in; [apply Permutation_sym; exact Hp|left; reflexivity]).
        destruct Hina as [->|Hina]; [reflexivity|].
        destruct Hinb as [->|Hinb]; [reflexivity|].
        rewrite Forall_forall in Ha, Hb.
        specialize (Ha b Hinb). specialize (Hb a Hina). lia. }
      subst b. f_equal. apply IH; [exact Hs2|].
      eapply Permutation_cons_inv. exact Hp.
Qed.

(** [sorted] on a permutation of a list whose keys are strictly ascending
    gives that list back. *)
Lemma sorted_of_permutation {A} (key : A -> outcome Z) (k : A -> Z)
    (target l : list A) :
  (forall x, In x target -> key x = Ok (k x)) ->
  StronglySorted (fun a b => k a < k b) target ->
  Permutation l target ->
  sorted l key = Ok target.
Proof.
  intros Hkey Hsorted Hperm.
  assert (Hkeys : with_keys key l = Ok (map (fun x => (k x, x)) l)).
  { assert (Hl : forall x, In x l -> key x = Ok (k x)).
    { intros x Hx. apply Hkey. eapply Permutation_in; eauto. }
    clear Hperm. induction l as [|x l IH]; simpl; [reflexivity|].
    rewrite (Hl x (or_introl eq_refl)). simpl.
    rewrite IH by (intros y Hy; apply Hl; right; exact Hy). reflexivity. }
  unfold sorted. rewrite Hkeys. simpl. f_equal. symmetry.
  set (leb := fun a b : Z * A => fst a <=? fst b).
  set (kl := map (fun x => (k x, x)) l).
  pose proof (sort_by_perm _ leb kl) as Hp.
  assert (Hs : StronglySorted (fun a b => leb a b = true) (sort_by leb kl)).
  { apply sort_by_sorted.
    - intros a b. unfold leb. rewrite !Z.leb_le. lia.
    - intros a b c. unfold leb. rewrite !Z.leb_le. lia. }
  assert (Hall : Forall (fun p => fst p = k (snd p)) (sort_by leb kl)).
  { eapply Permutation_Forall; [exact Hp|].
    unfold kl. apply Forall_map. apply Forall_forall. reflexivity. }
  apply (sorted_unique k); [exact Hsorted| |].
  - clear Hp. induction Hs as [|p ps Hs IH Hp]; simpl; [constructor|].
    inversion Hall as [|? ? Hp0 Hps]; subst.
    constructor; [apply IH; exact Hps|].
    rewrite Forall_map. rewrite Forall_forall in *.
    intros q Hq. specialize (Hp q Hq). specialize (Hps q Hq).
    unfold leb in Hp. apply Z.leb_le in Hp. simpl. lia.
  - eapply perm_trans; [apply Permutation_sym; exact Hperm|].
    apply (Permutation_map snd) in Hp. unfold kl in Hp.
    rewrite map_map, map_id in Hp. exact Hp.
Qed.

End SortFacts.

(* ===================================================================== *)
(** * src/data_processing.py: the order of the bands                     *)
(* ===================================================================== *)

Module ProcessingFacts.

Import Py Fs Frame DataProcessing Spec PyFacts LabelFacts SortFacts.
Local Open Scope Q_scope.

(** ** Bins *)



(** ** Means *)



(** ** The categories of a data set and their means *)





End ProcessingFacts.

Module ProcessingTheorems.

Import Py Fs Frame DataProcessing Spec PyFacts LabelFacts SortFacts ProcessingFacts.



(** The bands of the example, in ascending order of the mean altitude: the
    order is the numeric one ("50m" before "100m" before "1000m"). *)
Example survey_categories :
  snd (categorize_and_sort Examples.survey_rows 50) =
  ["0m to 50m"; "50m to 100m"; "100m to 150m"; "1000m to 1050m"]%string.
Proof. vm_compute. reflexivity. Qed.

(** The order of the strings themselves is another one. *)
Example survey_categories_as_strings :
  sort_by String.leb (snd (categorize_and_sort Examples.survey_rows 50)) =
  ["0m to 50m"; "1000m to 1050m"; "100m to 150m"; "50m to 100m"]%string.
Proof. vm_compute. reflexivity. Qed.

End ProcessingTheorems.

(* ===================================================================== *)
(** * mergeDXF.py: further properties of the composite merger            *)
(* ===================================================================== *)

Module CombineProperties.

Import Py Fs MergeDXF Spec PipelineSpec PyFacts TokenFacts MergeFacts GapFacts.

Lemma copy_crosses_store (ps : list Path) (msp : list Dxf.Entity) (s : Store) :
  snd (copy_crosses ps msp s) = s.
Proof.
  revert msp. induction ps as [|p ps IH]; intros msp; simpl; [reflexivity|].
  unfold bind, readfile. destruct (lookup (files s) p); [apply IH|reflexivity].
Qed.

Lemma on_layer_relabel_same (l : string) (es : list Dxf.Entity) :
  Dxf.on_layer l (relabel l es) = relabel l es.
Proof.
  unfold Dxf.on_layer, relabel. induction es as [|e es IH]; simpl; [reflexivity|].
  rewrite String.eqb_refl, IH. reflexivity.
Qed.

Lemma on_layer_file_crosses_other (l : string) (s : Store) (ps : list Path) :
  l <> "Crosses"%string ->
  Dxf.on_layer l (flat_map (file_crosses s) ps) = [].
Proof.
  intros Hne.
  pose proof (file_crosses_layer s ps) as Hall.
  unfold Dxf.on_layer.
  induction (flat_map (file_crosses s) ps) as [|e es IH]; simpl; [reflexivity|].
  inversion Hall as [|? ? He Hes]; subst.
  rewrite He. destruct (String.eqb_spec "Crosses" l); [congruence|].
  apply IH. exact Hes.
Qed.

Lemma index_not_In (l : list Path) (x : Path) :
  ~ In x l -> index path_eqb l x = Raise ValueError.
Proof.
  induction l as [|a l IH]; simpl; intros Hn; [reflexivity|].
  destruct (path_eqb a x) eqn:E.
  - apply path_eqb_eq in E. subst. exfalso. apply Hn. left. reflexivity.
  - rewrite IH; [reflexivity|]. intros H. apply Hn. right. exact H.
Qed.

(** X1.  A composite that [combine_dxf_files] saves can be read back from
    the output path, and its boundary and margin layers are what the
    function copied: "Boundaries_start" holds the polylines of the
    "Boundaries" layer of the first selected file, "Margin" those of its
    "Margin" layer, "Boundaries_end" those of the "Boundaries" layer of the
    last selected file, each with its geometry unchanged and in the order
    of the file. *)
Theorem combine_dxf_files_boundaries :
  forall (selected_files : list Path) (output_file : Path)
         (all_dxf_files : list Path) (s s' : Store),
    combine_dxf_files selected_files output_file all_dxf_files s = (Ok tt, s') ->
    exists start end_ start_doc end_doc doc,
      getitem selected_files 0 = Ok start /\
      getitem selected_files (-1) = Ok end_ /\
      lookup (files s) start = Some start_doc /\
      lookup (files s) end_ = Some end_doc /\
      lookup (files s') output_file = Some doc /\
      Dxf.on_layer "Boundaries_start" (Dxf.modelspace doc) =
        map (fun e => Dxf.mkEntity "Boundaries_start" (Dxf.geom e))
            (Dxf.query_lwpolyline "Boundaries" start_doc) /\
      Dxf.on_layer "Margin" (Dxf.modelspace doc) =
        map (fun e => Dxf.mkEntity "Margin" (Dxf.geom e))
            (Dxf.query_lwpolyline "Margin" start_doc) /\
      Dxf.on_layer "Boundaries_end" (Dxf.modelspace doc) =
        map (fun e => Dxf.mkEntity "Boundaries_end" (Dxf.geom e))
            (Dxf.query_lwpolyline "Boundaries" end_doc).
Proof.
  intros sel out all s s' H.
  destruct (combine_dxf_files_inv sel out all s s' H)
    as [a [b [da [db [i [Ha [Hb [Hda [Hdb [Hi Hr]]]]]]]]]].
  rewrite (combine_dxf_files_spec sel out all s a b da db i Ha Hb Hda Hdb Hi Hr) in H.
  injection H as <-.
  exists a, b, da, db,
    (composite da db (flat_map (file_crosses s) (slice_from all i))).
  split; [exact Ha|]. split; [exact Hb|]. split; [exact Hda|]. split; [exact Hdb|].
  split; [simpl; rewrite path_eqb_refl; reflexivity|].
  unfold composite. simpl Dxf.modelspace.
  rewrite !on_layer_app.
  rewrite !on_layer_relabel_same.
  rewrite !on_layer_relabel_other by discriminate.
  rewrite !on_layer_file_crosses_other by discriminate.
  rewrite !app_nil_r. simpl. repeat split; reflexivity.
Qed.

Lemma combine_dxf_files_boundaries_witness :
  exists start end_ start_doc end_doc doc,
    getitem [Examples.band_file 0; Examples.band_file 100] 0 = Ok start /\
    getitem [Examples.band_file 0; Examples.band_file 100] (-1) = Ok end_ /\
    lookup (files Examples.seven_store) start = Some start_doc /\
    lookup (files Examples.seven_store) end_ = Some end_doc /\
    lookup
      (files (snd (combine_dxf_files [Examples.band_file 0; Examples.band_file 100]
                     (output_path "data/dxf100" "0m" "100m") Examples.seven_files
                     Examples.seven_store)))
      (output_path "data/dxf100" "0m" "100m") = Some doc /\
    Dxf.on_layer "Boundaries_start" (Dxf.modelspace doc) =
      map (fun e => Dxf.mkEntity "Boundaries_start" (Dxf.geom e))
          (Dxf.query_lwpolyline "Boundaries" start_doc) /\
    Dxf.on_layer "Margin" (Dxf.modelspace doc) =
      map (fun e => Dxf.mkEntity "Margin" (Dxf.geom e))
          (Dxf.query_lwpolyline "Margin" start_doc) /\
    Dxf.on_layer "Boundaries_end" (Dxf.modelspace doc) =
      map (fun e => Dxf.mkEntity "Boundaries_end" (Dxf.geom e))
          (Dxf.query_lwpolyline "Boundaries" end_doc).
Proof.
  apply (combine_dxf_files_boundaries
           [Examples.band_file 0; Examples.band_file 100]
           (output_path "data/dxf100" "0m" "100m") Examples.seven_files
           Examples.seven_store).
  vm_compute. reflexivity.
Defined.

(** X2.  [combine_dxf_files] writes one file, and only when it succeeds:
    on success the store gains the composite at the output path and every
    other path reads as before; when an exception is raised (a file that
    cannot be read, an empty selection, a start file that is not in the
    sequence) the store is unchanged. *)
Theorem combine_dxf_files_writes_once :
  forall (selected_files : list Path) (output_file : Path)
         (all_dxf_files : list Path) (s : Store),
    match combine_dxf_files selected_files output_file all_dxf_files s with
    | (Ok _, s') =>
        exists doc,
          s' = mkStore ((output_file, doc) :: files s) (dirs s) /\
          forall p, p <> output_file ->
                    lookup (files s') p = lookup (files s) p
    | (Raise _, s') => s' = s
    end.
Proof.
  intros sel out all s.
  unfold combine_dxf_files, bind, lift, readfile.
  destruct (getitem sel 0) as [a|]; [|reflexivity].
  destruct (lookup (files s) a) as [da|]; [|reflexivity].
  destruct (getitem sel (-1)) as [b|]; [|reflexivity].
  destruct (lookup (files s) b) as [db|]; [|reflexivity].
  destruct (index path_eqb all a) as [i|]; [|reflexivity].
  match goal with |- context [copy_crosses ?ps ?m s] =>
    pose proof (copy_crosses_store ps m s) as Hs;
    destruct (copy_crosses ps m s) as [[msp|e] s1] end;
    simpl in Hs; subst s1; [|reflexivity].
  unfold saveas. eexists. split; [reflexivity|].
  intros p Hp. simpl.
  destruct (path_eqb out p) eqn:E; [|reflexivity].
  apply path_eqb_eq in E. congruence.
Qed.

(** X3.  The exceptions of [combine_dxf_files] that are not read errors:
    an empty selection raises [IndexError] at [selected_files[0]]; a start
    file that is not one of [all_dxf_files] raises the [ValueError] of
    [list.index], after the start and the end file have been read. *)
Theorem combine_dxf_files_bad_selection :
  forall (output_file : Path) (all_dxf_files : list Path) (s : Store),
    combine_dxf_files [] output_file all_dxf_files s = (Raise IndexError, s) /\
    forall (selected_files : list Path) (start end_ : Path),
      getitem selected_files 0 = Ok start ->
      getitem selected_files (-1) = Ok end_ ->
      readable s start -> readable s end_ ->
      ~ In start all_dxf_files ->
      combine_dxf_files selected_files output_file all_dxf_files s =
        (Raise ValueError, s).
Proof.
  intros out all s. split; [reflexivity|].
  intros sel a b Ha Hb Hra Hrb Hnot.
  destruct (readable_lookup s a Hra) as [da Hda].
  destruct (readable_lookup s b Hrb) as [db Hdb].
  unfold combine_dxf_files, bind, lift, readfile.
  rewrite Ha, Hda, Hb, Hdb, (index_not_In all a Hnot). reflexivity.
Qed.

Lemma combine_dxf_files_bad_selection_witness :
  combine_dxf_files [] (output_path "data/dxf100" "0m" "0m") Examples.two_files
    Examples.seven_store = (Raise IndexError, Examples.seven_store) /\
  combine_dxf_files [Examples.band_file 100; Examples.band_file 200]
    (output_path "data/dxf100" "100m" "200m") Examples.two_files
    Examples.seven_store = (Raise ValueError, Examples.seven_store).
Proof.
  destruct (combine_dxf_files_bad_selection
              (output_path "data/dxf100" "0m" "0m") Examples.two_files
              Examples.seven_store) as [H0 _].
  destruct (combine_dxf_files_bad_selection
              (output_path "data/dxf100" "100m" "200m") Examples.two_files
              Examples.seven_store) as [_ H1].
  split; [exact H0|].
  apply (H1 [Examples.band_file 100; Examples.band_file 200]
            (Examples.band_file 100) (Examples.band_file 200)).
  - reflexivity.
  - reflexivity.
  - unfold readable. vm_compute. discriminate.
  - unfold readable. vm_compute. discriminate.
  - simpl. intros [H|[H|H]]; [vm_compute in H; discriminate H
                             |vm_compute in H; discriminate H|exact H].
Defined.

End CombineProperties.

(* ===================================================================== *)
(** * mergeDXF.py: the merge as a function of the files read             *)
(* ===================================================================== *)

Module MergeProperties.

Import Py Fs MergeDXF Spec PipelineSpec PyFacts TokenFacts MergeFacts GapFacts.

Section Merge.

Variables (dxf_files : list Path) (w : Z) (out : string) (s : Store).
Hypothesis window_pos : 1 <= w.
Hypothesis files_once : NoDup dxf_files.
Hypothesis files_readable : forall p, In p dxf_files -> readable s p.
Hypothesis files_tokens : forall p, In p dxf_files -> exists t, first_token p = Ok t.
Hypothesis files_elsewhere : forall p, In p dxf_files -> parent p <> out.

Lemma agrees_refl : agrees dxf_files s s.
Proof. intros p _. reflexivity. Qed.

(** Saving in the output directory leaves the files of the sequence as
    they are. *)
Lemma agrees_save (s' : Store) (sm em : string) (doc : Dxf.Drawing) :
  agrees dxf_files s s' ->
  agrees dxf_files s
    (mkStore ((output_path out sm em, doc) :: files s') (dirs s')).
Proof.
  intros Hag p Hp. simpl.
  destruct (path_eqb (output_path out sm em) p) eqn:E; [|apply Hag; exact Hp].
  apply path_eqb_eq in E. exfalso. apply (files_elsewhere p Hp).
  rewrite <- E. reflexivity.
Qed.

Lemma file_crosses_agrees (s' : Store) (ps : list Path) :
  agrees dxf_files s s' ->
  (forall p, In p ps -> In p dxf_files) ->
  flat_map (file_crosses s') ps = flat_map (file_crosses s) ps.
Proof.
  intros Hag Hin. induction ps as [|p ps IH]; simpl; [reflexivity|].
  rewrite IH by (intros q Hq; apply Hin; right; exact Hq).
  unfold file_crosses. rewrite (Hag p (Hin p (or_introl eq_refl))). reflexivity.
Qed.

Lemma merge_group_agrees (i : Z) (s' : Store) :
  0 <= i < len dxf_files ->
  agrees dxf_files s s' ->
  merge_group dxf_files w out i s' =
  (Ok tt, mkStore (group_composite s out dxf_files w i :: files s') (dirs s')).
Proof.
  intros Hi Hag.
  destruct (select_files_spec dxf_files w i s' Hi window_pos) as [a [b [Ha [Hb Hsel]]]].
  pose proof (getitem_Ok_In _ _ _ Ha) as Hina.
  pose proof (getitem_Ok_In _ _ _ Hb) as Hinb.
  destruct (files_tokens a Hina) as [sm Hsm]. destruct (files_tokens b Hinb) as [em Hem].
  destruct (readable_lookup s a (files_readable a Hina)) as [da Hda].
  destruct (readable_lookup s b (files_readable b Hinb)) as [db Hdb].
  assert (Hidx : index path_eqb dxf_files a = Ok i).
  { rewrite getitem_nonneg in Ha by lia.
    destruct (nth_error dxf_files (Z.to_nat i)) as [x|] eqn:Hn; [|discriminate].
    injection Ha as ->. pose proof (index_NoDup _ _ _ files_once Hn) as Hx.
    rewrite Z2Nat.id in Hx by lia. exact Hx. }
  assert (Hr' : forall p, In p (slice_from dxf_files i) -> readable s' p).
  { intros p Hp. apply In_slice_from in Hp. unfold readable.
    rewrite (Hag p Hp). apply files_readable. exact Hp. }
  unfold merge_group, bind. rewrite Hsel. unfold lift.
  change (getitem [a; b] 0) with (Ok a). change (getitem [a; b] (-1)) with (Ok b).
  cbv beta iota. rewrite Hsm, Hem.
  rewrite (combine_dxf_files_spec [a; b] _ dxf_files s' a b da db i
             eq_refl eq_refl); try assumption.
  - unfold group_composite, path_at, token_of, drawing_at.
    rewrite Ha, Hb, Hsm, Hem, Hda, Hdb.
    rewrite (file_crosses_agrees s' _ Hag (fun p Hp => In_slice_from _ _ _ Hp)).
    reflexivity.
  - rewrite (Hag a Hina). exact Hda.
  - rewrite (Hag b Hinb). exact Hdb.
Qed.

Lemma for_each_groups (ks : list Z) :
  (forall i, In i ks -> 0 <= i < len dxf_files) ->
  forall s', agrees dxf_files s s' ->
    for_each ks (merge_group dxf_files w out) s' =
    (Ok tt, saved (map (group_composite s out dxf_files w) ks) s').
Proof.
  induction ks as [|k ks IH]; intros Hks s' Hag.
  - destruct s'. reflexivity.
  - simpl. unfold bind.
    rewrite (merge_group_agrees k s' (Hks k (or_introl eq_refl)) Hag).
    unfold group_composite at 1.
    rewrite IH.
    + unfold saved. simpl. rewrite <- app_assoc. reflexivity.
    + intros i Hin. apply Hks. right. exact Hin.
    + apply agrees_save. exact Hag.
Qed.

Lemma group_starts_in_range (k : nat) :
  In k (seq 0 (Z.to_nat (ceil_div (len dxf_files) w))) ->
  0 <= Z.of_nat k * w < len dxf_files.
Proof.
  intros Hk. apply in_seq in Hk.
  pose proof (ceil_div_ceiling (len dxf_files) w window_pos). nia.
Qed.

(** The loop of the merge, started on a store that holds the files of
    the sequence as [s] does. *)
Lemma merge_loop (s' : Store) :
  agrees dxf_files s s' ->
  for_each
    (map (fun k => Z.of_nat k * w) (seq 0 (Z.to_nat (ceil_div (len dxf_files) w))))
    (merge_group dxf_files w out) s' =
  (Ok tt, saved (expected_composites s out dxf_files w) s').
Proof.
  intros Hag. rewrite for_each_groups; [|
    intros i Hi; apply in_map_iff in Hi; destruct Hi as [k [<- Hk]];
    apply group_starts_in_range; exact Hk | exact Hag].
  unfold expected_composites. rewrite map_map. reflexivity.
Qed.

Lemma agrees_saved (s' : Store) (cs : list (Path * Dxf.Drawing)) :
  Forall (fun c => parent (fst c) = out) cs ->
  agrees dxf_files s s' -> agrees dxf_files s (saved cs s').
Proof.
  intros Hcs Hag p Hp. unfold saved. simpl.
  assert (Hrev : Forall (fun c => parent (fst c) = out) (rev cs)).
  { apply Forall_rev. exact Hcs. }
  induction Hrev as [|[q d] l Hq _ IH]; simpl; [apply Hag; exact Hp|].
  destruct (path_eqb q p) eqn:E; [|exact IH].
  apply path_eqb_eq in E. subst q. exfalso. apply (files_elsewhere p Hp). exact Hq.
Qed.

Lemma expected_composites_in_out :
  Forall (fun c => parent (fst c) = out) (expected_composites s out dxf_files w).
Proof.
  unfold expected_composites. apply Forall_map. apply Forall_forall.
  intros k _. reflexivity.
Qed.

(** The expected composites depend on the store only through the files of
    the sequence. *)
Lemma expected_composites_agrees (s' : Store) :
  agrees dxf_files s s' ->
  expected_composites s' out dxf_files w = expected_composites s out dxf_files w.
Proof.
  intros Hag. unfold expected_composites. apply map_ext_in. intros k Hk.
  pose proof (group_starts_in_range k Hk) as Hi.
  destruct (select_files_spec dxf_files w _ s Hi window_pos) as [a [b [Ha [Hb _]]]].
  unfold group_composite, path_at, drawing_at. rewrite Ha, Hb.
  rewrite (Hag a (getitem_Ok_In _ _ _ Ha)), (Hag b (getitem_Ok_In _ _ _ Hb)).
  rewrite (file_crosses_agrees s' _ Hag (fun p Hp => In_slice_from _ _ _ Hp)).
  reflexivity.
Qed.

End Merge.

Lemma mkdir_files (out : string) (s : Store) :
  mkdir out s = (Ok tt, snd (mkdir out s)) /\
  files (snd (mkdir out s)) = files s /\
  In out (dirs (snd (mkdir out s))).
Proof.
  unfold mkdir. simpl. repeat split.
  - destruct (existsb (String.eqb out) (dirs s)); reflexivity.
  - destruct (existsb (String.eqb out) (dirs s)) eqn:E; simpl; [|auto].
    apply existsb_exists in E. destruct E as [d [Hd E]].
    apply String.eqb_eq in E. subst. exact Hd.
Qed.

Lemma mkdir_again (out : string) (s : Store) :
  In out (dirs s) -> snd (mkdir out s) = s.
Proof.
  intros Hin. unfold mkdir. simpl.
  destruct (existsb (String.eqb out) (dirs s)) eqn:E; [reflexivity|].
  assert (Ht : existsb (String.eqb out) (dirs s) = true).
  { apply existsb_exists. exists out. split; [exact Hin|apply String.eqb_refl]. }
  congruence.
Qed.

Lemma agrees_mkdir (dxf_files : list Path) (out : string) (s : Store) :
  agrees dxf_files s (snd (mkdir out s)).
Proof.
  intros p _. unfold mkdir. simpl.
  destruct (existsb (String.eqb out) (dirs s)); reflexivity.
Qed.

Lemma merge_run (dxf_files : list Path) (gap : Z) (out : string) (s s0 : Store) :
  1 <= gap / 50 ->
  NoDup dxf_files ->
  (forall p, In p dxf_files -> readable s p) ->
  (forall p, In p dxf_files -> exists t, first_token p = Ok t) ->
  (forall p, In p dxf_files -> parent p <> out) ->
  agrees dxf_files s s0 ->
  merge_dxf_files_by_gap dxf_files gap out s0 =
  (Ok tt, saved (expected_composites s out dxf_files (gap / 50)) (snd (mkdir out s0))).
Proof.
  intros Hw Hnd Hread Htok Helse Hag.
  destruct (mkdir_files out s0) as [Hmk [Hfiles _]].
  unfold merge_dxf_files_by_gap, bind. rewrite Hmk. cbn [snd]. unfold lift.
  rewrite range0_closed by (pose proof (len_nonneg dxf_files); lia).
  apply (merge_loop dxf_files (gap / 50) out s Hw Hnd Hread Htok Helse).
  intros p Hp. rewrite Hfiles. apply Hag. exact Hp.
Qed.

(** X4.  When the sequence lists each file once, every file can be read
    and has a first token, and no file of the sequence lies in the output
    directory, the merge is a function of the files it was given: it
    saves, in the order of the groups, the composite of each group as
    computed from the files as they were before the merge (start file
    [sequence[k*w]], end file [sequence[k*w+w]] or the last one, crosses of
    all the files from [k*w] on), and afterwards every file of the sequence
    still reads as before. *)
Theorem merge_dxf_files_by_gap_composites :
  forall (dxf_files : list Path) (gap : Z) (out : string) (s : Store),
    1 <= gap / 50 ->
    NoDup dxf_files ->
    (forall p, In p dxf_files -> readable s p) ->
    (forall p, In p dxf_files -> exists t, first_token p = Ok t) ->
    (forall p, In p dxf_files -> parent p <> out) ->
    merge_dxf_files_by_gap dxf_files gap out s =
      (Ok tt,
       saved (map (fun k => group_composite s out dxf_files (gap / 50)
                              (Z.of_nat k * (gap / 50)))
                  (seq 0 (Z.to_nat (ceil_div (len dxf_files) (gap / 50)))))
             (snd (mkdir out s))) /\
    forall p, In p dxf_files ->
      lookup (files (snd (merge_dxf_files_by_gap dxf_files gap out s))) p =
      lookup (files s) p.
Proof.
  intros dxf_files gap out s Hw Hnd Hread Htok Helse.
  pose proof (merge_run dxf_files gap out s s Hw Hnd Hread Htok Helse
                (agrees_refl dxf_files s)) as Hrun.
  split; [exact Hrun|].
  rewrite Hrun. cbn [snd].
  apply (agrees_saved dxf_files out s Helse).
  - apply expected_composites_in_out.
  - apply agrees_mkdir.
Qed.

Lemma seven_files_once : NoDup Examples.seven_files.
Proof.
  unfold Examples.seven_files, Examples.seven_bands. simpl.
  repeat (constructor; [simpl; intros H;
    repeat (destruct H as [H|H]; [vm_compute in H; discriminate H|]); exact H|]).
  constructor.
Qed.

Lemma seven_files_readable :
  forall p, In p Examples.seven_files -> readable Examples.seven_store p.
Proof.
  intros p Hp. simpl in Hp.
  repeat (destruct Hp as [<-|Hp]; [vm_compute; discriminate|]). destruct Hp.
Qed.

Lemma seven_files_tokens :
  forall p, In p Examples.seven_files -> exists t, first_token p = Ok t.
Proof.
  intros p Hp. simpl in Hp.
  repeat (destruct Hp as [<-|Hp]; [eexists; vm_compute; reflexivity|]). destruct Hp.
Qed.

Lemma seven_files_elsewhere :
  forall p, In p Examples.seven_files -> parent p <> "data/dxf100"%string.
Proof.
  intros p Hp. simpl in Hp.
  repeat (destruct Hp as [<-|Hp]; [vm_compute; discriminate|]). destruct Hp.
Qed.

Lemma merge_dxf_files_by_gap_composites_witness :
  merge_dxf_files_by_gap Examples.seven_files 100 "data/dxf100" Examples.seven_store =
    (Ok tt,
     saved (map (fun k => group_composite Examples.seven_store "data/dxf100"
                            Examples.seven_files (100 / 50)
                            (Z.of_nat k * (100 / 50)))
                (seq 0 (Z.to_nat (ceil_div (len Examples.seven_files) (100 / 50)))))
           (snd (mkdir "data/dxf100" Examples.seven_store))) /\
  forall p, In p Examples.seven_files ->
    lookup (files (snd (merge_dxf_files_by_gap Examples.seven_files 100
                          "data/dxf100" Examples.seven_store))) p =
    lookup (files Examples.seven_store) p.
Proof.
  apply (merge_dxf_files_by_gap_composites Examples.seven_files 100 "data/dxf100"
           Examples.seven_store).
  - vm_compute. discriminate.
  - exact seven_files_once.
  - exact seven_files_readable.
  - exact seven_files_tokens.
  - exact seven_files_elsewhere.
Defined.

(** X5.  Under the same conditions the merge can be run again: the second
    run returns normally and saves the same composites, with the same
    names and the same contents, as the first. *)
Theorem merge_dxf_files_by_gap_again :
  forall (dxf_files : list Path) (gap : Z) (out : string) (s : Store),
    1 <= gap / 50 ->
    NoDup dxf_files ->
    (forall p, In p dxf_files -> readable s p) ->
    (forall p, In p dxf_files -> exists t, first_token p = Ok t) ->
    (forall p, In p dxf_files -> parent p <> out) ->
    exists composites s1,
      merge_dxf_files_by_gap dxf_files gap out s = (Ok tt, s1) /\
      s1 = saved composites (snd (mkdir out s)) /\
      merge_dxf_files_by_gap dxf_files gap out s1 = (Ok tt, saved composites s1).
Proof.
  intros dxf_files gap out s Hw Hnd Hread Htok Helse.
  set (cs := expected_composites s out dxf_files (gap / 50)).
  set (s1 := saved cs (snd (mkdir out s))).
  assert (Hag : agrees dxf_files s s1).
  { apply (agrees_saved dxf_files out s Helse).
    - apply expected_composites_in_out.
    - apply agrees_mkdir. }
  exists cs, s1. split; [|split; [reflexivity|]].
  - apply (merge_run dxf_files gap out s s Hw Hnd Hread Htok Helse).
    apply agrees_refl.
  - rewrite (merge_run dxf_files gap out s s1 Hw Hnd Hread Htok Helse Hag).
    rewrite mkdir_again; [reflexivity|].
    unfold s1, saved. simpl. apply (mkdir_files out s).
Qed.

Lemma merge_dxf_files_by_gap_again_witness :
  exists composites s1,
    merge_dxf_files_by_gap Examples.seven_files 100 "data/dxf100"
      Examples.seven_store = (Ok tt, s1) /\
    s1 = saved composites (snd (mkdir "data/dxf100" Examples.seven_store)) /\
    merge_dxf_files_by_gap Examples.seven_files 100 "data/dxf100" s1 =
      (Ok tt, saved composites s1).
Proof.
  apply (merge_dxf_files_by_gap_again Examples.seven_files 100 "data/dxf100"
           Examples.seven_store).
  - vm_compute. discriminate.
  - exact seven_files_once.
  - exact seven_files_readable.
  - exact seven_files_tokens.
  - exact seven_files_elsewhere.
Defined.

End MergeProperties.

(* ===================================================================== *)
(** * mergeDXF.py: the sort and the glob of the script                   *)
(* ===================================================================== *)

Module ScriptProperties.

Import Py Fs MergeDXF MergeScript Spec PyFacts SortFacts.
Import DataProcessing.

(** The key of a path as a number (0 where there is none). *)
Local Abbreviation key_of :=
  (fun p : Path => match sort_key p with Ok z => z | Raise _ => 0 end).

Lemma with_keys_ok {A} (key : A -> outcome Z) (k : A -> Z) (l : list A) :
  (forall x, In x l -> key x = Ok (k x)) ->
  with_keys key l = Ok (map (fun x => (k x, x)) l).
Proof.
  induction l as [|x l IH]; intros Hl; simpl; [reflexivity|].
  rewrite (Hl x (or_introl eq_refl)). simpl.
  rewrite IH by (intros y Hy; apply Hl; right; exact Hy). reflexivity.
Qed.

Lemma with_keys_raise {A} (key : A -> outcome Z) (l : list A) (x : A) :
  In x l -> (forall z, key x <> Ok z) -> exists e, with_keys key l = Raise e.
Proof.
  induction l as [|y l IH]; intros Hin Hx; [destruct Hin|].
  simpl. destruct (key y) as [z|e] eqn:Hy; [|exists e; reflexivity].
  destruct Hin as [->|Hin]; [exfalso; apply (Hx z); exact Hy|].
  destruct (IH Hin Hx) as [e He]. exists e. simpl. rewrite He. reflexivity.
Qed.

(** What [sorted] returns when every key can be computed: the same
    elements, in ascending order of the key. *)
Lemma sorted_ascending {A} (key : A -> outcome Z) (k : A -> Z) (l : list A) :
  (forall x, In x l -> key x = Ok (k x)) ->
  exists r, sorted l key = Ok r /\ Permutation l r /\
            StronglySorted (fun a b => k a <= k b) r.
Proof.
  intros Hl. unfold sorted. rewrite (with_keys_ok key k l Hl). simpl.
  set (leb := fun a b : Z * A => fst a <=? fst b).
  set (kl := map (fun x => (k x, x)) l).
  pose proof (sort_by_perm _ leb kl) as Hp.
  assert (Hs : StronglySorted (fun a b => leb a b = true) (sort_by leb kl)).
  { apply sort_by_sorted.
    - intros a b. unfold leb. rewrite !Z.leb_le. lia.
    - intros a b c. unfold leb. rewrite !Z.leb_le. lia. }
  assert (Hall : Forall (fun p => fst p = k (snd p)) (sort_by leb kl)).
  { eapply Permutation_Forall; [exact Hp|].
    unfold kl. apply Forall_map. apply Forall_forall. reflexivity. }
  eexists. split; [reflexivity|]. split.
  - apply (Permutation_map snd) in Hp. unfold kl in Hp.
    rewrite map_map, map_id in Hp. exact Hp.
  - clear Hp. induction Hs as [|p ps Hs IH Hp]; simpl; [constructor|].
    inversion Hall as [|? ? Hp0 Hps]; subst.
    constructor; [apply IH; exact Hps|].
    rewrite Forall_map. rewrite Forall_forall in *.
    intros q Hq. specialize (Hp q Hq). specialize (Hps q Hq).
    unfold leb in Hp. apply Z.leb_le in Hp. lia.
Qed.

Lemma sorted_strict {A} (k : A -> Z) (r : list A) :
  NoDup (map k r) ->
  StronglySorted (fun a b => k a <= k b) r ->
  StronglySorted (fun a b => k a < k b) r.
Proof.
  intros Hnd Hs. induction Hs as [|a r Hs IH Ha]; [constructor|].
  simpl in Hnd. inversion Hnd as [|? ? Hnotin Hnd']; subst.
  constructor; [apply IH; exact Hnd'|].
  rewrite Forall_forall in *. intros b Hb.
  specialize (Ha b Hb).
  assert (k a <> k b); [|lia].
  intros E. apply Hnotin. rewrite E. apply in_map. exact Hb.
Qed.

(** X6.  When the first token of every listed stem is a number followed by
    [m] (every sort key can be computed) and the keys are pairwise
    distinct, the script sorts the files into strictly ascending numeric
    order, and its result does not depend on the order in which the
    directory listed them. *)
Theorem merge_script_any_listing_order :
  forall (listing listing' : list Path) (s : Store),
    Permutation listing listing' ->
    (forall p, In p listing -> exists z, sort_key p = Ok z) ->
    NoDup (map sort_key listing) ->
    exists dxf_files,
      sorted listing sort_key = Ok dxf_files /\
      sorted listing' sort_key = Ok dxf_files /\
      Permutation listing dxf_files /\
      StronglySorted (fun p q => key_of p < key_of q) dxf_files /\
      merge_script listing s =
        merge_dxf_files_by_gap dxf_files 100 "data/dxf100" s /\
      merge_script listing' s = merge_script listing s.
Proof.
  intros l l' s Hperm Hkeys Hnd.
  assert (Hk : forall p, In p l -> sort_key p = Ok (key_of p)).
  { intros p Hp. destruct (Hkeys p Hp) as [z Hz]. rewrite Hz. reflexivity. }
  destruct (sorted_ascending sort_key key_of l Hk) as [r [Hr [Hpr Hsr]]].
  assert (Hstrict : StronglySorted (fun p q => key_of p < key_of q) r).
  { apply sorted_strict; [|exact Hsr].
    eapply Permutation_NoDup; [apply Permutation_map; exact Hpr|].
    assert (Hinj : map sort_key l = map (fun p => Ok (key_of p)) l).
    { apply map_ext_in. exact Hk. }
    rewrite Hinj in Hnd. rewrite <- (map_map key_of (@Ok Z)) in Hnd.
    eapply NoDup_map_inv. exact Hnd. }
  assert (Hr' : sorted l' sort_key = Ok r).
  { apply (sorted_of_permutation sort_key key_of r l').
    - intros p Hp. apply Hk. eapply Permutation_in; [apply Permutation_sym; exact Hpr|exact Hp].
    - exact Hstrict.
    - eapply perm_trans; [apply Permutation_sym; exact Hperm|exact Hpr]. }
  exists r. repeat split; try assumption.
  - unfold merge_script, bind, lift. rewrite Hr. reflexivity.
  - unfold merge_script, bind, lift. rewrite Hr, Hr'. reflexivity.
Qed.

Lemma merge_script_any_listing_order_witness :
  exists dxf_files,
    sorted (rev Examples.seven_files) sort_key = Ok dxf_files /\
    sorted Examples.seven_files sort_key = Ok dxf_files /\
    Permutation (rev Examples.seven_files) dxf_files /\
    StronglySorted (fun p q => key_of p < key_of q) dxf_files /\
    merge_script (rev Examples.seven_files) Examples.seven_store =
      merge_dxf_files_by_gap dxf_files 100 "data/dxf100" Examples.seven_store /\
    merge_script Examples.seven_files Examples.seven_store =
      merge_script (rev Examples.seven_files) Examples.seven_store.
Proof.
  apply (merge_script_any_listing_order (rev Examples.seven_files)
           Examples.seven_files Examples.seven_store).
  - apply Permutation_sym, Permutation_rev.
  - intros p Hp. simpl in Hp.
    repeat (destruct Hp as [<-|Hp]; [eexists; vm_compute; reflexivity|]). destruct Hp.
  - vm_compute.
    repeat (constructor; [simpl; intros H;
      repeat (destruct H as [H|H]; [discriminate H|]); exact H|]).
    constructor.
Defined.

(** X7.  A listed file whose stem does not start with a number (followed
    by [m]s) makes the sort key raise, the sort raises with it, and the
    script stops before it has made the output directory or written any
    file: the store is unchanged. *)
Theorem merge_script_bad_name :
  forall (listing : list Path) (s : Store) (p : Path),
    In p listing ->
    (forall z, sort_key p <> Ok z) ->
    exists e, merge_script listing s = (Raise e, s).
Proof.
  intros l s p Hp Hbad.
  destruct (with_keys_raise sort_key l p Hp Hbad) as [e He].
  exists e. unfold merge_script, bind, lift, sorted. rewrite He. reflexivity.
Qed.

Lemma merge_script_bad_name_witness :
  exists e,
    merge_script [Examples.band_file 0; mkPath "data/output" "summit map" ".dxf"]
      Examples.seven_store = (Raise e, Examples.seven_store).
Proof.
  apply (merge_script_bad_name _ Examples.seven_store
           (mkPath "data/output" "summit map" ".dxf")).
  - simpl. right. left. reflexivity.
  - intros z H. vm_compute in H. discriminate H.
Defined.

End ScriptProperties.

(* ===================================================================== *)
(** * src/data_maps.py: further properties of the band loop              *)
(* ===================================================================== *)

Module PlotProperties.

Import Py Fs Frame DataMaps Spec PipelineSpec PyFacts MapsFacts.
Local Open Scope Q_scope.

Lemma plot_bands_items `{Shapes} `{Splines} (data : DataFrame)
    (sorted_categories : list string) (alpha smoothing_factor : Q)
    (save_dxf : bool) (items : list (Z * string)) :
  forall (area_threshold : Q) (s : Store) (bands : list Band) (s' : Store),
    plot_bands data sorted_categories alpha smoothing_factor save_dxf
      items area_threshold s = (Ok bands, s') ->
    map (fun b => (band_idx b, band_category b)) bands = items.
Proof.
  induction items as [|[idx c] rest IH]; intros t s bands s' Hrun.
  - simpl in Hrun. injection Hrun as <- <-. reflexivity.
  - rewrite plot_bands_cons in Hrun.
    destruct (Spec.boundaries_at _ _ _ _ idx t) as [bs|e]; [|discriminate].
    cbv zeta in Hrun.
    destruct (Spec.save_band _ _ idx bs _ s) as [[[]|e] s1]; [|discriminate].
    destruct (plot_bands _ _ _ _ _ rest _ s1) as [[bands'|e] s2] eqn:Hrest;
      [|discriminate].
    injection Hrun as <- <-. simpl. rewrite (IH _ _ _ _ Hrest). reflexivity.
Qed.

Lemma enumerate_snd {A} (l : list A) (start : Z) :
  map snd (enumerate l start) = l.
Proof.
  revert start. induction l as [|a l IH]; intros start; simpl; [reflexivity|].
  rewrite IH. reflexivity.
Qed.

Lemma slice_all_but_last {A} (l : list A) : slice l 0 (-1) = removelast l.
Proof.
  unfold slice, slice_bound.
  change (0 <? 0)%Z with false. change (-1 <? 0)%Z with true. cbv iota.
  pose proof (len_nonneg l).
  rewrite Z.min_l by lia. simpl skipn.
  rewrite removelast_firstn_len. f_equal. unfold len in *. lia.
Qed.

Lemma slice_first {A} (l : list A) : slice l 0 1 = firstn 1 l.
Proof.
  unfold slice, slice_bound.
  change (0 <? 0)%Z with false. change (1 <? 0)%Z with false. cbv iota.
  pose proof (len_nonneg l).
  rewrite (Z.min_l 0) by lia. simpl skipn.
  destruct l as [|a l]; [reflexivity|].
  replace (Z.to_nat (Z.min 1 (len (a :: l)) - 0)) with 1%nat; [reflexivity|].
  unfold len. simpl List.length. lia.
Qed.

(** X8.  A run of [plot_concave_hull] that returns has processed exactly
    the categories [sorted_categories[start:end]], in that order.  With
    the arguments of [main.py] ([start = 0], [end = -1]) these are all the
    categories but the last one, which is never drawn; with the defaults
    ([start = 0], [end = 1]) it is the first category only. *)
Theorem plot_concave_hull_processed :
  forall (Sh : Shapes) (Sp : Splines) (data : DataFrame)
         (sorted_categories : list string) (alpha : Q) (start end_ : Z)
         (smoothing_factor : Q) (save_dxf : bool) (s s' : Store)
         (bands : list Band),
    plot_concave_hull data sorted_categories alpha start end_ smoothing_factor
      save_dxf s = (Ok bands, s') ->
    map band_category bands = slice sorted_categories start end_ /\
    (start = 0%Z -> end_ = (-1)%Z ->
     map band_category bands = removelast sorted_categories) /\
    (start = 0%Z -> end_ = 1%Z ->
     map band_category bands = firstn 1 sorted_categories).
Proof.
  intros Sh Sp data cats alpha start end_ sf save s s' bands Hrun.
  unfold plot_concave_hull in Hrun.
  apply plot_bands_items in Hrun.
  assert (E : map band_category bands = slice cats start end_).
  { rewrite <- (enumerate_snd (slice cats start end_) start), <- Hrun.
    rewrite map_map. reflexivity. }
  split; [exact E|]. split.
  - intros -> ->. rewrite E. apply slice_all_but_last.
  - intros -> ->. rewrite E. apply slice_first.
Qed.

Lemma plot_concave_hull_processed_witness :
  map band_category Examples.bands_from_1 = slice Examples.three_bands 1 3 /\
  (1%Z = 0%Z -> 3%Z = (-1)%Z ->
   map band_category Examples.bands_from_1 = removelast Examples.three_bands) /\
  (1%Z = 0%Z -> 3%Z = 1%Z ->
   map band_category Examples.bands_from_1 = firstn 1 Examples.three_bands).
Proof.
  refine (plot_concave_hull_processed Examples.two_squares_shapes
            Examples.vertex_splines Examples.three_band_data Examples.three_bands
            0.6 1 3 0.01 false (mkStore [] []) (snd Examples.run_from_1)
            Examples.bands_from_1 _).
  vm_compute. reflexivity.
Defined.


(** X10.  An exception raised while the boundaries of a band are smoothed
    ends the run with that exception: the bands after it are not
    processed, and the drawings of the bands before it, already saved,
    stay. *)
Theorem plot_bands_smoothing_failure :
  forall (Sh : Shapes) (Sp : Splines) (data : DataFrame)
         (sorted_categories : list string) (alpha smoothing_factor : Q)
         (save_dxf : bool) (before after : list (Z * string))
         (idx : Z) (category : string) (area_threshold : Q)
         (s s1 : Store) (bands : list Band) (e : exn),
    plot_bands data sorted_categories alpha smoothing_factor save_dxf
      before area_threshold s = (Ok bands, s1) ->
    boundaries_at data sorted_categories alpha smoothing_factor idx
      (threshold_after (List.length before) area_threshold) = Raise e ->
    plot_bands data sorted_categories alpha smoothing_factor save_dxf
      (before ++ (idx, category) :: after) area_threshold s = (Raise e, s1).
Proof.
  intros Sh Sp data cats alpha sf save before after idx c.
  induction before as [|[i0 c0] before IH]; intros t s s1 bands e Hrun Hfail.
  - simpl in Hrun. injection Hrun as <- <-. simpl app.
    rewrite plot_bands_cons. simpl in Hfail. rewrite Hfail. reflexivity.
  - simpl app. rewrite plot_bands_cons in Hrun |- *.
    destruct (Spec.boundaries_at _ _ _ _ i0 t) as [bs|e0]; [|discriminate].
    cbv zeta in Hrun |- *.
    destruct (Spec.save_band _ _ i0 bs _ s) as [[[]|e0] s0]; [|discriminate].
    destruct (plot_bands _ _ _ _ _ before (t - 0.02) s0) as [[bands'|e0] s2] eqn:Hrest;
      [|discriminate].
    injection Hrun as _ <-.
    simpl List.length in Hfail. unfold threshold_after in Hfail.
    rewrite Nat.iter_succ_r in Hfail.
    rewrite (IH (t - 0.02) s0 s2 bands' e Hrest Hfail). reflexivity.
Qed.

Lemma plot_bands_smoothing_failure_witness :
  @plot_bands MoreExamples.thin_shapes Examples.vertex_splines
    Examples.three_band_data Examples.three_bands 0.6 0.01 true
    (MoreExamples.first_two_items ++ [(2%Z, "100m to 150m"%string)])
    4.0 (mkStore [] []) =
  (Raise SplineError, snd MoreExamples.run_first_two).
Proof.
  apply (plot_bands_smoothing_failure MoreExamples.thin_shapes
           Examples.vertex_splines Examples.three_band_data Examples.three_bands
           0.6 0.01 true MoreExamples.first_two_items []
           2%Z "100m to 150m"%string 4.0 (mkStore [] [])
           (snd MoreExamples.run_first_two) MoreExamples.bands_first_two
           SplineError).
  - vm_compute. reflexivity.
  - vm_compute. reflexivity.
Defined.

(** ** The cumulative rows *)

Lemma slice_from_next {A} (l : list A) (idx : Z) (x : A) :
  (0 <= idx)%Z -> In x (slice_from l (idx + 1)) -> In x (slice_from l idx).
Proof.
  intros Hidx. unfold slice_from, slice_bound.
  destruct (Z.ltb_spec (idx + 1) 0); [lia|]. destruct (Z.ltb_spec idx 0); [lia|].
  intros Hin.
  set (a := Z.to_nat (Z.min idx (len l))).
  set (b := Z.to_nat (Z.min (idx + 1) (len l))) in *.
  assert (Hab : (a <= b)%nat) by (unfold a, b; lia).
  replace b with ((b - a) + a)%nat in Hin by lia.
  rewrite <- skipn_skipn in Hin.
  rewrite <- (firstn_skipn (b - a) (skipn a l)).
  apply in_or_app. right. exact Hin.
Qed.

(** X11.  The bands are cumulative and nested: at a sort index [idx >= 0],
    the rows from which the hull of the next band is computed are among
    the rows from which the hull of this band is computed, and the rows of
    the category at [idx] itself are among the latter. *)
Theorem category_data_nested :
  forall (data : DataFrame) (sorted_categories : list string) (idx : Z),
    (0 <= idx)%Z ->
    (forall r, In r (category_data data sorted_categories (idx + 1)) ->
               In r (category_data data sorted_categories idx)) /\
    (forall r c, getitem sorted_categories idx = Ok c ->
                 In r (rows data) -> category r = c ->
                 In r (category_data data sorted_categories idx)).
Proof.
  intros data cats idx Hidx. unfold category_data. split.
  - intros r Hr. apply filter_In in Hr. destruct Hr as [Hr Hin].
    apply filter_In. split; [exact Hr|].
    unfold isin in *. apply existsb_exists in Hin. destruct Hin as [c [Hc E]].
    apply existsb_exists. exists c. split; [|exact E].
    apply slice_from_next; assumption.
  - intros r c Hc Hr Hcat. apply filter_In. split; [exact Hr|].
    unfold isin. apply existsb_exists. exists c. split; [|apply String.eqb_eq; exact Hcat].
    rewrite getitem_nonneg in Hc by lia.
    destruct (nth_error cats (Z.to_nat idx)) as [x|] eqn:Hn; [|discriminate].
    injection Hc as ->.
    assert (Hlt : (Z.to_nat idx < List.length cats)%nat).
    { apply nth_error_Some. congruence. }
    unfold slice_from, slice_bound. destruct (Z.ltb_spec idx 0); [lia|].
    rewrite Z.min_l by (unfold len; lia).
    apply (nth_error_In _ 0). rewrite nth_error_skipn, Nat.add_0_r. exact Hn.
Qed.

Lemma category_data_nested_witness :
  (forall r, In r (category_data Examples.three_band_data Examples.three_bands (0 + 1)) ->
             In r (category_data Examples.three_band_data Examples.three_bands 0)) /\
  (forall r c, getitem Examples.three_bands 0 = Ok c ->
               In r (rows Examples.three_band_data) -> category r = c ->
               In r (category_data Examples.three_band_data Examples.three_bands 0)).
Proof.
  apply (category_data_nested Examples.three_band_data Examples.three_bands 0).
  lia.
Defined.

(** ** The names of the saved drawings *)






End PlotProperties.

(* ===================================================================== *)
(** * src/data_maps.py: the hull filter and the drawing writer           *)
(* ===================================================================== *)

Module WriterProperties.

Import Py Fs Frame DataMaps MergeDXF MergeScript Spec PipelineSpec.
Import PyFacts MergeFacts MapsFacts.
Local Open Scope Q_scope.

Lemma smooth_all_length `{Shapes} `{Splines} (polygons : list Polygon)
    (smoothing_factor : Q) (bs : list (list Q * list Q)) :
  smooth_all polygons smoothing_factor = Ok bs ->
  List.length bs = List.length polygons.
Proof.
  revert bs. induction polygons as [|p ps IH]; intros bs; simpl.
  - intros [= <-]. reflexivity.
  - destruct (smooth_boundary _ _ smoothing_factor) as [b|e]; [|discriminate].
    simpl. destruct (smooth_all ps smoothing_factor) as [bs'|e]; [|discriminate].
    simpl. intros [= <-]. simpl. rewrite (IH bs' eq_refl). reflexivity.
Qed.

(** X14.  For a hull of several polygons, the boundaries of a band are the
    smoothed exteriors of the polygons whose area is greater than the
    threshold, in the order of the hull, and of no other polygon: a
    polygon whose area equals the threshold is left out, and an exception
    of the smoother on a kept polygon is the result. *)
Theorem smooth_hull_multi_polygon :
  forall (Sh : Shapes) (Sp : Splines) (geoms : list Polygon)
         (area_threshold smoothing_factor : Q),
    smooth_hull (MultiPolygon geoms) area_threshold smoothing_factor =
      smooth_all (filter (fun p => negb (Qle_bool (area p) area_threshold)) geoms)
                 smoothing_factor /\
    (forall boundaries,
       smooth_hull (MultiPolygon geoms) area_threshold smoothing_factor =
         Ok boundaries ->
       List.length boundaries =
         List.length
           (filter (fun p => negb (Qle_bool (area p) area_threshold)) geoms)) /\
    (forall p, area p == area_threshold ->
               ~ In p (filter (fun p => negb (Qle_bool (area p) area_threshold)) geoms)).
Proof.
  intros Sh Sp geoms t sf.
  assert (E : smooth_hull (MultiPolygon geoms) t sf =
              smooth_all (filter (fun p => negb (Qle_bool (area p) t)) geoms) sf).
  { simpl. rewrite smooth_geoms_filter.
    destruct (smooth_all _ sf); reflexivity. }
  split; [exact E|]. split.
  - intros bs Hbs. rewrite E in Hbs. apply (smooth_all_length _ _ _ Hbs).
  - intros p Hp Hin. apply filter_In in Hin. destruct Hin as [_ Hin].
    apply negb_true_iff in Hin.
    assert (Hle : Qle_bool (area p) t = true).
    { apply Qle_bool_iff. rewrite Hp. apply Qle_refl. }
    congruence.
Qed.

(** ** The drawing of a band *)

Lemma filter_map_all {A B} (g : A -> B) (f : B -> bool) (l : list A) :
  (forall a, f (g a) = true) -> filter f (map g l) = map g l.
Proof.
  intros Hf. induction l as [|a l IH]; simpl; [reflexivity|].
  rewrite Hf, IH. reflexivity.
Qed.

Lemma filter_map_none {A B} (g : A -> B) (f : B -> bool) (l : list A) :
  (forall a, f (g a) = false) -> filter f (map g l) = [].
Proof.
  intros Hf. induction l as [|a l IH]; simpl; [reflexivity|].
  rewrite Hf. exact IH.
Qed.

Lemma query_lwpolyline_band_drawing (boundaries : list (list Q * list Q))
    (crosses : list Dxf.Point2D) :
  Dxf.query_lwpolyline "Boundaries" (band_drawing boundaries crosses) =
    map outline boundaries /\
  Dxf.query_lwpolyline "Margin" (band_drawing boundaries crosses) = [margin] /\
  Dxf.query_circle "Crosses" (band_drawing boundaries crosses) =
    map marker crosses.
Proof.
  unfold Dxf.query_lwpolyline, Dxf.query_circle, band_drawing. simpl.
  rewrite !filter_app. simpl.
  rewrite (filter_map_all outline) by reflexivity.
  rewrite !(filter_map_none marker) by reflexivity.
  rewrite (filter_map_none outline) by reflexivity.
  rewrite (filter_map_none outline) by reflexivity.
  rewrite (filter_map_all marker) by reflexivity.
  simpl. rewrite !app_nil_r. repeat split; reflexivity.
Qed.


(** X16.  The two stages fit: when the drawings of two bands, written by
    [save_combined_to_dxf], are the start and the end file of a group,
    the composite holds, in this order, the outlines of the start band on
    "Boundaries_start", the margin square (once, from the start file) on
    "Margin", the outlines of the end band on "Boundaries_end", and on
    "Crosses" the markers of the start band followed by those of the end
    band. *)
Theorem combine_of_saved_bands :
  forall (start_boundaries end_boundaries : list (list Q * list Q))
         (start_crosses end_crosses : list Dxf.Point2D)
         (start end_ output_file : Path) (s : Store),
    start <> end_ ->
    exists s1 doc,
      bind (save_combined_to_dxf start_boundaries start_crosses start)
           (fun _ => save_combined_to_dxf end_boundaries end_crosses end_) s =
        (Ok tt, s1) /\
      combine_dxf_files [start; end_] output_file [start; end_] s1 =
        (Ok tt, mkStore ((output_file, doc) :: files s1) (dirs s1)) /\
      Dxf.modelspace doc =
        map (fun b => Dxf.mkEntity "Boundaries_start"
                        (Dxf.LWPOLYLINE (combine (fst b) (snd b))))
            start_boundaries
        ++ [Dxf.mkEntity "Margin"
              (Dxf.LWPOLYLINE [(0, 0); (333, 0); (333, 333); (0, 333); (0, 0)])]
        ++ map (fun b => Dxf.mkEntity "Boundaries_end"
                           (Dxf.LWPOLYLINE (combine (fst b) (snd b))))
               end_boundaries
        ++ map (fun c => Dxf.mkEntity "Crosses" (Dxf.CIRCLE c 0.5)) start_crosses
        ++ map (fun c => Dxf.mkEntity "Crosses" (Dxf.CIRCLE c 0.5)) end_crosses.
Proof.
  intros bsa bsb csa csb a b out s Hab.
  set (s1 := mkStore ((b, band_drawing bsb csb) :: (a, band_drawing bsa csa) :: files s)
               (dirs s)).
  assert (Hneq : path_eqb b a = false).
  { destruct (path_eqb b a) eqn:E; [|reflexivity].
    apply path_eqb_eq in E. congruence. }
  assert (Hla : lookup (files s1) a = Some (band_drawing bsa csa)).
  { unfold s1. simpl. rewrite Hneq, path_eqb_refl. reflexivity. }
  assert (Hlb : lookup (files s1) b = Some (band_drawing bsb csb)).
  { unfold s1. simpl. rewrite path_eqb_refl. reflexivity. }
  exists s1. eexists. split; [|split].
  - unfold bind. rewrite !save_combined_to_dxf_spec. reflexivity.
  - apply (combine_dxf_files_spec [a; b] out [a; b] s1 a b _ _ 0%Z
             eq_refl eq_refl Hla Hlb).
    + simpl. rewrite path_eqb_refl. reflexivity.
    + intros p Hp. change (slice_from [a; b] 0) with [a; b] in Hp.
      unfold readable. destruct Hp as [<-|[<-|[]]]; congruence.
  - change (slice_from [a; b] 0) with [a; b]. unfold composite.
    simpl Dxf.modelspace. simpl flat_map. unfold file_crosses.
    rewrite Hla, Hlb.
    destruct (query_lwpolyline_band_drawing bsa csa) as [Ea [Ema Eca]].
    destruct (query_lwpolyline_band_drawing bsb csb) as [Eb [_ Ecb]].
    rewrite Ea, Ema, Eb, Eca, Ecb. unfold relabel.
    rewrite !map_map, app_nil_r. reflexivity.
Qed.

Lemma combine_of_saved_bands_witness :
  exists s1 doc,
    bind (save_combined_to_dxf [([0; 1], [0; 1])] [(1, 1)] (Examples.band_file 0))
         (fun _ => save_combined_to_dxf [] [(2, 2)] (Examples.band_file 50))
         (mkStore [] []) = (Ok tt, s1) /\
    combine_dxf_files [Examples.band_file 0; Examples.band_file 50]
      (output_path "data/dxf100" "0m" "50m")
      [Examples.band_file 0; Examples.band_file 50] s1 =
      (Ok tt, mkStore ((output_path "data/dxf100" "0m" "50m", doc) :: files s1)
                (dirs s1)) /\
    Dxf.modelspace doc =
      map (fun b => Dxf.mkEntity "Boundaries_start"
                      (Dxf.LWPOLYLINE (combine (fst b) (snd b))))
          [([0; 1], [0; 1])]
      ++ [Dxf.mkEntity "Margin"
            (Dxf.LWPOLYLINE [(0, 0); (333, 0); (333, 333); (0, 333); (0, 0)])]
      ++ map (fun b => Dxf.mkEntity "Boundaries_end"
                         (Dxf.LWPOLYLINE (combine (fst b) (snd b))))
             []
      ++ map (fun c => Dxf.mkEntity "Crosses" (Dxf.CIRCLE c 0.5)) [(1, 1)]
      ++ map (fun c => Dxf.mkEntity "Crosses" (Dxf.CIRCLE c 0.5)) [(2, 2)].
Proof.
  apply (combine_of_saved_bands [([0; 1], [0; 1])] [] [(1, 1)] [(2, 2)]
           (Examples.band_file 0) (Examples.band_file 50)
           (output_path "data/dxf100" "0m" "50m") (mkStore [] [])).
  intros H. vm_compute in H. discriminate H.
Defined.

End WriterProperties.

(* ===================================================================== *)
(** * The two scripts together                                           *)
(* ===================================================================== *)

Module PipelineProperties.

Import Py Fs Frame DataMaps MergeDXF MergeScript Spec PipelineSpec.
Import PyFacts MergeFacts MapsFacts.
Local Open Scope Q_scope.

Lemma string_length_app (a b : string) :
  String.length (a ++ b) = (String.length a + String.length b)%nat.
Proof. induction a as [|x a IH]; simpl; [reflexivity|]. rewrite IH. reflexivity. Qed.

(** A name that ends in [.dxf50] does not end in [.dxf]. *)
Lemma ends_with_dxf50 (stem : string) :
  ends_with (stem ++ ".dxf50") ".dxf" = false.
Proof.
  induction stem as [|x stem IH]; [reflexivity|].
  change (String x stem ++ ".dxf50")%string with (String x (stem ++ ".dxf50")).
  cbn [ends_with]. rewrite IH.
  destruct (String.eqb_spec (String x (stem ++ ".dxf50")) ".dxf") as [E|_];
    [|reflexivity].
  apply (f_equal String.length) in E. simpl in E.
  rewrite string_length_app in E. simpl in E. lia.
Qed.

Lemma distinct_paths_filter_app (keep : Path -> bool) (l1 l2 : list Path) :
  (forall p, In p l1 -> keep p = false) ->
  distinct_paths (filter keep (l1 ++ l2)) = distinct_paths (filter keep l2).
Proof.
  intros Hl1. rewrite filter_app.
  replace (filter keep l1) with (@nil Path); [reflexivity|].
  symmetry. induction l1 as [|p l1 IH]; simpl; [reflexivity|].
  rewrite (Hl1 p (or_introl eq_refl)). apply IH.
  intros q Hq. apply Hl1. right. exact Hq.
Qed.

(** Whatever a run of the band loop does, what it wrote are drawings with
    the suffix [.dxf50]. *)
Lemma plot_bands_written `{Shapes} `{Splines} (data : DataFrame)
    (sorted_categories : list string) (alpha smoothing_factor : Q)
    (save_dxf : bool) (items : list (Z * string)) :
  forall (area_threshold : Q) (s : Store),
    exists saves,
      snd (plot_bands data sorted_categories alpha smoothing_factor save_dxf
             items area_threshold s) = saved saves s /\
      Forall (fun c => suffix (fst c) = ".dxf50"%string) saves.
Proof.
  induction items as [|[idx c] rest IH]; intros t s.
  - exists []. split; [destruct s; reflexivity|constructor].
  - rewrite plot_bands_cons.
    destruct (Spec.boundaries_at _ _ _ _ idx t) as [bs|e];
      [|exists []; split; [destruct s; reflexivity|constructor]].
    cbv zeta. unfold Spec.save_band.
    destruct save_dxf.
    + unfold bind at 1, lift.
      destruct (getitem sorted_categories idx) as [name|e];
        [|exists []; split; [destruct s; reflexivity|constructor]].
      rewrite save_combined_to_dxf_spec.
      match goal with |- context [plot_bands _ _ _ _ _ rest _ ?s1] =>
        destruct (IH (t - 0.02) s1) as [saves [Hs Hall]];
        destruct (plot_bands data sorted_categories alpha smoothing_factor true
                    rest (t - 0.02) s1) as [[bands'|e] s2] end;
        simpl in Hs; subst s2;
        (eexists (_ :: saves); split;
         [unfold saved; simpl; rewrite <- app_assoc; reflexivity
         |constructor; [reflexivity|exact Hall]]).
    + unfold ret.
      destruct (IH (t - 0.02) s) as [saves [Hs Hall]].
      destruct (plot_bands data sorted_categories alpha smoothing_factor false
                  rest (t - 0.02) s) as [[bands'|e] s2];
        simpl in Hs; subst s2; exists saves; split; [reflexivity|exact Hall
                                                    |reflexivity|exact Hall].
Qed.

(** X17.  The drawings that [plot_concave_hull] saves have the suffix
    [.dxf50], and no such name matches the pattern [*.dxf] of the merge
    script: whatever the run did, the glob of the script lists the same
    files after it as before it, in every directory.  The merge script
    does not see the per-band drawings under the names they were saved
    with. *)
Theorem saved_drawings_are_not_listed :
  forall (Sh : Shapes) (Sp : Splines) (data : DataFrame)
         (sorted_categories : list string) (alpha : Q) (start end_ : Z)
         (smoothing_factor : Q) (save_dxf : bool) (s : Store) (dir : string),
    (forall category, fnmatch_dxf (mkPath dir category ".dxf50") = false) /\
    glob_dxf dir
      (snd (plot_concave_hull data sorted_categories alpha start end_
              smoothing_factor save_dxf s)) =
    glob_dxf dir s.
Proof.
  intros Sh Sp data cats alpha start end_ sf save s dir.
  split; [intros c; apply ends_with_dxf50|].
  unfold plot_concave_hull.
  destruct (plot_bands_written data cats alpha sf save
              (enumerate (slice cats start end_) start) 4.0 s) as [saves [-> Hall]].
  unfold glob_dxf, saved. simpl files. rewrite map_app.
  apply distinct_paths_filter_app.
  intros p Hp. apply in_map_iff in Hp. destruct Hp as [[q d] [<- Hq]].
  apply in_rev in Hq. rewrite Forall_forall in Hall.
  specialize (Hall _ Hq). simpl in Hall. simpl fst.
  unfold fnmatch_dxf, file_name. rewrite Hall, ends_with_dxf50.
  apply andb_false_r.
Qed.

End PipelineProperties.

(* ===================================================================== *)
(** * src/data_processing.py: rescaling                                  *)
(* ===================================================================== *)

Module RescaleProperties.

Import Py Frame Rescale PyFacts.
Local Open Scope Q_scope.

Lemma fold_min_spec (rest : list Q) :
  forall v,
    let m := fold_left (fun m x => if Qle_bool x m then x else m) rest v in
    m <= v /\ Forall (fun x => m <= x) rest /\ In m (v :: rest).
Proof.
  induction rest as [|x rest IH]; intros v; simpl.
  - split; [apply Qle_refl|]. split; [constructor|left; reflexivity].
  - destruct (IH (if Qle_bool x v then x else v)) as [H1 [H2 H3]].
    destruct (Qle_bool x v) eqn:E.
    + apply Qle_bool_iff in E. split; [lra|]. split; [constructor; assumption|].
      destruct H3 as [H3|H3]; [right; left; exact H3|right; right; exact H3].
    + assert (Hlt : v < x).
      { apply Qnot_le_lt. intros Hle. apply Qle_bool_iff in Hle. congruence. }
      split; [exact H1|]. split; [constructor; [lra|exact H2]|].
      destruct H3 as [H3|H3]; [left; exact H3|right; right; exact H3].
Qed.

Lemma fold_max_spec (rest : list Q) :
  forall v,
    let m := fold_left (fun m x => if Qle_bool m x then x else m) rest v in
    v <= m /\ Forall (fun x => x <= m) rest /\ In m (v :: rest).
Proof.
  induction rest as [|x rest IH]; intros v; simpl.
  - split; [apply Qle_refl|]. split; [constructor|left; reflexivity].
  - destruct (IH (if Qle_bool v x then x else v)) as [H1 [H2 H3]].
    destruct (Qle_bool v x) eqn:E.
    + apply Qle_bool_iff in E. split; [lra|]. split; [constructor; assumption|].
      destruct H3 as [H3|H3]; [right; left; exact H3|right; right; exact H3].
    + assert (Hlt : x < v).
      { apply Qnot_le_lt. intros Hle. apply Qle_bool_iff in Hle. congruence. }
      split; [exact H1|]. split; [constructor; [lra|exact H2]|].
      destruct H3 as [H3|H3]; [left; exact H3|right; right; exact H3].
Qed.

(** The minimum and the maximum of a column bound its values and are
    values of the column. *)
Lemma series_bounds (values : list Q) (v : Q) :
  In v values ->
  series_min values <= v <= series_max values /\
  In (series_min values) values /\ In (series_max values) values.
Proof.
  destruct values as [|v0 rest]; [intros []|]. intros Hin.
  pose proof (fold_min_spec rest v0) as [Hm1 [Hm2 Hm3]].
  pose proof (fold_max_spec rest v0) as [HM1 [HM2 HM3]].
  simpl series_min. simpl series_max.
  rewrite Forall_forall in Hm2, HM2.
  split; [|split; assumption].
  destruct Hin as [<-|Hin]; [split; assumption|].
  split; [apply Hm2|apply HM2]; exact Hin.
Qed.

Lemma scale_bounds (v m M lo hi : Q) :
  m <= v <= M -> m < M -> lo <= hi ->
  lo <= (v - m) / (M - m) * (hi - lo) + lo <= hi.
Proof.
  intros Hv HmM Hlh.
  assert (HD : 0 < M - m) by lra.
  assert (H0 : 0 <= (v - m) / (M - m)).
  { apply Qle_shift_div_l; [exact HD|]. lra. }
  assert (H1 : (v - m) / (M - m) <= 1).
  { apply Qle_shift_div_r; [exact HD|]. lra. }
  set (t := (v - m) / (M - m)) in *. nra.
Qed.


(** What a rescaled frame of at least one row is. *)
Lemma rescale_data_rows (data d' : DataFrame) (lo hi : Q) :
  rows data <> [] ->
  rescale_data data [lo; hi] = Ok (Frame d') ->
  let lat_min := series_min (map latitude (rows data)) in
  let lat_max := series_max (map latitude (rows data)) in
  let alt_min := series_min (map longitude (rows data)) in
  let alt_max := series_max (map longitude (rows data)) in
  lat_min < lat_max /\ alt_min < alt_max /\
  d' = mkDataFrame
         (map (fun r =>
                 mkRow ((longitude r - alt_min) / (alt_max - alt_min) * (hi - lo) + lo)
                       ((latitude r - lat_min) / (lat_max - lat_min) * (hi - lo) + lo)
                       (altitude r) (category r) (nom r))
              (rows data))
         (has_nom data).
Proof.
  intros Hne. unfold rescale_data. simpl obind.
  destruct (rows data) as [|r0 rest] eqn:Hrows; [congruence|].
  rewrite <- Hrows.
  destruct (Qeq_bool (series_max (map latitude (rows data)))
                     (series_min (map latitude (rows data)))) eqn:Elat;
    [discriminate|].
  destruct (Qeq_bool (series_max (map longitude (rows data)))
                     (series_min (map longitude (rows data)))) eqn:Elon;
    [discriminate|].
  simpl orb. cbv iota. intros [= <-]. cbv zeta.
  apply Qeq_bool_neq in Elat. apply Qeq_bool_neq in Elon.
  assert (Hin : In r0 (rows data)) by (rewrite Hrows; left; reflexivity).
  destruct (series_bounds (map latitude (rows data)) (latitude r0) (in_map _ _ _ Hin))
    as [Hlat _].
  destruct (series_bounds (map longitude (rows data)) (longitude r0) (in_map _ _ _ Hin))
    as [Hlon _].
  split; [|split; [|reflexivity]].
  - destruct (Qlt_le_dec (series_min (map latitude (rows data)))
                         (series_max (map latitude (rows data)))) as [H|H]; [exact H|].
    exfalso. apply Elat. apply Qle_antisym; lra.
  - destruct (Qlt_le_dec (series_min (map longitude (rows data)))
                         (series_max (map longitude (rows data)))) as [H|H]; [exact H|].
    exfalso. apply Elon. apply Qle_antisym; lra.
Qed.



(** X19.  The edges of [rescale_data]: a range list with fewer than two
    entries raises [IndexError]; a frame without rows is returned as it
    is; and when all the rows have the same latitude (or the same
    longitude) the division is [0 / 0] and the column is not a number. *)
Theorem rescale_data_edges :
  forall (data : DataFrame) (lo hi : Q),
    rescale_data data [] = Raise IndexError /\
    rescale_data data [lo] = Raise IndexError /\
    (rows data = [] -> rescale_data data [lo; hi] = Ok (Frame data)) /\
    (rows data <> [] ->
     (forall r r', In r (rows data) -> In r' (rows data) -> latitude r == latitude r') ->
     rescale_data data [lo; hi] = Ok NaNColumn) /\
    (rows data <> [] ->
     (forall r r', In r (rows data) -> In r' (rows data) -> longitude r == longitude r') ->
     rescale_data data [lo; hi] = Ok NaNColumn).
Proof.
  intros data lo hi.
  assert (Hsame : forall (col : Row -> Q),
            rows data <> [] ->
            (forall r r', In r (rows data) -> In r' (rows data) -> col r == col r') ->
            Qeq_bool (series_max (map col (rows data)))
                     (series_min (map col (rows data))) = true).
  { intros col Hne Hall. apply Qeq_bool_iff.
    destruct (rows data) as [|r0 rest] eqn:Hrows; [congruence|].
    rewrite <- Hrows in *.
    assert (Hin : In r0 (rows data)) by (rewrite Hrows; left; reflexivity).
    destruct (series_bounds _ _ (in_map col _ _ Hin)) as [_ [Hm HM]].
    apply in_map_iff in Hm. destruct Hm as [rm [Em Hrm]].
    apply in_map_iff in HM. destruct HM as [rM [EM HrM]].
    rewrite <- Em, <- EM. apply Hall; assumption. }
  split; [reflexivity|]. split; [reflexivity|]. split; [|split].
  - intros Hrows. unfold rescale_data. rewrite Hrows. reflexivity.
  - intros Hne Hall. unfold rescale_data. simpl obind.
    rewrite (Hsame latitude Hne Hall).
    destruct (rows data); [congruence|reflexivity].
  - intros Hne Hall. unfold rescale_data. simpl obind.
    rewrite (Hsame longitude Hne Hall). rewrite orb_true_r.
    destruct (rows data); [congruence|reflexivity].
Qed.

Lemma rescale_data_edges_witness :
  rescale_data Examples.triangle_data [] = Raise IndexError /\
  rescale_data (mkDataFrame [] true) [0; 333] = Ok (Frame (mkDataFrame [] true)) /\
  rescale_data (mkDataFrame [mkRow 1 2 30 "0m to 50m" None] false) [0; 333] =
    Ok NaNColumn.
Proof.
  destruct (rescale_data_edges Examples.triangle_data 0 333) as [H1 _].
  destruct (rescale_data_edges (mkDataFrame [] true) 0 333) as [_ [_ [H2 _]]].
  destruct (rescale_data_edges (mkDataFrame [mkRow 1 2 30 "0m to 50m" None] false)
              0 333) as [_ [_ [_ [H3 _]]]].
  split; [exact H1|]. split; [apply H2; reflexivity|].
  apply H3; [discriminate|].
  intros r r' [<-|[]] [<-|[]]. reflexivity.
Defined.

End RescaleProperties.

(* ===================================================================== *)
(** * src/main.py                                                        *)
(* ===================================================================== *)

Module MainProperties.

Import Py Fs Frame DataMaps Spec PipelineSpec PyFacts MapsFacts RescaleProperties.
Local Open Scope Q_scope.

Lemma rescale_data_in_range (data d' : DataFrame) (lo hi : Q) :
  lo <= hi ->
  Rescale.rescale_data data [lo; hi] = Ok (Rescale.Frame d') ->
  forall r', In r' (rows d') ->
    lo <= latitude r' <= hi /\ lo <= longitude r' <= hi.
Proof.
  intros Hlh Hres r' Hin.
  destruct (rows data) as [|r0 rest] eqn:Hrows.
  - unfold Rescale.rescale_data in Hres. rewrite Hrows in Hres. simpl in Hres.
    injection Hres as <-. rewrite Hrows in Hin. destruct Hin.
  - assert (Hne : rows data <> []) by (rewrite Hrows; discriminate).
    destruct (rescale_data_rows data d' lo hi Hne Hres) as [Hlat [Hlon ->]].
    clear Hrows r0 rest. simpl rows in Hin.
    apply in_map_iff in Hin. destruct Hin as [r [<- Hr]]. simpl.
    destruct (series_bounds _ _ (in_map latitude _ _ Hr)) as [Bl _].
    destruct (series_bounds _ _ (in_map longitude _ _ Hr)) as [Bo _].
    split; apply scale_bounds; assumption.
Qed.

Lemma red_crosses_rows (has_nom : bool) (category_data : list Row)
    (category : string) (c : Dxf.Point2D) :
  In c (red_crosses has_nom category_data category) ->
  exists r, In r category_data /\ Frame.category r = category /\
            Frame.notna r = true /\ c = (longitude r, latitude r).
Proof.
  unfold red_crosses. destruct has_nom; [|intros []].
  intros Hin. apply in_map_iff in Hin. destruct Hin as [r [<- Hr]].
  apply filter_In in Hr. destruct Hr as [Hr Hna].
  apply filter_In in Hr. destruct Hr as [Hr Hc].
  apply String.eqb_eq in Hc.
  exists r. repeat split; assumption.
Qed.

(** X20.  The script rescales to [[0, 333]] before it draws: in a run of
    [main.py] that returns, every marker of every band lies in the square
    [[0, 333] x [0, 333]], and the bands drawn are the categories of the
    data in ascending order without the highest one. *)
Theorem main_markers_in_margin :
  forall (Sh : Shapes) (Sp : Splines) (data : DataFrame)
         (run : io (list Band)) (s s' : Store) (bands : list Band),
    Main.main_from data = Some run ->
    run s = (Ok bands, s') ->
    map band_category bands =
      removelast (snd (DataProcessing.categorize_and_sort (rows data) 50)) /\
    forall b c, In b bands -> In c (band_crosses b) -> in_margin c.
Proof.
  intros Sh Sp data run s s' bands Hmain Hrun.
  unfold Main.main_from in Hmain.
  destruct (DataProcessing.categorize_and_sort (rows data) 50) as [rows' cats] eqn:Hcs.
  destruct (Rescale.rescale_data (mkDataFrame rows' (has_nom data)) Main.xy_range)
    as [[d'|]|e] eqn:Hres; try discriminate.
  injection Hmain as <-. unfold plot_concave_hull in Hrun. simpl snd.
  split.
  - pose proof (PlotProperties.plot_bands_items _ _ _ _ _ _ _ _ _ _ Hrun) as Hitems.
    rewrite <- PlotProperties.slice_all_but_last.
    rewrite <- (PlotProperties.enumerate_snd (slice cats 0 (-1)) 0), <- Hitems.
    rewrite map_map. reflexivity.
  - intros b c Hb Hc.
    destruct (plot_bands_bands _ _ _ _ _ _ _ _ _ _ Hrun) as [_ Hnth].
    apply In_nth_error in Hb. destruct Hb as [k Hk].
    destruct (Hnth k b Hk) as [_ [_ [_ Hcr]]].
    rewrite Hcr in Hc. apply red_crosses_rows in Hc.
    destruct Hc as [r [Hr [_ [_ ->]]]].
    unfold category_data in Hr. apply filter_In in Hr. destruct Hr as [Hr _].
    assert (Hlh : 0 <= 333) by (vm_compute; discriminate).
    destruct (rescale_data_in_range _ _ 0 333 Hlh Hres r Hr) as [Hlat Hlon].
    unfold in_margin. simpl. split; assumption.
Qed.

Lemma main_markers_in_margin_witness :
  map band_category MoreExamples.main_bands =
    removelast (snd (DataProcessing.categorize_and_sort
                       (rows Examples.three_band_data) 50)) /\
  forall b c, In b MoreExamples.main_bands -> In c (band_crosses b) -> in_margin c.
Proof.
  refine (main_markers_in_margin Examples.two_squares_shapes Examples.vertex_splines
            Examples.three_band_data MoreExamples.main_io (mkStore [] [])
            (snd (MoreExamples.main_io (mkStore [] []))) MoreExamples.main_bands _ _).
  - reflexivity.
  - vm_compute. reflexivity.
Defined.

End MainProperties.

(* ===================================================================== *)
(** * src/data_processing.py: the bins of any size                       *)
(* ===================================================================== *)

Module ProcessingProperties.

Import Py Fs Frame DataProcessing Spec PyFacts TokenFacts LabelFacts SortFacts
       ProcessingFacts GapFacts.
Local Open Scope Q_scope.





(** The bands of the example: [-0.5] and [-20] fall into [-25m to 0m],
    [100] into the band that starts at it. *)
Example edge_categories :
  map category (fst (categorize_and_sort MoreExamples.edge_rows 25)) =
  ["-25m to 0m"; "100m to 125m"; "75m to 100m"; "-25m to 0m"; "0m to 25m"]%string.
Proof. vm_compute. reflexivity. Qed.





(** X23.  The name of a band survives the pipeline: the file of the band
    [label b bin_size] has the sort key [b] in [mergeDXF.py], whatever its
    directory and suffix; its first word is [<b>m]; and a composite named
    from that word has the sort key [b] again.  This holds for negative
    [b] as well. *)
Theorem band_label_sort_key :
  forall (b bin_size : Z) (dir ext out end_meter : string),
    MergeDXF.sort_key (mkPath dir (label b bin_size) ext) = Ok b /\
    MergeDXF.first_token (mkPath dir (label b bin_size) ext) = Ok (str b ++ "m")%string /\
    MergeDXF.sort_key (MergeDXF.output_path out (str b ++ "m")%string end_meter) = Ok b.
Proof.
  intros b bin_size dir ext out end_meter.
  assert (Htok : is_token (str b ++ "m")%string).
  { split; [destruct (str b); discriminate|].
    rewrite all_chars_app. rewrite andb_true_iff. split; [|reflexivity].
    apply (all_chars_impl is_numeral_char);
      [apply numeral_char_not_space|apply str_chars]. }
  assert (Hstrip : rstrip "m" (str b ++ "m") = str b).
  { apply rstrip_snoc.
    apply (all_chars_impl is_numeral_char); [apply numeral_char_not_m|apply str_chars]. }
  split; [|split].
  - change (MergeDXF.sort_key (mkPath dir (label b bin_size) ext))
      with (label_key (label b bin_size)).
    apply label_key_label.
  - change (MergeDXF.first_token (mkPath dir (label b bin_size) ext))
      with (getitem (split (label b bin_size)) 0).
    unfold label.
    change (str b ++ "m to " ++ str (b + bin_size) ++ "m")%string
      with (str b ++ ("m" ++ String " " ("to " ++ str (b + bin_size) ++ "m")))%string.
    rewrite <- append_assoc.
    apply split_first_word; [exact Htok|reflexivity].
  - unfold MergeDXF.sort_key. rewrite (output_path_first_token _ _ _ Htok).
    simpl obind. rewrite Hstrip. apply int_str.
Qed.

(** X24.  A composite has the sort key of the first file of its group:
    its name starts with the first word of that file's stem. *)
Theorem output_path_sort_key :
  forall (p : Path) (start_meter out end_meter : string),
    MergeDXF.first_token p = Ok start_meter ->
    MergeDXF.first_token (MergeDXF.output_path out start_meter end_meter) =
      Ok start_meter /\
    MergeDXF.sort_key (MergeDXF.output_path out start_meter end_meter) =
      MergeDXF.sort_key p.
Proof.
  intros p sm out em Hp.
  pose proof (first_token_is_token _ _ Hp) as Htok.
  pose proof (output_path_first_token out sm em Htok) as Hout.
  split; [exact Hout|].
  unfold MergeDXF.sort_key. rewrite Hout, Hp. reflexivity.
Qed.

Lemma output_path_sort_key_witness :
  MergeDXF.first_token (MergeDXF.output_path "data/dxf100" "150m" "250m") =
    Ok "150m"%string /\
  MergeDXF.sort_key (MergeDXF.output_path "data/dxf100" "150m" "250m") =
    MergeDXF.sort_key (mkPath "data/output" "150m to 200m" ".dxf").
Proof.
  apply (output_path_sort_key (mkPath "data/output" "150m to 200m" ".dxf")).
  vm_compute. reflexivity.
Defined.

End ProcessingProperties.

(* ===================================================================== *)
(** * src/data_maps.py: the marker shapes                                *)
(* ===================================================================== *)

Module MarkerProperties.

Import Py Markers PyFacts.
Local Open Scope Q_scope.

Lemma fold_append_map {A B} (f : A -> B) (l : list A) :
  forall acc,
    fold_left (fun acc i => (acc ++ [f i])%list) l acc = (acc ++ map f l)%list.
Proof.
  induction l as [|a l IH]; intros acc; simpl.
  - rewrite app_nil_r. reflexivity.
  - rewrite IH, <- app_assoc. reflexivity.
Qed.

Lemma range_n_closed (n : Z) :
  range_n n = map Z.of_nat (seq 0 (Z.to_nat n)).
Proof.
  unfold range_n. rewrite range_up_closed by lia.
  unfold Spec.ceil_div.
  replace ((n - 0 + 1 - 1) / 1)%Z with n by (rewrite Z.div_1_r; lia).
  apply map_ext. intros k. lia.
Qed.

Section Circle.

Context `{Trig}.
Variables (x y radius : Q) (num_segments : Z).

(** The point of the circle at the step [i]. *)
Let point (i : Z) : Dxf.Point2D :=
  let angle := 2 * pi * inject_Z i / inject_Z num_segments in
  (x + radius * cos angle, y + radius * sin angle).

Lemma create_circle_points :
  create_circle x y radius num_segments =
  obind (getitem (map point (range_n num_segments)) 0) (fun first =>
    Ok (map point (range_n num_segments) ++ [first])%list).
Proof.
  pose proof (fold_append_map point (range_n num_segments) []) as E.
  simpl app in E. rewrite <- E. reflexivity.
Qed.

End Circle.

(** X25.  [create_circle] with at least one segment returns
    [num_segments + 1] points: the point at the angle
    [2 * pi * i / num_segments] around the centre for every [i] below
    [num_segments], in that order, and the first point again, which
    closes the circle. *)
Theorem create_circle_closed :
  forall (T : Trig) (x y radius : Q) (num_segments : Z),
    (1 <= num_segments)%Z ->
    exists points,
      create_circle x y radius num_segments = Ok points /\
      len points = (num_segments + 1)%Z /\
      (forall i, (0 <= i < num_segments)%Z ->
         getitem points i =
           Ok (x + radius * cos (2 * pi * inject_Z i / inject_Z num_segments),
               y + radius * sin (2 * pi * inject_Z i / inject_Z num_segments))) /\
      getitem points (-1) = getitem points 0.
Proof.
  intros T x y radius n Hn.
  set (point := fun i : Z =>
         (x + radius * cos (2 * pi * inject_Z i / inject_Z n),
          y + radius * sin (2 * pi * inject_Z i / inject_Z n))).
  assert (Hc : create_circle x y radius n =
               obind (getitem (map point (range_n n)) 0) (fun first =>
                 Ok (map point (range_n n) ++ [first])%list))
    by apply create_circle_points.
  rewrite range_n_closed in Hc. rewrite map_map in Hc.
  set (pts := map (fun k => point (Z.of_nat k)) (seq 0 (Z.to_nat n))) in *.
  assert (Hlen : List.length pts = Z.to_nat n).
  { unfold pts. rewrite length_map, length_seq. reflexivity. }
  assert (Hnth : forall k, (k < Z.to_nat n)%nat ->
            nth_error pts k = Some (point (Z.of_nat k))).
  { intros k Hk. unfold pts. rewrite nth_error_map.
    rewrite nth_error_seq. destruct (Nat.ltb_spec k (Z.to_nat n)); [|lia].
    reflexivity. }
  assert (H0 : getitem pts 0 = Ok (point 0%Z)).
  { rewrite getitem_nonneg by lia. change (Z.to_nat 0) with 0%nat.
    rewrite (Hnth 0%nat) by lia. reflexivity. }
  rewrite H0 in Hc. simpl obind in Hc.
  exists (pts ++ [point 0%Z])%list. split; [exact Hc|]. split; [|split].
  - unfold len. rewrite length_app, Hlen. simpl. lia.
  - intros i Hi. rewrite getitem_nonneg by lia.
    rewrite nth_error_app1 by lia.
    rewrite (Hnth (Z.to_nat i)) by lia. rewrite Z2Nat.id by lia. reflexivity.
  - rewrite getitem_last. rewrite getitem_nonneg by lia.
    change (Z.to_nat 0) with 0%nat.
    rewrite nth_error_app1 by lia. rewrite (Hnth 0%nat) by lia. reflexivity.
Qed.

Lemma create_circle_closed_witness :
  exists points,
    @create_circle MoreExamples.series_trig 10 20 3 4 = Ok points /\
    len points = (4 + 1)%Z /\
    (forall i, (0 <= i < 4)%Z ->
       getitem points i =
         Ok (10 + 3 * @cos MoreExamples.series_trig
                        (2 * @pi MoreExamples.series_trig * inject_Z i / inject_Z 4),
             20 + 3 * @sin MoreExamples.series_trig
                        (2 * @pi MoreExamples.series_trig * inject_Z i / inject_Z 4))) /\
    getitem points (-1) = getitem points 0.
Proof.
  apply (create_circle_closed MoreExamples.series_trig 10 20 3 4). lia.
Defined.

(** X26.  [create_circle] without a segment ([num_segments <= 0]) has no
    first point to close the circle with and raises [IndexError]. *)
Theorem create_circle_no_segments :
  forall (T : Trig) (x y radius : Q) (num_segments : Z),
    (num_segments <= 0)%Z ->
    create_circle x y radius num_segments = Raise IndexError.
Proof.
  intros T x y radius n Hn.
  rewrite create_circle_points. cbv zeta. rewrite range_n_closed.
  replace (Z.to_nat n) with 0%nat by lia. reflexivity.
Qed.

Lemma create_circle_no_segments_witness :
  @create_circle MoreExamples.series_trig 10 20 3 0 = Raise IndexError.
Proof.
  apply (create_circle_no_segments MoreExamples.series_trig 10 20 3 0). lia.
Defined.


End MarkerProperties.
